(** * wandb_notino_sync: a shallow embedding of the WandB -> Notion synchroniser

    The script polls a tracking service for runs, filters the finished runs of
    one user that the destination does not hold yet, maps each of them to a
    dictionary of Notion properties and creates one page per dictionary.

    Python values are modelled by inductive types, dictionaries by [gmap],
    exceptions by a sum type, and the effects of the script (the logger, the
    destination database, [time.sleep]) by a state-and-exception monad over a
    record [World].  What lies outside the process (the configuration file,
    the tracking service, the Notion service, the scheduling library) enters
    as data: the outcome of each call, which may be an exception.

    The definitions follow the source function by function and keep its names;
    the properties of the specification are the theorems marked C1 to C10. *)

From Stdlib Require Import ZArith String Ascii List Lia QArith DecimalString.
From stdpp Require Import base option list gmap strings.

Set Warnings "-register-all".

Open Scope string_scope.
Open Scope list_scope.

(** ** Python values and exceptions *)

(** Instances of [Exception] that the script raises or meets.  [OtherError]
    stands for any other subclass (KeyError, TypeError, an HTTP error of a
    client library, ...) with its class name and the text [str(e)] gives. *)
Inductive exn : Type :=
| ConfigError (msg : string)
| NotionError (msg : string)
| OtherError (cls msg : string).

(** [str(e)] *)
Definition exn_str (e : exn) : string :=
  match e with
  | ConfigError msg => msg
  | NotionError msg => msg
  | OtherError _ msg => msg
  end.

(** The outcome of evaluating an expression: a raised exception or a value. *)
Definition result (A : Type) : Type := exn + A.

Definition rbind {A B} (r : result A) (k : A -> result B) : result B :=
  match r with
  | inl e => inl e
  | inr a => k a
  end.

Notation "'let?' x ':=' r 'in' k" := (rbind r (fun x => k))
  (at level 10, x pattern, r at level 100, k at level 200).

(** [try: body / except Exception: return default] around an expression. *)
Definition try_default {A} (body : result A) (default : A) : A :=
  match body with
  | inl _ => default
  | inr a => a
  end.

(** [try: body / except Exception as e: handler e] around an expression. *)
Definition rtry {A} (body : result A) (handler : exn -> result A) : result A :=
  match body with
  | inl e => handler e
  | inr a => inr a
  end.

(** A float is kept by what the script observes of it: the text [str] prints,
    and the whole second [datetime.fromtimestamp] assigns to it after rounding
    to microseconds ([None] for nan and the infinities). *)
Record PyFloat : Type := { float_repr : string; float_seconds : option Z }.

(** Values held by a run's configuration and summary maps.  [VObj] is any
    other object (a list, a nested dictionary), kept by its [str] text. *)
Inductive PyVal : Type :=
| VNone
| VBool (b : bool)
| VInt (n : Z)
| VFloat (f : PyFloat)
| VStr (s : string)
| VObj (repr : string).

(** [str(n)] for an int *)
Definition str_int (n : Z) : string := NilZero.string_of_int (Z.to_int n).

(** [str(v)] *)
Definition py_str (v : PyVal) : string :=
  match v with
  | VNone => "None"
  | VBool true => "True"
  | VBool false => "False"
  | VInt n => str_int n
  | VFloat f => float_repr f
  | VStr s => s
  | VObj repr => repr
  end.

(** JSON documents as the Notion client returns them.  An object is the list
    of its members in document order; [py_getitem] reads the first member of a
    given name. *)
Inductive json : Type :=
| JNull
| JBool (b : bool)
| JNum (n : Z)
| JStr (s : string)
| JList (items : list json)
| JDict (members : list (string * json)).

Fixpoint assoc (k : string) (members : list (string * json)) : option json :=
  match members with
  | [] => None
  | (k', v) :: rest => if String.eqb k k' then Some v else assoc k rest
  end.

Definition type_name (j : json) : string :=
  match j with
  | JNull => "NoneType"
  | JBool _ => "bool"
  | JNum _ => "int"
  | JStr _ => "str"
  | JList _ => "list"
  | JDict _ => "dict"
  end.

(** [j[key]] for a string key *)
Definition py_getitem (j : json) (key : string) : result json :=
  match j with
  | JDict members =>
      match assoc key members with
      | Some v => inr v
      | None => inl (OtherError "KeyError" ("'" +:+ key +:+ "'"))
      end
  | JList _ => inl (OtherError "TypeError" "list indices must be integers or slices, not str")
  | JStr _ => inl (OtherError "TypeError" "string indices must be integers, not 'str'")
  | _ => inl (OtherError "TypeError" ("'" +:+ type_name j +:+ "' object is not subscriptable"))
  end.

(** [j[0]] *)
Definition py_getitem0 (j : json) : result json :=
  match j with
  | JList (x :: _) => inr x
  | JList [] => inl (OtherError "IndexError" "list index out of range")
  | JStr (String c _) => inr (JStr (String c EmptyString))
  | JStr EmptyString => inl (OtherError "IndexError" "string index out of range")
  | JDict _ => inl (OtherError "KeyError" "0")
  | _ => inl (OtherError "TypeError" ("'" +:+ type_name j +:+ "' object is not subscriptable"))
  end.

(** The truth value of [j] in [if j:] *)
Definition py_truthy (j : json) : bool :=
  match j with
  | JNull => false
  | JBool b => b
  | JNum n => negb (n =? 0)%Z
  | JStr s => negb (String.eqb s "")
  | JList items => match items with [] => false | _ => true end
  | JDict members => match members with [] => false | _ => true end
  end.

Fixpoint chars (s : string) : list json :=
  match s with
  | EmptyString => []
  | String c rest => JStr (String c EmptyString) :: chars rest
  end.

(** The items [for x in j] visits *)
Definition py_iter (j : json) : result (list json) :=
  match j with
  | JList items => inr items
  | JDict members => inr (map (fun kv => JStr (fst kv)) members)
  | JStr s => inr (chars s)
  | _ => inl (OtherError "TypeError" ("'" +:+ type_name j +:+ "' object is not iterable"))
  end.

(** ** The standard library's [datetime] *)

Section Datetime.
Local Open Scope Z_scope.

(** The platform's local time.  [utc_offset] is the offset of the local zone
    from UTC, in seconds, in force at an instant given in seconds since the
    epoch.  [pads_year] says whether [strftime] prints [%Y] with leading zeros
    for a year below 1000: the conversion is the C library's, and glibc prints
    such a year without them. *)
Class LocalZone : Type := {
  utc_offset : Z -> Z;
  pads_year : bool
}.

Record datetime : Type := {
  dt_year : Z; dt_month : Z; dt_day : Z;
  dt_hour : Z; dt_minute : Z; dt_second : Z
}.

(** The proleptic Gregorian date of a day number counted from 1970-01-01. *)
Definition civil_from_days (days : Z) : Z * Z * Z :=
  let z := days + 719468 in
  let era := z / 146097 in
  let doe := z - era * 146097 in
  let yoe := (doe - doe / 1460 + doe / 36524 - doe / 146096) / 365 in
  let doy := doe - (365 * yoe + yoe / 4 - yoe / 100) in
  let mp := (5 * doy + 2) / 153 in
  let d := doy - (153 * mp + 2) / 5 + 1 in
  let m := if mp <? 10 then mp + 3 else mp - 9 in
  (yoe + era * 400 + (if m <=? 2 then 1 else 0), m, d).

(** Whether the local date at the instant [t] lies in the years 1 to 9999, the
    years of [datetime]. *)
Definition local_year_ok `{LocalZone} (t : Z) : bool :=
  let '(y, _, _) := civil_from_days ((t + utc_offset t) / 86400) in
  (1 <=? y) && (y <=? 9999).

(** [datetime.fromtimestamp(secs)] for a whole number of seconds: the local
    wall-clock date and time, or ValueError.  CPython refuses a local date
    outside the years 1 to 9999, and it refuses the same of the instants it
    looks at to find out whether the local time is repeated: the instant one
    day earlier and, when the offset has decreased since then, the instant
    earlier by that decrease. *)
Definition fromtimestamp `{LocalZone} (secs : Z) : result datetime :=
  let loc := secs + utc_offset secs in
  let '(y, m, d) := civil_from_days (loc / 86400) in
  let sod := loc mod 86400 in
  let transition := utc_offset secs - utc_offset (secs - 86400) in
  if local_year_ok secs
     && local_year_ok (secs - 86400)
     && ((0 <=? transition) || local_year_ok (secs + transition))
  then
    inr {| dt_year := y; dt_month := m; dt_day := d;
           dt_hour := sod / 3600; dt_minute := (sod mod 3600) / 60;
           dt_second := sod mod 60 |}
  else inl (OtherError "ValueError" "year is out of range").

Definition digit (n : Z) : ascii := ascii_of_nat (48 + Z.to_nat (n mod 10)).

Definition pad2 (n : Z) : string :=
  String (digit (n / 10)) (String (digit n) EmptyString).

Definition pad4 (n : Z) : string :=
  String (digit (n / 1000)) (String (digit (n / 100)) (pad2 n)).

(** [dt.strftime("%Y-%m-%d %H:%M:%S")].  The year of a [datetime] is positive;
    where the C library does not pad it, it is printed as a plain decimal. *)
Definition strftime `{LocalZone} (dt : datetime) : string :=
  (if pads_year then pad4 (dt_year dt) else str_int (dt_year dt))
  +:+ "-" +:+ pad2 (dt_month dt) +:+ "-" +:+ pad2 (dt_day dt)
  +:+ " " +:+ pad2 (dt_hour dt) +:+ ":" +:+ pad2 (dt_minute dt) +:+ ":" +:+ pad2 (dt_second dt).

(** The whole second [datetime.fromtimestamp(v)] starts from, or the
    exception it raises on a value that is not a number. *)
Definition timestamp_seconds (v : PyVal) : result Z :=
  match v with
  | VInt n => inr n
  | VBool b => inr (if b then 1 else 0)
  | VFloat f =>
      match float_seconds f with
      | Some s => inr s
      | None => inl (OtherError "ValueError" "cannot convert float NaN to integer")
      end
  | VNone => inl (OtherError "TypeError" "'NoneType' object cannot be interpreted as an integer")
  | VStr _ => inl (OtherError "TypeError" "'str' object cannot be interpreted as an integer")
  | VObj _ => inl (OtherError "TypeError" "an integer is required")
  end.

End Datetime.

(** ** Runs *)

(** A run as the specification's data model has it: a read-only record. *)
Record Run : Type := {
  r_id : string;
  r_state : string;
  r_user : string;
  r_config : gmap string PyVal;
  r_summary : gmap string PyVal
}.

(** The places where [process_runs] reads [run.id] and [run.user.name]: in the
    inclusion test (lines 145-146), in the row (lines 149-151) and in the
    handler's log message (line 161). *)
Inductive site : Type := AtFilter | AtRow | AtHandler.

(** A run as the code meets it: an object of type [Any] whose attribute reads
    may raise.  [run.id] and [run.user.name] are read at several places, some
    inside the [try] and some outside, so their outcome is given per place;
    [run.config] and [run.summary] are read inside [get_run_value] and
    [get_timestamp] only. *)
Record RunObj : Type := {
  run_state : result string;
  run_id : site -> result string;
  run_user_name : site -> result string;
  run_config : result (gmap string PyVal);
  run_summary : result (gmap string PyVal)
}.

(** The object of a well-behaved run: every read returns the record's field. *)
Definition remote (r : Run) : RunObj :=
  {| run_state := inr (r_state r);
     run_id := fun _ => inr (r_id r);
     run_user_name := fun _ => inr (r_user r);
     run_config := inr (r_config r);
     run_summary := inr (r_summary r) |}.

(** [key in d] and [d[key]] for a dictionary with string keys *)
Definition dict_contains (d : gmap string PyVal) (key : string) : bool :=
  bool_decide (is_Some (d !! key)).

Definition dict_getitem (d : gmap string PyVal) (key : string) : result PyVal :=
  match d !! key with
  | Some v => inr v
  | None => inl (OtherError "KeyError" ("'" +:+ key +:+ "'"))
  end.

(** [get_timestamp], lines 103-110 *)
Definition get_timestamp `{LocalZone} (run : RunObj) : string :=
  try_default
    (let? s := run_summary run in
     if dict_contains s "_timestamp" then
       let? s' := run_summary run in
       let? v := dict_getitem s' "_timestamp" in
       let? secs := timestamp_seconds v in
       let? dt := fromtimestamp secs in
       inr (strftime dt)
     else inr "")
    "".

(** [get_run_value], lines 112-121 *)
Definition get_run_value (run : RunObj) (key : string) : string :=
  try_default
    (let? c := run_config run in
     if dict_contains c key then
       let? c' := run_config run in
       let? v := dict_getitem c' key in
       inr (py_str v)
     else
       let? s := run_summary run in
       if dict_contains s key then
         let? s' := run_summary run in
         let? v := dict_getitem s' key in
         inr (py_str v)
       else inr "")
    "".

(** ** Destination properties *)

(** The three shapes of property value the script builds:
    [{"title": [{"text": {"content": v}}]}], [{"date": {"start": v}}] and
    [{"rich_text": [{"text": {"content": v}}]}]. *)
Inductive Property : Type :=
| Title (content : string)
| Date (start : string)
| RichText (content : string).

(** One pass of the loop body of [create_notion_properties], lines 127-135 *)
Definition set_property (properties : gmap string Property) (hv : string * string)
  : gmap string Property :=
  let '(header, value) := hv in
  if String.eqb header "Run ID" then <["Name" := Title value]> properties
  else if String.eqb header "Timestamp" then
    (if negb (String.eqb value "") then <[header := Date value]> properties
     else properties)
  else <[header := RichText value]> properties.

Arguments set_property : simpl never.

(** [create_notion_properties], lines 123-137 *)
Definition create_notion_properties (run_data headers : list string)
  : gmap string Property :=
  foldl set_property ∅ (zip headers run_data).

(** The title of a destination row, when it has one. *)
Definition title_of (properties : gmap string Property) : option string :=
  match properties !! "Name" with
  | Some (Title content) => Some content
  | _ => None
  end.

Definition titles (rows : list (gmap string Property)) : list string :=
  omap title_of rows.

(** ** Effects *)

Inductive level : Type := INFO | ERROR.

(** What the script acts on: the records handed to the logger, the rows of
    the destination database, every [pages.create] request issued (granted or
    not), and the durations passed to [time.sleep]. *)
Record World : Type := {
  w_log : list (level * string);
  w_rows : list (gmap string Property);
  w_requests : list (gmap string Property);
  w_slept : list Q
}.

Definition M (A : Type) : Type := World -> result A * World.

Definition ret {A} (a : A) : M A := fun w => (inr a, w).

Definition raise {A} (e : exn) : M A := fun w => (inl e, w).

Definition bind {A B} (m : M A) (k : A -> M B) : M B :=
  fun w =>
    match m w with
    | (inl e, w') => (inl e, w')
    | (inr a, w') => k a w'
    end.

Notation "'let*' x ':=' m 'in' k" := (bind m (fun x => k))
  (at level 10, x pattern, m at level 100, k at level 200).

(** The outcome of an expression, inside a computation. *)
Definition lift {A} (r : result A) : M A := fun w => (r, w).

(** [try: body / except Exception as e: handler e] *)
Definition try_except {A} (body : M A) (handler : exn -> M A) : M A :=
  fun w =>
    match body w with
    | (inl e, w') => handler e w'
    | (inr a, w') => (inr a, w')
    end.

Definition logger (lv : level) (msg : string) : M unit :=
  fun w => (inr tt, {| w_log := w_log w ++ [(lv, msg)]; w_rows := w_rows w;
                       w_requests := w_requests w; w_slept := w_slept w |}).

Definition sleep (d : Q) : M unit :=
  fun w => (inr tt, {| w_log := w_log w; w_rows := w_rows w;
                       w_requests := w_requests w; w_slept := w_slept w ++ [d] |}).

(** ** The row processor *)

(** The two [if] tests of lines 145-146, with Python's short-circuit [and]:
    [run.id] is read only for a finished run and [run.user.name] only for a
    finished run whose identifier is new. *)
Definition run_filter (run : RunObj) (existing_run_ids : list string)
    (user_name : string) : result bool :=
  let? st := run_state run in
  if String.eqb st "finished" then
    let? i := run_id run AtFilter in
    if bool_decide (i ∈ existing_run_ids) then inr false
    else
      let? u := run_user_name run AtFilter in
      inr (String.eqb u user_name)
  else inr false.

(** The value row of lines 148-156 *)
Definition build_row `{LocalZone} (run : RunObj) (final_headers : list string)
  : result (list string) :=
  let? i := run_id run AtRow in
  let ts := get_timestamp run in
  let? u := run_user_name run AtRow in
  inr ([i; ts; u] ++ map (get_run_value run) (drop 3 final_headers)).

(** The body of the [for] loop of [process_runs], lines 145-162 *)
Definition process_run `{LocalZone} (run : RunObj) (existing_run_ids final_headers : list string)
    (user_name : string) (pages_to_create : list (gmap string Property))
  : M (list (gmap string Property)) :=
  let* included := lift (run_filter run existing_run_ids user_name) in
  if included : bool then
    match build_row run final_headers with
    | inr row_data =>
        ret (pages_to_create ++ [create_notion_properties row_data final_headers])
    | inl e =>
        let* i := lift (run_id run AtHandler) in
        let* _ := logger ERROR ("Error processing run " +:+ i +:+ ": " +:+ exn_str e) in
        ret pages_to_create
    end
  else ret pages_to_create.

Fixpoint process_runs_from `{LocalZone} (runs : list RunObj)
    (existing_run_ids final_headers : list string) (user_name : string)
    (pages_to_create : list (gmap string Property))
  : M (list (gmap string Property)) :=
  match runs with
  | [] => ret pages_to_create
  | run :: rest =>
      let* pages := process_run run existing_run_ids final_headers user_name pages_to_create in
      process_runs_from rest existing_run_ids final_headers user_name pages
  end.

(** [process_runs], lines 139-164 *)
Definition process_runs `{LocalZone} (runs : list RunObj)
    (existing_run_ids final_headers : list string) (user_name : string)
  : M (list (gmap string Property)) :=
  process_runs_from runs existing_run_ids final_headers user_name [].

(** ** The destination: writer and reader *)

(** The Notion service as the client object shows it during one tick: the
    outcome of the existence probe, the response to the query, and, for each
    [pages.create] request, the exception it meets if it is refused.  That
    last outcome may depend on every request issued before it. *)
Record Client : Type := {
  databases_retrieve : string -> option exn;
  databases_query : string -> result json;
  pages_create :
    string -> list (gmap string Property) -> gmap string Property -> option exn
}.

(** [notion.pages.create(parent={"database_id": database_id}, properties=...)] *)
Definition notion_pages_create (notion : Client) (database_id : string)
    (page_properties : gmap string Property) : M unit :=
  fun w =>
    match pages_create notion database_id (w_requests w) page_properties with
    | Some e =>
        (inl e, {| w_log := w_log w; w_rows := w_rows w;
                   w_requests := w_requests w ++ [page_properties];
                   w_slept := w_slept w |})
    | None =>
        (inr tt, {| w_log := w_log w;
                    w_rows := w_rows w ++ [page_properties];
                    w_requests := w_requests w ++ [page_properties];
                    w_slept := w_slept w |})
    end.

(** The [for] loop of [sync_data], lines 169-174 *)
Fixpoint create_pages (notion : Client) (database_id : string)
    (pages : list (gmap string Property)) : M unit :=
  match pages with
  | [] => ret tt
  | page_properties :: rest =>
      let* _ := notion_pages_create notion database_id page_properties in
      let* _ := sleep (1 # 2) in
      create_pages notion database_id rest
  end.

(** [sync_data], lines 166-176 *)
Definition sync_data (notion : Client) (database_id : string)
    (pages : list (gmap string Property)) : M unit :=
  try_except (create_pages notion database_id pages)
    (fun e => raise (NotionError ("Failed to sync data: " +:+ exn_str e))).

(** [page["properties"]["Name"]["title"]], line 185 *)
Definition page_title (page : json) : result json :=
  let? properties := py_getitem page "properties" in
  let? name := py_getitem properties "Name" in
  py_getitem name "title".

(** The [for] loop of [get_existing_run_ids], lines 184-187 *)
Fixpoint collect_titles (pages results : list json) : result (list json) :=
  match pages with
  | [] => inr results
  | page :: rest =>
      let? title := page_title page in
      if py_truthy title then
        let? first := py_getitem0 title in
        let? text := py_getitem first "text" in
        let? content := py_getitem text "content" in
        collect_titles rest (results ++ [content])
      else collect_titles rest results
  end.

(** [get_existing_run_ids], lines 178-191.  The call reads the service and
    changes nothing, so it is an expression. *)
Definition get_existing_run_ids (notion : Client) (database_id : string)
  : result (list json) :=
  rtry
    (let? query := databases_query notion database_id in
     let? results := py_getitem query "results" in
     let? pages := py_iter results in
     collect_titles pages [])
    (fun e => inl (NotionError ("Failed to get existing run IDs: " +:+ exn_str e))).

(** The strings of a list of identifiers.  [run.id not in existing_run_ids]
    compares a string with each item, and an item that is not a string is
    equal to none, so only the strings bear on the test. *)
Definition str_items (ids : list json) : list string :=
  omap (fun j => match j with JStr s => Some s | _ => None end) ids.

(** ** Configuration *)

Record Args : Type := {
  schedule_time : Z;
  user_name : string;
  database_id : string;
  config_path : string
}.

(** The JSON object of the configuration file, by its two required keys; a key
    is [None] when the object lacks it.  The values are taken to have the
    types the script expects of them, a string and a list of strings. *)
Record Document : Type := {
  doc_NOTION_TOKEN : option string;
  doc_FIXED_HEADERS : option (list string)
}.

(** A JSON document that is not an object: [json.load] returns [None], a
    bool, a number, a string or a list for it. *)
Inductive NonObject : Type :=
| TopNull
| TopBool (b : bool)
| TopInt (n : Z)
| TopFloat (f : PyFloat)
| TopStr (s : string)
| TopList (items : list json).

(** What [open] and [json.load] meet at a path: no file, a text that is not
    JSON, another exception, a JSON object, or a JSON document of another
    kind. *)
Inductive ConfigFile : Type :=
| FileNotFound
| InvalidJson
| Unreadable (e : exn)
| Parsed (doc : Document)
| ParsedOther (v : NonObject).

Record Config : Type := {
  NOTION_TOKEN : string;
  FIXED_HEADERS : list string;
  TEAM_NAME : string;
  PROJECT_NAME : string
}.

(** [wandb.run]: the project and the entity of the active run; a name that is
    [None] or empty is the empty string here (both are false in [not name]). *)
Record WandbRun : Type := { project : string; entity : string }.

(** The runs [api.runs(path)] yields: a lazy sequence, which may raise once
    the runs fetched so far have been visited. *)
Record Runs : Type := { fetched : list RunObj; fetch_error : option exn }.

(** Everything outside the process that one tick reads. *)
Record Env : Type := {
  config_file : string -> ConfigFile;
  wandb_run : option WandbRun;
  notion_service : Client;
  wandb_Api : option exn;
  api_runs : string -> Runs
}.

(** [get_wandb_project_info], lines 45-57 *)
Definition get_wandb_project_info (env : Env) : result (string * string) :=
  match wandb_run env with
  | None => inl (ConfigError "No active WandB run found")
  | Some current_run =>
      if String.eqb (project current_run) "" || String.eqb (entity current_run) ""
      then inl (ConfigError "Failed to get project or team name from WandB run")
      else inr (entity current_run, project current_run)
  end.

(** The text of a list of strings in an f-string *)
Definition repr_list (l : list string) : string :=
  "[" +:+ String.concat ", " (map (fun s => "'" +:+ s +:+ "'") l) +:+ "]".

(** [key in v] (line 66) for a document that is not an object: a substring
    test on a string, a search for an equal item in a list, TypeError on the
    others. *)
Definition top_contains (v : NonObject) (key : string) : result bool :=
  match v with
  | TopStr s => inr (if String.index 0 key s is Some _ then true else false)
  | TopList items => inr (bool_decide (key ∈ str_items items))
  | TopNull => inl (OtherError "TypeError" "argument of type 'NoneType' is not iterable")
  | TopBool _ => inl (OtherError "TypeError" "argument of type 'bool' is not iterable")
  | TopInt _ => inl (OtherError "TypeError" "argument of type 'int' is not iterable")
  | TopFloat _ => inl (OtherError "TypeError" "argument of type 'float' is not iterable")
  end.

(** The exception of [v['TEAM_NAME'] = team_name] (line 72) on a document that
    is not an object. *)
Definition top_setitem (v : NonObject) : exn :=
  match v with
  | TopList _ => OtherError "TypeError" "list indices must be integers or slices, not str"
  | TopStr _ => OtherError "TypeError" "'str' object does not support item assignment"
  | TopNull => OtherError "TypeError" "'NoneType' object does not support item assignment"
  | TopBool _ => OtherError "TypeError" "'bool' object does not support item assignment"
  | TopInt _ => OtherError "TypeError" "'int' object does not support item assignment"
  | TopFloat _ => OtherError "TypeError" "'float' object does not support item assignment"
  end.

(** [load_config], lines 59-82.  The handlers of lines 79-82 catch
    FileNotFoundError and JSONDecodeError, the handler of line 75 ConfigError;
    a TypeError raised on a document that is not an object passes them all. *)
Definition load_config (env : Env) (config_path : string) : M Config :=
  match config_file env config_path with
  | FileNotFound => raise (ConfigError ("Config file not found: " +:+ config_path))
  | InvalidJson => raise (ConfigError ("Invalid JSON in config file: " +:+ config_path))
  | Unreadable e => raise e
  | ParsedOther v =>
      match top_contains v "NOTION_TOKEN" with
      | inl e => raise e
      | inr token =>
          match top_contains v "FIXED_HEADERS" with
          | inl e => raise e
          | inr headers =>
              if token && headers then
                match get_wandb_project_info env with
                | inl e =>
                    raise (ConfigError ("Failed to get WandB project info: " +:+ exn_str e))
                | inr _ => raise (top_setitem v)
                end
              else
                let missing_keys :=
                  ((if token then [] else ["NOTION_TOKEN"])
                   ++ (if headers then [] else ["FIXED_HEADERS"])) in
                raise (ConfigError ("Missing required keys in config: "
                                    +:+ repr_list missing_keys))
          end
      end
  | Parsed doc =>
      match doc_NOTION_TOKEN doc, doc_FIXED_HEADERS doc with
      | Some token, Some headers =>
          match get_wandb_project_info env with
          | inl e => raise (ConfigError ("Failed to get WandB project info: " +:+ exn_str e))
          | inr (team_name, project_name) =>
              let* _ := logger INFO ("Using WandB project: " +:+ project_name
                                     +:+ " from team: " +:+ team_name) in
              ret {| NOTION_TOKEN := token; FIXED_HEADERS := headers;
                     TEAM_NAME := team_name; PROJECT_NAME := project_name |}
          end
      | token, headers =>
          let missing_keys :=
            ((if token is None then ["NOTION_TOKEN"] else [])
             ++ (if headers is None then ["FIXED_HEADERS"] else [])) in
          raise (ConfigError ("Missing required keys in config: " +:+ repr_list missing_keys))
      end
  end.

(** [init_notion], lines 84-101.  Of the pair it returns, the client; the API
    handle is [api_runs] of the environment. *)
Definition init_notion (env : Env) (database_id : string) (config : Config)
  : result Client :=
  rtry
    (let notion := notion_service env in
     let? _ := rtry
                 (match databases_retrieve notion database_id with
                  | Some e => inl e
                  | None => inr tt
                  end)
                 (fun e => inl (NotionError ("Failed to access Notion database: "
                                             +:+ exn_str e))) in
     let? _ := match wandb_Api env with Some e => inl e | None => inr tt end in
     inr notion)
    (fun e => inl (NotionError ("Failed to initialize Notion client: " +:+ exn_str e))).

(** ** One tick, and the scheduler loop *)

(** [process_runs] over the lazy sequence: the [for] statement raises when
    fetching the next runs fails. *)
Definition process_fetched_runs `{LocalZone} (runs : Runs)
    (existing_run_ids final_headers : list string) (user_name : string)
  : M (list (gmap string Property)) :=
  let* pages := process_runs (fetched runs) existing_run_ids final_headers user_name in
  match fetch_error runs with
  | Some e => raise e
  | None => ret pages
  end.

(** The [try] block of [main], lines 195-210: one sync cycle *)
Definition sync_cycle `{LocalZone} (env : Env) (args : Args) : M unit :=
  let* config := load_config env (config_path args) in
  let* notion := lift (init_notion env (database_id args) config) in
  let runs := api_runs env (TEAM_NAME config +:+ "/" +:+ PROJECT_NAME config) in
  let* existing_run_ids := lift (get_existing_run_ids notion (database_id args)) in
  let* new_pages := process_fetched_runs runs (str_items existing_run_ids)
                      (FIXED_HEADERS config) (user_name args) in
  match new_pages with
  | _ :: _ =>
      let* _ := sync_data notion (database_id args) new_pages in
      logger INFO ("Successfully added " +:+ str_int (Z.of_nat (length new_pages))
                   +:+ " new runs")
  | [] => logger INFO "No new runs to add"
  end.

(** [main], lines 193-214 *)
Definition main `{LocalZone} (env : Env) (args : Args) : M unit :=
  try_except (sync_cycle env args)
    (fun e =>
       let* _ := logger ERROR ("Error in main sync process: " +:+ exn_str e) in
       raise e).

(** [schedule.run_pending()] with the one job the script registers: the job
    runs when the library finds it due, and an exception the job raises comes
    out of [run_pending] (the library does not catch it). *)
Definition run_pending (due : bool) (job : M unit) : M unit :=
  if due then job else ret tt.

Inductive control : Type := Continue | Break.

(** One pass of the [while True] loop, lines 223-232.  [interrupted] says that
    a KeyboardInterrupt arrives during the pass's [time.sleep(1)]; a pass whose
    tick raised does not reach that call.  This is the one interrupt the model
    has: an interrupt that arrives while the tick runs, or inside the handler
    of lines 230-232, is outside it. *)
Definition loop_pass (due interrupted : bool) (job : M unit) (w : World)
  : control * World :=
  match run_pending due job w with
  | (inr _, w1) =>
      if interrupted
      then (Break, snd (logger INFO "Sync process stopped by user" w1))
      else (Continue, snd (sleep 1 w1))
  | (inl e, w1) =>
      (Continue,
       snd ((let* _ := logger ERROR ("Unexpected error: " +:+ exn_str e) in sleep 60) w1))
  end.

(** The loop over a finite prefix of its passes: for each pass, whether the job
    is due, whether the user interrupts, and what the tick would read. *)
Fixpoint scheduler_loop `{LocalZone} (args : Args) (passes : list (bool * bool * Env))
    (w : World) : control * World :=
  match passes with
  | [] => (Continue, w)
  | (due, interrupted, env) :: rest =>
      match loop_pass due interrupted (main env args) w with
      | (Break, w1) => (Break, w1)
      | (Continue, w1) => scheduler_loop args rest w1
      end
  end.

(** ** The specification's vocabulary *)

(** The inclusion contract of the Row Processor (specification, 4.5). *)
Definition spec_qualifies (existing_run_ids : list string) (user_name : string)
    (r : Run) : Prop :=
  r_state r = "finished" ∧ (r_id r ∉ existing_run_ids) ∧ r_user r = user_name.

#[global] Instance spec_qualifies_dec existing_run_ids user_name r :
  Decision (spec_qualifies existing_run_ids user_name r).
Proof. unfold spec_qualifies. apply _. Defined.

(** The page a run object contributes to a batch that runs to its end: the
    properties of its row when it passes the inclusion test and its row is
    built, and none otherwise. *)
Definition page_of `{LocalZone} (run : RunObj) (existing_run_ids final_headers : list string)
    (user_name : string) : option (gmap string Property) :=
  match run_filter run existing_run_ids user_name, build_row run final_headers with
  | inr true, inr row_data => Some (create_notion_properties row_data final_headers)
  | _, _ => None
  end.

(** The value row and the property set of a run that is a plain record. *)
Definition spec_row `{LocalZone} (r : Run) (headers : list string) : list string :=
  ([r_id r; get_timestamp (remote r); r_user r]
   ++ map (get_run_value (remote r)) (drop 3 headers)).

Definition spec_properties `{LocalZone} (r : Run) (headers : list string)
  : gmap string Property :=
  create_notion_properties (spec_row r headers) headers.

(** The header list opens with the title column, and no other column bears
    its name or the name of the property it fills. *)
Definition title_first (headers : list string) : Prop :=
  ∃ rest, headers = "Run ID" :: rest ∧ ("Run ID" ∉ rest) ∧ ("Name" ∉ rest).

(** The second header, and no other, is the date column. *)
Definition timestamp_second (headers : list string) : Prop :=
  ∃ h rest, headers = h :: "Timestamp" :: rest ∧ h ≠ "Timestamp" ∧ ("Timestamp" ∉ rest).

(** A page has no property "Timestamp", or a date property with a value that
    is not empty. *)
Definition date_or_absent (properties : gmap string Property) : Prop :=
  match properties !! "Timestamp" with
  | None => True
  | Some (Date start) => start ≠ ""
  | Some _ => False
  end.

(** What the reader takes from one row of a query response: the content of
    the first text run of the title, or nothing for a title that is false in
    [if title:] (an empty list, null). *)
Definition row_content (page : json) : result (option json) :=
  let? title := page_title page in
  if py_truthy title then
    let? first := py_getitem0 title in
    let? text := py_getitem first "text" in
    let? content := py_getitem text "content" in
    inr (Some content)
  else inr None.

(** A page object of a query response, reduced to what the reader looks at:
    a title property "Name" with the given text runs. *)
Definition text_run (content : string) : json :=
  JDict [("type", JStr "text"); ("text", JDict [("content", JStr content)])].

Definition notion_page (title : list string) : json :=
  JDict [("object", JStr "page");
         ("properties", JDict [("Name", JDict [("title", JList (map text_run title))])])].

(** The world after more records went to the logger. *)
Definition add_log (records : list (level * string)) (w : World) : World :=
  {| w_log := w_log w ++ records; w_rows := w_rows w;
     w_requests := w_requests w; w_slept := w_slept w |}.

(** The world after [sync_data] issued [requests], of which [created] were
    granted, sleeping once after each page created. *)
Definition after_writes (created requests : list (gmap string Property)) (w : World)
  : World :=
  {| w_log := w_log w;
     w_rows := w_rows w ++ created;
     w_requests := w_requests w ++ requests;
     w_slept := w_slept w ++ replicate (length created) (1 # 2)%Q |}.

(** ** Sample data *)

(** UTC on a platform whose C library does not pad the year. *)
Definition UTC : LocalZone := {| utc_offset := fun _ => 0%Z; pads_year := false |}.

(** Korea Standard Time, nine hours east of UTC all year, on such a platform. *)
Definition KST : LocalZone := {| utc_offset := fun _ => 32400%Z; pads_year := false |}.

Definition sample_headers : list string := ["Run ID"; "Timestamp"; "User"; "lr"].

Definition sample_args : Args :=
  {| schedule_time := 30; user_name := "alice"; database_id := "db-1";
     config_path := "config.json" |}.

(** A finished run of alice, with a learning rate in its configuration. *)
Definition run_a : Run :=
  {| r_id := "a1"; r_state := "finished"; r_user := "alice";
     r_config := {["lr" := VFloat {| float_repr := "0.01"; float_seconds := Some 0%Z |}]};
     r_summary := {["_timestamp" := VInt 0]} |}.

(** A finished run of alice with no timestamp, the learning rate in its summary. *)
Definition run_b : Run :=
  {| r_id := "b2"; r_state := "finished"; r_user := "alice";
     r_config := ∅; r_summary := {["lr" := VInt 3]} |}.

(** A finished run of alice with neither. *)
Definition run_c : Run :=
  {| r_id := "c3"; r_state := "finished"; r_user := "alice";
     r_config := ∅; r_summary := ∅ |}.

(** A second run that carries the identifier of [run_a]. *)
Definition run_a_twin : Run :=
  {| r_id := "a1"; r_state := "finished"; r_user := "alice";
     r_config := ∅; r_summary := ∅ |}.

Definition run_running : Run :=
  {| r_id := "d4"; r_state := "running"; r_user := "alice";
     r_config := ∅; r_summary := ∅ |}.

Definition run_of_bob : Run :=
  {| r_id := "e5"; r_state := "finished"; r_user := "bob";
     r_config := ∅; r_summary := ∅ |}.

(** A finished run of alice whose configuration has a key "Timestamp". *)
Definition run_with_timestamp_key : Run :=
  {| r_id := "f6"; r_state := "finished"; r_user := "alice";
     r_config := {["Timestamp" := VStr "2024-01-01"]}; r_summary := ∅ |}.

(** Headers whose fourth name is one of the two the mapping matches by name. *)
Definition headers_with_second_date : list string :=
  ["Run ID"; "Timestamp"; "User"; "Timestamp"].

Definition attribute_error : exn :=
  OtherError "AttributeError" "'NoneType' object has no attribute 'name'".

Definition comm_error : exn := OtherError "CommError" "connection reset".

(** A run object whose [run.user.name] raises at every read. *)
Definition without_user (r : Run) : RunObj :=
  {| run_state := inr (r_state r);
     run_id := fun _ => inr (r_id r);
     run_user_name := fun _ => inl attribute_error;
     run_config := inr (r_config r);
     run_summary := inr (r_summary r) |}.

(** A run object whose [run.user.name] is read once, and raises afterwards. *)
Definition user_lost_after_filter (r : Run) : RunObj :=
  {| run_state := inr (r_state r);
     run_id := fun _ => inr (r_id r);
     run_user_name := fun s => match s with AtFilter => inr (r_user r) | _ => inl comm_error end;
     run_config := inr (r_config r);
     run_summary := inr (r_summary r) |}.

(** A run object whose configuration cannot be read. *)
Definition without_config (r : Run) : RunObj :=
  {| run_state := inr (r_state r);
     run_id := fun _ => inr (r_id r);
     run_user_name := fun _ => inr (r_user r);
     run_config := inl comm_error;
     run_summary := inr (r_summary r) |}.

Definition empty_world : World :=
  {| w_log := []; w_rows := []; w_requests := []; w_slept := [] |}.

(** The response to a query over rows with the given titles. *)
Definition response_of (rows : list (list string)) : json :=
  JDict [("object", JStr "list"); ("results", JList (map notion_page rows));
         ("has_more", JBool false)].

(** The response to a query that gives a first page only: the given rows, and
    more rows to come that the script does not ask for. *)
Definition first_page_of (rows : list (list string)) : json :=
  JDict [("object", JStr "list"); ("results", JList (map notion_page rows));
         ("has_more", JBool true)].

(** A service that answers the query with [response] and grants every request. *)
Definition granting (response : json) : Client :=
  {| databases_retrieve := fun _ => None;
     databases_query := fun _ => inr response;
     pages_create := fun _ _ _ => None |}.

Definition rate_limited : exn := OtherError "APIResponseError" "rate limited".

(** A service that refuses the second request it receives. *)
Definition refusing_second (response : json) : Client :=
  {| databases_retrieve := fun _ => None;
     databases_query := fun _ => inr response;
     pages_create := fun _ requests _ =>
       if Nat.eqb (length requests) 1 then Some rate_limited else None |}.

(** A service whose query fails. *)
Definition unreachable : Client :=
  {| databases_retrieve := fun _ => None;
     databases_query := fun _ => inl comm_error;
     pages_create := fun _ _ _ => None |}.

(** A page whose title property is not called "Name". *)
Definition page_titled_otherwise : json :=
  JDict [("object", JStr "page");
         ("properties", JDict [("Title", JDict [("title", JList [text_run "a1"])])])].

(** A page whose title starts with a mention, which has no member "text". *)
Definition page_with_mention : json :=
  JDict [("object", JStr "page");
         ("properties",
          JDict [("Name",
                  JDict [("title",
                          JList [JDict [("type", JStr "mention");
                                        ("plain_text", JStr "@alice")]])])])].

Definition sample_config : ConfigFile :=
  Parsed {| doc_NOTION_TOKEN := Some "secret"; doc_FIXED_HEADERS := Some sample_headers |}.

(** What a tick reads: the sample configuration, an active run of project
    "proj" in team "team", the given service and the given fetched runs. *)
Definition sample_env (notion : Client) (runs : list RunObj) : Env :=
  {| config_file := fun _ => sample_config;
     wandb_run := Some {| project := "proj"; entity := "team" |};
     notion_service := notion;
     wandb_Api := None;
     api_runs := fun _ => {| fetched := runs; fetch_error := None |} |}.

(** The same with no configuration file. *)
Definition env_without_config : Env :=
  {| config_file := fun _ => FileNotFound;
     wandb_run := Some {| project := "proj"; entity := "team" |};
     notion_service := granting (response_of []);
     wandb_Api := None;
     api_runs := fun _ => {| fetched := []; fetch_error := None |} |}.

(** The pages of the sample runs under the sample headers, in UTC. *)
Definition page_a : gmap string Property :=
  {["Name" := Title "a1"; "Timestamp" := Date "1970-01-01 00:00:00";
    "User" := RichText "alice"; "lr" := RichText "0.01"]}.

Definition page_b : gmap string Property :=
  {["Name" := Title "b2"; "User" := RichText "alice"; "lr" := RichText "3"]}.

Definition page_c : gmap string Property :=
  {["Name" := Title "c3"; "User" := RichText "alice"; "lr" := RichText ""]}.

Definition page_a_twin : gmap string Property :=
  {["Name" := Title "a1"; "User" := RichText "alice"; "lr" := RichText ""]}.

(** A destination that holds the row of [run_a], and that row only. *)
Definition world_with_a : World :=
  {| w_log := []; w_rows := [page_a]; w_requests := []; w_slept := [] |}.

(** ** Further vocabulary *)

(** The JSON value of a property, as [create_notion_properties] builds it
    (lines 130, 133 and 135). *)
Definition property_json (p : Property) : json :=
  match p with
  | Title content =>
      JDict [("title", JList [JDict [("text", JDict [("content", JStr content)])]])]
  | Date start => JDict [("date", JDict [("start", JStr start)])]
  | RichText content =>
      JDict [("rich_text", JList [JDict [("text", JDict [("content", JStr content)])]])]
  end.

(** The page object of a service that gives a row back with the properties it
    was created with. *)
Definition page_json (properties : gmap string Property) : json :=
  JDict [("object", JStr "page");
         ("properties",
          JDict (map (λ kv, (kv.1, property_json kv.2)) (map_to_list properties)))].

(** The response to the query of a service that shows every row of the
    destination, as created. *)
Definition echo_response (rows : list (gmap string Property)) : json :=
  JDict [("object", JStr "list"); ("results", JList (map page_json rows));
         ("has_more", JBool false)].

(** [w1] comes from [w] by logging, by issuing requests of which some were
    granted and became rows, and by one pause of half a unit per row. *)
Definition writes_only (w w1 : World) : Prop :=
  ∃ records created requested,
    w1 = {| w_log := w_log w ++ records;
            w_rows := w_rows w ++ created;
            w_requests := w_requests w ++ requested;
            w_slept := w_slept w ++ replicate (length created) (1 # 2)%Q |}
    ∧ created `sublist_of` requested.

(** A computation that acts on the world in that way only, however it ends. *)
Definition appends {A} (m : M A) : Prop := ∀ w, writes_only w (snd (m w)).

(** The pages a tick sets out to create, when its runs are the plain records
    [R]: those of the qualifying runs, under the headers of the configuration
    file and against the identifiers the reader returns; none when one of the
    two cannot be had. *)
Definition planned_pages `{LocalZone} (env : Env) (args : Args) (R : list Run)
  : list (gmap string Property) :=
  match config_file env (config_path args),
        get_existing_run_ids (notion_service env) (database_id args) with
  | Parsed doc, inr ids =>
      match doc_FIXED_HEADERS doc with
      | Some headers =>
          map (λ r, spec_properties r headers)
              (filter (spec_qualifies (str_items ids) (user_name args)) R)
      | None => []
      end
  | _, _ => []
  end.

(** *** The calendar and the text of a time *)

(** The proleptic Gregorian calendar as Python's [datetime] defines it: leap
    years, the days of a month, and the ordinal of a date, which is 1 for
    0001-01-01 and 719163 for 1970-01-01 ([date.toordinal]). *)
Definition is_leap (y : Z) : bool :=
  ((y mod 4 =? 0) && (negb (y mod 100 =? 0) || (y mod 400 =? 0)))%Z.

Definition days_in_month (y m : Z) : Z :=
  (if m =? 2 then (if is_leap y then 29 else 28)
   else if (m =? 4) || (m =? 6) || (m =? 9) || (m =? 11) then 30 else 31)%Z.

Definition days_before_year (y : Z) : Z :=
  (let p := y - 1 in p * 365 + p / 4 - p / 100 + p / 400)%Z.

Definition days_before_month (y m : Z) : Z :=
  (nth (Z.to_nat (m - 1)) [0; 31; 59; 90; 120; 151; 181; 212; 243; 273; 304; 334] 0
   + (if (2 <? m) && is_leap y then 1 else 0))%Z.

Definition ymd2ord (y m d : Z) : Z :=
  (days_before_year y + days_before_month y m + d)%Z.

(** [dt] is the date and the time of day at [loc] seconds of local time
    counted from 1970-01-01 00:00:00: a date of the calendar in the years 1 to
    9999, a time of day, and together that many seconds. *)
Definition civil_time (dt : datetime) (loc : Z) : Prop :=
  (1 ≤ dt_year dt ≤ 9999 ∧ 1 ≤ dt_month dt ≤ 12
   ∧ 1 ≤ dt_day dt ≤ days_in_month (dt_year dt) (dt_month dt)
   ∧ 0 ≤ dt_hour dt < 24 ∧ 0 ≤ dt_minute dt < 60 ∧ 0 ≤ dt_second dt < 60
   ∧ (ymd2ord (dt_year dt) (dt_month dt) (dt_day dt) - 719163) * 86400
     + dt_hour dt * 3600 + dt_minute dt * 60 + dt_second dt = loc)%Z.

(** The day of [loc] seconds of local time lies between 0001-01-01 and
    9999-12-31. *)
Definition in_calendar (loc : Z) : Prop :=
  (ymd2ord 1 1 1 ≤ loc / 86400 + 719163 ≤ ymd2ord 9999 12 31)%Z.

(** An instant that [datetime.fromtimestamp] accepts: its local date is in the
    calendar, and so are the local dates of the instants CPython probes, one
    day earlier and, when the offset has decreased over that day, earlier by
    the decrease. *)
Definition representable `{LocalZone} (secs : Z) : Prop :=
  (in_calendar (secs + utc_offset secs)
   ∧ in_calendar (secs - 86400 + utc_offset (secs - 86400))
   ∧ (utc_offset secs < utc_offset (secs - 86400) →
      in_calendar (secs + (utc_offset secs - utc_offset (secs - 86400))
                   + utc_offset (secs + (utc_offset secs - utc_offset (secs - 86400))))))%Z.

(** The whole second of a numeric value: an int, a bool (an int in Python) or
    a float that is neither nan nor infinite. *)
Definition whole_seconds (v : PyVal) : option Z :=
  match v with
  | VInt n => Some n
  | VBool b => Some (if b then 1 else 0)%Z
  | VFloat f => float_seconds f
  | _ => None
  end.

(** The last decimal digit of a number, as a character. *)
Definition decimal (n : Z) : ascii :=
  default "0"%char (String.get (Z.to_nat (n mod 10)) "0123456789").

Definition two_digits (n : Z) : string :=
  String (decimal (n / 10)) (String (decimal n) EmptyString).

(** "YYYY" *)
Definition iso_year (y : Z) : string :=
  String (decimal (y / 1000)) (String (decimal (y / 100)) (two_digits y)).

(** "-MM-DD HH:MM:SS" *)
Definition iso_clock (dt : datetime) : string :=
  "-" +:+ two_digits (dt_month dt) +:+ "-" +:+ two_digits (dt_day dt)
  +:+ " " +:+ two_digits (dt_hour dt) +:+ ":" +:+ two_digits (dt_minute dt)
  +:+ ":" +:+ two_digits (dt_second dt).

(** A test on every number of a range, for facts settled by evaluation. *)
Fixpoint all_from (n : nat) (z : Z) (f : Z → bool) : bool :=
  match n with
  | O => true
  | S n' => f z && all_from n' (z + 1)%Z f
  end.

(** [civil_from_days] on a day of the 400 years from 0000-03-01: a date of the
    calendar, with the ordinal of that day. *)
Definition check_day (doe : Z) : bool :=
  (let '(y, m, d) := civil_from_days (doe - 719468) in
   (1 <=? m) && (m <=? 12) && (1 <=? d) && (d <=? days_in_month y m)
   && (ymd2ord y m d =? doe - 305))%Z.

(** A year of four digits is printed the same with and without padding. *)
Definition check_year (y : Z) : bool := String.eqb (str_int y) (pad4 y).

(** The record the handler of lines 160-162 logs for a run: one ERROR record
    that names the run and the exception, when the run passes the inclusion
    test and building its row raises; none otherwise. *)
Definition row_error_record `{LocalZone} (run : RunObj)
    (existing_run_ids final_headers : list string) (user_name : string)
  : option (level * string) :=
  match run_filter run existing_run_ids user_name, build_row run final_headers,
        run_id run AtHandler with
  | inr true, inl e, inr i =>
      Some (ERROR, "Error processing run " +:+ i +:+ ": " +:+ exn_str e)
  | _, _, _ => None
  end.

(** Where a property of name [k] can come from: a pair of header and value. *)
Definition fills (k : string) (hv : string * string) : Prop :=
  (k = "Name" ∧ hv.1 = "Run ID")
  ∨ (k = hv.1 ∧ hv.1 ≠ "Run ID" ∧ (hv.1 = "Timestamp" → hv.2 ≠ "")).

(** ** Further sample data *)

(** A finished run of alice that ended on 14 November 2023 at 22:13:20 UTC. *)
Definition run_late : Run :=
  {| r_id := "g7"; r_state := "finished"; r_user := "alice";
     r_config := ∅; r_summary := {["_timestamp" := VInt 1700000000]} |}.

(** Headers whose fourth name is the name of the title column. *)
Definition headers_with_second_title : list string :=
  ["Run ID"; "Timestamp"; "User"; "Run ID"].

(** The configuration that [load_config] returns in the sample environment. *)
Definition sample_loaded : Config :=
  {| NOTION_TOKEN := "secret"; FIXED_HEADERS := sample_headers;
     TEAM_NAME := "team"; PROJECT_NAME := "proj" |}.

(** A first tick over two runs of alice against an empty destination, and the
    tick after it, whose query shows the two rows the first one created. *)
Definition env_first_tick : Env :=
  sample_env (granting (echo_response [])) (map remote [run_a; run_b]).

Definition env_second_tick : Env :=
  sample_env (granting (echo_response [page_a; page_b])) (map remote [run_a; run_b]).

(** A tick over three runs, the first already in the destination, against a
    service that refuses the second request. *)
Definition env_refusing : Env :=
  sample_env (refusing_second (response_of [["a1"]])) (map remote [run_a; run_b; run_c]).

Definition object_not_found : exn :=
  OtherError "APIResponseError" "Could not find database".

(** A service whose database is not shared with the integration. *)
Definition database_not_shared : Client :=
  {| databases_retrieve := fun _ => Some object_not_found;
     databases_query := fun _ => inl object_not_found;
     pages_create := fun _ _ _ => Some object_not_found |}.

(** ** Lemmas on the monad and on worlds *)

Lemma add_log_nil w : add_log [] w = w.
Proof. destruct w. unfold add_log. simpl. by rewrite app_nil_r. Qed.

Lemma add_log_app l1 l2 w : add_log l2 (add_log l1 w) = add_log (l1 ++ l2) w.
Proof. unfold add_log. simpl. by rewrite app_assoc. Qed.

Lemma bind_assoc {A B C} (m : M A) (k1 : A → M B) (k2 : B → M C) w :
  bind (bind m k1) k2 w = bind m (λ a, bind (k1 a) k2) w.
Proof. unfold bind. by destruct (m w) as [[e|a] w1]. Qed.

Lemma bind_inr {A B} (m : M A) (k : A → M B) w a w1 :
  m w = (inr a, w1) → bind m k w = k a w1.
Proof. unfold bind. by intros ->. Qed.

Lemma bind_inl {A B} (m : M A) (k : A → M B) w e w1 :
  m w = (inl e, w1) → bind m k w = (inl e, w1).
Proof. unfold bind. by intros ->. Qed.

Lemma logger_add_log lv msg w : logger lv msg w = (inr tt, add_log [(lv, msg)] w).
Proof. reflexivity. Qed.

(** ** The property builder *)

Lemma set_property_other properties header value k :
  k ≠ header → k ≠ "Name" →
  set_property properties (header, value) !! k = properties !! k.
Proof.
  intros Hk Hname. unfold set_property.
  destruct (String.eqb_spec header "Run ID"); [by rewrite lookup_insert_ne|].
  destruct (String.eqb_spec header "Timestamp").
  - destruct (negb _); [by rewrite lookup_insert_ne|done].
  - by rewrite lookup_insert_ne.
Qed.

Lemma set_property_name properties header value :
  header ≠ "Run ID" → header ≠ "Name" →
  set_property properties (header, value) !! "Name" = properties !! "Name".
Proof.
  intros Hrun Hname. unfold set_property.
  destruct (String.eqb_spec header "Run ID"); [done|].
  destruct (String.eqb_spec header "Timestamp").
  - destruct (negb _); [by rewrite lookup_insert_ne|done].
  - by rewrite lookup_insert_ne.
Qed.

Lemma set_property_rich properties header value :
  header ≠ "Run ID" → header ≠ "Timestamp" →
  set_property properties (header, value) !! header = Some (RichText value).
Proof.
  intros Hrun Hts. unfold set_property.
  destruct (String.eqb_spec header "Run ID"); [done|].
  destruct (String.eqb_spec header "Timestamp"); [done|].
  by rewrite lookup_insert_eq.
Qed.

Lemma set_property_timestamp properties value :
  set_property properties ("Timestamp", value) !! "Timestamp"
  = if String.eqb value "" then properties !! "Timestamp" else Some (Date value).
Proof.
  unfold set_property. simpl.
  destruct (String.eqb value ""); simpl; [done|by rewrite lookup_insert_eq].
Qed.

(** Headers that do not bear on a key leave it as it is. *)
Lemma foldl_set_property_other pairs properties k :
  k ≠ "Name" → (∀ hv, hv ∈ pairs → hv.1 ≠ k) →
  foldl set_property properties pairs !! k = properties !! k.
Proof.
  intros Hname. revert properties.
  induction pairs as [|[h v] pairs IH]; intros properties Hpairs; simpl; [done|].
  rewrite IH.
  - apply set_property_other; [|done].
    intros ->. by apply (Hpairs (h, v)); [left|].
  - intros hv Hin. apply Hpairs. by right.
Qed.

Lemma foldl_set_property_name pairs properties :
  (∀ hv, hv ∈ pairs → hv.1 ≠ "Run ID" ∧ hv.1 ≠ "Name") →
  foldl set_property properties pairs !! "Name" = properties !! "Name".
Proof.
  revert properties.
  induction pairs as [|[h v] pairs IH]; intros properties Hpairs; simpl; [done|].
  rewrite IH.
  - destruct (Hpairs (h, v)) as [? ?]; [by left|]. by apply set_property_name.
  - intros hv Hin. apply Hpairs. by right.
Qed.

(** A text column keeps its value through the headers that follow it, when
    those of the same name carry the same value and none of them retitles the
    row over it. *)
Lemma foldl_set_property_rich pairs properties h v :
  properties !! h = Some (RichText v) →
  (∀ hv, hv ∈ pairs → (hv.1 = h → hv.2 = v) ∧ (h = "Name" → hv.1 ≠ "Run ID")) →
  h ≠ "Run ID" → h ≠ "Timestamp" →
  foldl set_property properties pairs !! h = Some (RichText v).
Proof.
  intros Hlook Hpairs Hrun Hts. revert properties Hlook.
  induction pairs as [|[h' v'] pairs IH]; intros properties Hlook; simpl; [done|].
  apply IH.
  - intros hv Hin. apply Hpairs. by right.
  - destruct (Hpairs (h', v')) as [Hsame Hname]; [by left|]. simpl in Hsame, Hname.
    destruct (decide (h' = h)) as [->|Hne].
    + rewrite Hsame by done. by apply set_property_rich.
    + destruct (decide (h = "Name")) as [->|Hn].
      * rewrite set_property_name; [done|by apply Hname|done].
      * by rewrite set_property_other.
Qed.

Lemma elem_of_zip_fst {A B} (l : list A) (k : list B) p : p ∈ zip l k → p.1 ∈ l.
Proof.
  revert k. induction l as [|a l IH]; intros [|b k]; simpl; try by inversion 1.
  intros [->|Hin]%elem_of_cons; [by left|right; eauto].
Qed.

(** The title column, placed first and met nowhere else, titles the row with
    the first value. *)
Lemma title_of_create_notion_properties v row headers :
  title_first headers →
  title_of (create_notion_properties (v :: row) headers) = Some v.
Proof.
  intros (rest & -> & Hrun & Hname).
  unfold title_of, create_notion_properties. simpl.
  rewrite foldl_set_property_name.
  - unfold set_property. simpl. by rewrite lookup_insert_eq.
  - intros hv Hin%elem_of_zip_fst. split; intros Heq; rewrite Heq in Hin; done.
Qed.

(** ** The row processor on well-behaved runs *)

Section Processor.
Context `{LocalZone}.
Implicit Types (existing_run_ids final_headers : list string) (user_name : string).

Lemma run_filter_remote r existing_run_ids user_name :
  run_filter (remote r) existing_run_ids user_name
  = inr (bool_decide (spec_qualifies existing_run_ids user_name r)).
Proof.
  unfold run_filter, spec_qualifies. simpl.
  destruct (String.eqb_spec (r_state r) "finished") as [Hst|Hst].
  - case_bool_decide as Hin; simpl.
    + f_equal. symmetry. apply bool_decide_eq_false. tauto.
    + destruct (String.eqb_spec (r_user r) user_name) as [Hu|Hu]; f_equal; symmetry.
      * by apply bool_decide_eq_true.
      * apply bool_decide_eq_false. tauto.
  - f_equal. symmetry. apply bool_decide_eq_false. tauto.
Qed.

Lemma build_row_remote r final_headers :
  build_row (remote r) final_headers = inr (spec_row r final_headers).
Proof. reflexivity. Qed.

Lemma process_run_remote r existing_run_ids final_headers user_name pages w :
  process_run (remote r) existing_run_ids final_headers user_name pages w
  = (inr (if bool_decide (spec_qualifies existing_run_ids user_name r)
          then pages ++ [spec_properties r final_headers] else pages), w).
Proof.
  unfold process_run, bind, lift. rewrite run_filter_remote.
  case_bool_decide; [rewrite build_row_remote|]; reflexivity.
Qed.

Lemma process_runs_from_remote R existing_run_ids final_headers user_name pages w :
  process_runs_from (map remote R) existing_run_ids final_headers user_name pages w
  = (inr (pages ++ map (λ r, spec_properties r final_headers)
                       (filter (spec_qualifies existing_run_ids user_name) R)), w).
Proof.
  revert pages. induction R as [|r R IH]; intros pages; simpl.
  - by rewrite app_nil_r.
  - unfold bind. rewrite process_run_remote, IH.
    rewrite filter_cons. case_bool_decide as Hq.
    + rewrite decide_True by done. simpl. by rewrite <- app_assoc.
    + by rewrite decide_False by done.
Qed.

Lemma run_filter_true run existing_run_ids user_name :
  run_filter run existing_run_ids user_name = inr true ↔
  run_state run = inr "finished"
  ∧ ∃ i, run_id run AtFilter = inr i ∧ (i ∉ existing_run_ids)
         ∧ run_user_name run AtFilter = inr user_name.
Proof.
  unfold run_filter.
  destruct (run_state run) as [e|st]; simpl.
  { split; [done|]. by intros [? _]. }
  destruct (String.eqb_spec st "finished") as [->|Hst].
  2:{ split; [done|]. intros [[= ?] _]. done. }
  destruct (run_id run AtFilter) as [e|i]; simpl.
  { split; [done|]. by intros [_ (? & ? & _)]. }
  case_bool_decide as Hin.
  { split; [done|]. intros [_ (i' & [= <-] & ? & _)]. done. }
  destruct (run_user_name run AtFilter) as [e|u]; simpl.
  { split; [done|]. by intros [_ (? & _ & _ & ?)]. }
  destruct (String.eqb_spec u user_name) as [->|Hu].
  - split; [|done]. intros _. split; [done|]. by exists i.
  - split; [done|]. intros [_ (? & _ & _ & [= ?])]. done.
Qed.

Lemma process_run_returns run existing_run_ids final_headers user_name pages w r w1 :
  process_run run existing_run_ids final_headers user_name pages w = (inr r, w1) →
  r = pages
      ++ match page_of run existing_run_ids final_headers user_name with
         | Some page => [page]
         | None => []
         end.
Proof.
  unfold process_run, page_of, bind, lift.
  destruct (run_filter run existing_run_ids user_name) as [e|[|]]; [done| |].
  - destruct (build_row run final_headers) as [e|row_data].
    + destruct (run_id run AtHandler) as [e'|i]; [done|].
      rewrite logger_add_log. intros [= <- _]. by rewrite app_nil_r.
    + by intros [= <- _].
  - intros [= <- _]. by rewrite app_nil_r.
Qed.

Lemma process_runs_from_returns runs existing_run_ids final_headers user_name pages w r w1 :
  process_runs_from runs existing_run_ids final_headers user_name pages w = (inr r, w1) →
  r = pages ++ omap (λ run, page_of run existing_run_ids final_headers user_name) runs.
Proof.
  revert pages w. induction runs as [|run runs IH]; intros pages w; simpl.
  - intros [= <- _]. by rewrite app_nil_r.
  - unfold bind.
    destruct (process_run run existing_run_ids final_headers user_name pages w)
      as [[e|p] w0] eqn:Hrun; [done|].
    intros ->%IH. apply process_run_returns in Hrun as ->.
    rewrite <- app_assoc. by destruct (page_of run _ _ _).
Qed.

(** C2.  The inclusion test of the code is true exactly when the state read
    is "finished", the identifier read is not in the existing-identifier list
    and the user name read equals the target user name (exact string
    equality).  A call of [process_runs] that returns gives one property set
    for each run that passes the test and whose row is built, in the order in
    which the runs were fetched.  For runs that are plain records every row is
    built: the call returns, without touching the world, the property sets of
    exactly the runs that are finished, not yet in the list and owned by the
    target user, one per run and in fetch order. *)
Theorem process_runs_inclusion_and_order existing_run_ids final_headers user_name w :
  (∀ run, run_filter run existing_run_ids user_name = inr true
          ↔ run_state run = inr "finished"
            ∧ ∃ i, run_id run AtFilter = inr i ∧ (i ∉ existing_run_ids)
                   ∧ run_user_name run AtFilter = inr user_name)
  ∧ (∀ runs pages w1,
       process_runs runs existing_run_ids final_headers user_name w = (inr pages, w1) →
       pages = omap (λ run, page_of run existing_run_ids final_headers user_name) runs)
  ∧ (∀ R : list Run,
       let included := filter (spec_qualifies existing_run_ids user_name) R in
       process_runs (map remote R) existing_run_ids final_headers user_name w
       = (inr (map (λ r, spec_properties r final_headers) included), w)
       ∧ (∀ r, r ∈ included
               ↔ r ∈ R ∧ r_state r = "finished" ∧ (r_id r ∉ existing_run_ids)
                 ∧ r_user r = user_name)
       ∧ included `sublist_of` R).
Proof.
  split; [|split].
  - intros run. apply run_filter_true.
  - intros runs pages w1 Hreturns.
    by apply process_runs_from_returns in Hreturns.
  - intros R. simpl. split; [|split].
    + unfold process_runs. by rewrite process_runs_from_remote.
    + intros r. rewrite list_elem_of_filter. unfold spec_qualifies. tauto.
    + apply sublist_filter.
Qed.

(** *** Runs whose reads may raise *)

Lemma process_runs_from_app l1 l2 existing_run_ids final_headers user_name pages w :
  process_runs_from (l1 ++ l2) existing_run_ids final_headers user_name pages w
  = (let* p := process_runs_from l1 existing_run_ids final_headers user_name pages in
     process_runs_from l2 existing_run_ids final_headers user_name p) w.
Proof.
  revert pages w. induction l1 as [|run l1 IH]; intros pages w; simpl.
  - reflexivity.
  - rewrite bind_assoc.
    destruct (process_run run existing_run_ids final_headers user_name pages w)
      as [[e|p] w1] eqn:Hrun.
    + by rewrite !(bind_inl _ _ _ _ _ Hrun).
    + rewrite !(bind_inr _ _ _ _ _ Hrun). apply IH.
Qed.

(** The processor acts on the world through the logger only, and what it
    returns and logs does not depend on the world it starts from. *)
Lemma process_run_frame run existing_run_ids final_headers user_name pages :
  ∃ r l, ∀ w,
    process_run run existing_run_ids final_headers user_name pages w = (r, add_log l w).
Proof.
  unfold process_run, bind, lift.
  destruct (run_filter run existing_run_ids user_name) as [e|[|]].
  - exists (inl e), []. intros w. by rewrite add_log_nil.
  - destruct (build_row run final_headers) as [e|row].
    + destruct (run_id run AtHandler) as [e'|i].
      * exists (inl e'), []. intros w. by rewrite add_log_nil.
      * eexists (inr pages), [_]. intros w. rewrite logger_add_log. reflexivity.
    + eexists (inr _), []. intros w. unfold ret. by rewrite add_log_nil.
  - exists (inr pages), []. intros w. unfold ret. by rewrite add_log_nil.
Qed.

Lemma process_runs_from_frame runs existing_run_ids final_headers user_name pages :
  ∃ r l, ∀ w,
    process_runs_from runs existing_run_ids final_headers user_name pages w
    = (r, add_log l w).
Proof.
  revert pages. induction runs as [|run runs IH]; intros pages; simpl.
  - exists (inr pages), []. intros w. unfold ret. by rewrite add_log_nil.
  - destruct (process_run_frame run existing_run_ids final_headers user_name pages)
      as (r & l & Hrun).
    destruct r as [e|p].
    + exists (inl e), l. intros w. unfold bind. by rewrite Hrun.
    + destruct (IH p) as (r' & l' & Hrest).
      exists r', (l ++ l'). intros w. unfold bind.
      by rewrite Hrun, Hrest, add_log_app.
Qed.

(** When the inclusion test raises: the three reads it makes, in order. *)
Lemma run_filter_raises run existing_run_ids user_name e :
  run_filter run existing_run_ids user_name = inl e ↔
  run_state run = inl e
  ∨ (run_state run = inr "finished" ∧ run_id run AtFilter = inl e)
  ∨ (∃ i, run_state run = inr "finished" ∧ run_id run AtFilter = inr i
          ∧ (i ∉ existing_run_ids) ∧ run_user_name run AtFilter = inl e).
Proof.
  unfold run_filter.
  destruct (run_state run) as [e0|st]; simpl.
  { split; [intros [= ->]; by left | intros [[= ->]|[[? _]|(? & ? & _)]]; done]. }
  destruct (String.eqb_spec st "finished") as [->|Hst].
  2:{ split; [done|]. intros [?|[[[= ?] _]|(? & [= ?] & _)]]; done. }
  destruct (run_id run AtFilter) as [e1|i]; simpl.
  { split; [intros [= ->]; right; by left|].
    intros [?|[[_ [= ->]]|(? & _ & ? & _)]]; done. }
  case_bool_decide as Hin.
  { split; [done|]. intros [?|[[_ ?]|(i' & _ & [= <-] & ? & _)]]; done. }
  destruct (run_user_name run AtFilter) as [e2|u]; simpl.
  - split; [intros [= ->]; right; right; by exists i|].
    intros [?|[[_ ?]|(i' & _ & _ & _ & [= ->])]]; done.
  - split; [done|]. intros [?|[[_ ?]|(i' & _ & _ & _ & ?)]]; done.
Qed.

(** C10.  The inclusion test runs outside the [try]: when reading a run's
    state, identifier or user name in that test raises, the exception leaves
    [process_runs].  The call returns no page list at all, neither for the
    runs before the offending one (whose pages were already built) nor for
    those after it, and nothing is logged for it. *)
Theorem filter_error_aborts_batch pre run post existing_run_ids final_headers
    user_name w pages w1 e :
  process_runs pre existing_run_ids final_headers user_name w = (inr pages, w1) →
  (run_state run = inl e
   ∨ (run_state run = inr "finished" ∧ run_id run AtFilter = inl e)
   ∨ (∃ i, run_state run = inr "finished" ∧ run_id run AtFilter = inr i
           ∧ (i ∉ existing_run_ids) ∧ run_user_name run AtFilter = inl e)) →
  process_runs (pre ++ run :: post) existing_run_ids final_headers user_name w
  = (inl e, w1).
Proof.
  intros Hpre Hraise.
  apply (proj2 (run_filter_raises run existing_run_ids user_name e)) in Hraise.
  unfold process_runs in *. rewrite process_runs_from_app.
  rewrite (bind_inr _ _ _ _ _ Hpre). simpl.
  apply bind_inl. unfold process_run. apply bind_inl. unfold lift. by rewrite Hraise.
Qed.

(** When building the value row raises: the two reads it makes, in order. *)
Lemma build_row_raises run final_headers e :
  build_row run final_headers = inl e ↔
  run_id run AtRow = inl e
  ∨ (∃ i, run_id run AtRow = inr i ∧ run_user_name run AtRow = inl e).
Proof.
  unfold build_row.
  destruct (run_id run AtRow) as [e1|i]; simpl.
  { split; [intros [= ->]; by left|]. intros [[= ->]|(? & ? & _)]; done. }
  destruct (run_user_name run AtRow) as [e2|u]; simpl.
  - split; [intros [= ->]; right; by exists i|]. intros [?|(? & _ & [= ->])]; done.
  - split; [done|]. intros [?|(? & _ & ?)]; done.
Qed.

Lemma process_run_build_error run existing_run_ids final_headers user_name pages w e i :
  run_filter run existing_run_ids user_name = inr true →
  build_row run final_headers = inl e →
  run_id run AtHandler = inr i →
  process_run run existing_run_ids final_headers user_name pages w
  = (inr pages,
     add_log [(ERROR, "Error processing run " +:+ i +:+ ": " +:+ exn_str e)] w).
Proof.
  intros Hfilter Hrow Hid. unfold process_run, bind, lift.
  by rewrite Hfilter, Hrow, Hid.
Qed.

(** X1.  Containment, where the handler completes.  Take a run that
    passes the inclusion test and whose value row then raises an exception
    [e].  When the run's identifier can be read for the handler's message, the
    exception is caught, one ERROR record naming the run is logged, and the
    batch goes on: it ends exactly as the batch without that run ends (the
    same page list, or the same later exception), with that one record more in
    the log. *)
Theorem build_error_skips_only_that_run pre run post existing_run_ids
    final_headers user_name w pages w1 e i :
  process_runs pre existing_run_ids final_headers user_name w = (inr pages, w1) →
  run_filter run existing_run_ids user_name = inr true →
  build_row run final_headers = inl e →
  run_id run AtHandler = inr i →
  ∃ r l,
    process_runs (pre ++ post) existing_run_ids final_headers user_name w
    = (r, add_log l w1)
    ∧ process_runs (pre ++ run :: post) existing_run_ids final_headers user_name w
      = (r, add_log ((ERROR, "Error processing run " +:+ i +:+ ": " +:+ exn_str e) :: l) w1).
Proof.
  intros Hpre Hfilter Hrow Hid. unfold process_runs in *.
  destruct (process_runs_from_frame post existing_run_ids final_headers user_name pages)
    as (r & l & Hpost).
  exists r, l. split.
  - rewrite process_runs_from_app, (bind_inr _ _ _ _ _ Hpre). apply Hpost.
  - rewrite process_runs_from_app, (bind_inr _ _ _ _ _ Hpre). simpl.
    rewrite (bind_inr _ _ _ _ _
               (process_run_build_error _ _ _ _ _ _ _ _ Hfilter Hrow Hid)).
    rewrite Hpost. by rewrite add_log_app.
Qed.

Lemma process_run_contained run existing_run_ids final_headers user_name pages w :
  (∃ b, run_filter run existing_run_ids user_name = inr b) →
  run_id run AtHandler = run_id run AtFilter →
  process_run run existing_run_ids final_headers user_name pages w
  = (inr (pages ++ match page_of run existing_run_ids final_headers user_name with
                   | Some page => [page]
                   | None => []
                   end),
     add_log match row_error_record run existing_run_ids final_headers user_name with
             | Some record => [record]
             | None => []
             end w).
Proof.
  intros [b Hfilter] Hid. unfold process_run, page_of, row_error_record, bind, lift.
  rewrite Hfilter. destruct b.
  - apply run_filter_true in Hfilter as (_ & i & Hi & _). rewrite Hid, Hi.
    destruct (build_row run final_headers) as [e|row_data].
    + rewrite logger_add_log. unfold ret. by rewrite app_nil_r.
    + unfold ret. by rewrite add_log_nil.
  - unfold ret. by rewrite app_nil_r, add_log_nil.
Qed.

Lemma process_runs_from_contained runs existing_run_ids final_headers user_name pages w :
  Forall (λ run, (∃ b, run_filter run existing_run_ids user_name = inr b)
                 ∧ run_id run AtHandler = run_id run AtFilter) runs →
  process_runs_from runs existing_run_ids final_headers user_name pages w
  = (inr (pages
          ++ omap (λ run, page_of run existing_run_ids final_headers user_name) runs),
     add_log (omap (λ run, row_error_record run existing_run_ids final_headers user_name)
                   runs) w).
Proof.
  intros Hruns. revert pages w.
  induction Hruns as [|run runs [Hfilter Hid] _ IH]; intros pages w; simpl.
  - unfold ret. by rewrite app_nil_r, add_log_nil.
  - unfold bind. rewrite process_run_contained, IH by done.
    rewrite add_log_app, <- app_assoc.
    by destruct (page_of run _ _ _), (row_error_record run _ _ _).
Qed.

(** C5.  Partial-batch resilience.  A run object holds its identifier as a
    stored attribute: the handler of line 161 reads what the inclusion test
    read at line 145.  For every batch of such runs in which the inclusion
    test raises for no run (every run of a batch of qualifying runs passes
    it), [process_runs] returns: an exception raised while the value row of a
    run is built is caught, one ERROR record naming the run and the exception
    is logged, that run gives no page, and every other run, before and after
    it, gives its page as if the failing run were not there. *)
Theorem row_errors_are_contained runs existing_run_ids final_headers user_name w :
  Forall (λ run, (∃ b, run_filter run existing_run_ids user_name = inr b)
                 ∧ run_id run AtHandler = run_id run AtFilter) runs →
  process_runs runs existing_run_ids final_headers user_name w
  = (inr (omap (λ run, page_of run existing_run_ids final_headers user_name) runs),
     add_log (omap (λ run, row_error_record run existing_run_ids final_headers user_name)
                   runs) w)
  ∧ ∀ pre run post e,
      runs = pre ++ run :: post →
      run_filter run existing_run_ids user_name = inr true →
      build_row run final_headers = inl e →
      page_of run existing_run_ids final_headers user_name = None
      ∧ (∃ i, run_id run AtHandler = inr i
              ∧ row_error_record run existing_run_ids final_headers user_name
                = Some (ERROR, "Error processing run " +:+ i +:+ ": " +:+ exn_str e))
      ∧ omap (λ run, page_of run existing_run_ids final_headers user_name) runs
        = omap (λ run, page_of run existing_run_ids final_headers user_name) pre
          ++ omap (λ run, page_of run existing_run_ids final_headers user_name) post.
Proof.
  intros Hruns. split.
  { unfold process_runs. by rewrite process_runs_from_contained. }
  intros pre run post e -> Hfilter Hrow.
  assert (page_of run existing_run_ids final_headers user_name = None) as Hpage.
  { unfold page_of. by rewrite Hfilter, Hrow. }
  split; [done|]. split.
  - apply Forall_app in Hruns as [_ [[_ Hid] _]%Forall_cons].
    pose proof Hfilter as (_ & i & Hi & _)%run_filter_true.
    exists i. rewrite Hid. split; [done|].
    unfold row_error_record. by rewrite Hfilter, Hrow, Hid, Hi.
  - rewrite omap_app. simpl. by rewrite Hpage.
Qed.

End Processor.

(** ** The writer *)

Section Writer.
Variables (notion : Client) (database_id : string).
Implicit Types (pages : list (gmap string Property)) (w : World).

Lemma after_writes_nil w : after_writes [] [] w = w.
Proof. destruct w. unfold after_writes. simpl. by rewrite !app_nil_r. Qed.

Lemma create_pages_granted pages w :
  (∀ i p, pages !! i = Some p →
          pages_create notion database_id (w_requests w ++ take i pages) p = None) →
  create_pages notion database_id pages w = (inr tt, after_writes pages pages w).
Proof.
  revert w. induction pages as [|p pages IH]; intros w Hok; simpl.
  - by rewrite after_writes_nil.
  - unfold bind, notion_pages_create.
    specialize (Hok 0%nat p eq_refl) as H0. simpl in H0. rewrite app_nil_r in H0.
    rewrite H0. simpl. rewrite IH.
    + unfold after_writes. simpl. by rewrite <- !app_assoc.
    + intros i q Hq. simpl. rewrite <- app_assoc. by apply (Hok (S i)).
Qed.

Lemma create_pages_refused pages w k p e :
  pages !! k = Some p →
  (∀ i q, (i < k)%nat → pages !! i = Some q →
          pages_create notion database_id (w_requests w ++ take i pages) q = None) →
  pages_create notion database_id (w_requests w ++ take k pages) p = Some e →
  create_pages notion database_id pages w
  = (inl e, after_writes (take k pages) (take (S k) pages) w).
Proof.
  revert w k. induction pages as [|p0 pages IH]; intros w k Hk Hok Hfail; [done|].
  simpl. unfold bind, notion_pages_create. destruct k as [|k]; simpl in *.
  - injection Hk as ->. rewrite app_nil_r in Hfail. rewrite Hfail.
    unfold after_writes. simpl. by rewrite take_0, !app_nil_r.
  - specialize (Hok 0%nat p0 ltac:(lia) eq_refl) as H0. simpl in H0.
    rewrite app_nil_r in H0. rewrite H0. simpl.
    rewrite (IH _ k); [|done| |].
    + unfold after_writes. simpl. by rewrite <- !app_assoc.
    + intros i q Hi Hq. simpl. rewrite <- app_assoc. apply (Hok (S i)); [lia|done].
    + simpl. by rewrite <- app_assoc.
Qed.

Lemma create_pages_inv pages w w1 :
  create_pages notion database_id pages w = (inr tt, w1) →
  w1 = after_writes pages pages w.
Proof.
  revert w. induction pages as [|p pages IH]; intros w; simpl.
  - intros [= <-]. by rewrite after_writes_nil.
  - unfold bind, notion_pages_create.
    destruct (pages_create notion database_id (w_requests w) p); [done|]. simpl.
    intros ->%IH. unfold after_writes. simpl. by rewrite <- !app_assoc.
Qed.

Lemma sync_data_inv pages w w1 :
  sync_data notion database_id pages w = (inr tt, w1) →
  w1 = after_writes pages pages w.
Proof.
  unfold sync_data, try_except.
  destruct (create_pages notion database_id pages w) as [[e|[]] w0] eqn:Hc; [done|].
  intros [= <-]. by apply create_pages_inv.
Qed.

Lemma sync_data_granted pages w :
  (∀ requests p, pages_create notion database_id requests p = None) →
  sync_data notion database_id pages w = (inr tt, after_writes pages pages w).
Proof.
  intros Hok. unfold sync_data, try_except. by rewrite create_pages_granted.
Qed.

(** C4.  [sync_data] creates the rows in order.  When the request for the page
    at position [k] is the first to be refused, with exception [e], the call
    raises NotionError; the [k] pages before it are rows of the destination and
    stay so, the refused page was requested once, and no later page was
    requested.  When no request is refused, every page is requested once and
    is a row of the destination. *)
Theorem sync_data_abort_semantics pages w :
  (∀ k p e,
     pages !! k = Some p →
     (∀ i q, (i < k)%nat → pages !! i = Some q →
             pages_create notion database_id (w_requests w ++ take i pages) q = None) →
     pages_create notion database_id (w_requests w ++ take k pages) p = Some e →
     sync_data notion database_id pages w
     = (inl (NotionError ("Failed to sync data: " +:+ exn_str e)),
        after_writes (take k pages) (take (S k) pages) w))
  ∧ ((∀ i p, pages !! i = Some p →
             pages_create notion database_id (w_requests w ++ take i pages) p = None) →
     sync_data notion database_id pages w = (inr tt, after_writes pages pages w)).
Proof.
  split.
  - intros k p e Hk Hok Hfail. unfold sync_data, try_except.
    by rewrite (create_pages_refused _ _ _ _ _ Hk Hok Hfail).
  - intros Hok. unfold sync_data, try_except. by rewrite create_pages_granted.
Qed.

End Writer.

(** ** The calendar *)

Section Calendar.
Local Open Scope Z_scope.

Lemma all_from_spec n z f k :
  all_from n z f = true → z ≤ k < z + Z.of_nat n → f k = true.
Proof.
  revert z. induction n as [|n IH]; intros z; simpl; [lia|].
  intros [Hz Hrest]%andb_prop Hk.
  destruct (Z.eq_dec k z) as [->|Hne]; [done|].
  apply (IH (z + 1)); [done|lia].
Qed.

Lemma check_day_era : all_from (Z.to_nat 146097) 0 check_day = true.
Proof. vm_compute. reflexivity. Qed.

Lemma check_day_true doe : 0 ≤ doe < 146097 → check_day doe = true.
Proof.
  intros Hdoe. apply (all_from_spec _ _ _ _ check_day_era). lia.
Qed.

Lemma is_leap_shift y k : is_leap (y + 400 * k) = is_leap y.
Proof.
  unfold is_leap.
  replace ((y + 400 * k) mod 4) with (y mod 4) by (Z.div_mod_to_equations; lia).
  replace ((y + 400 * k) mod 100) with (y mod 100) by (Z.div_mod_to_equations; lia).
  replace ((y + 400 * k) mod 400) with (y mod 400) by (Z.div_mod_to_equations; lia).
  done.
Qed.

Lemma ymd2ord_shift y m d k : ymd2ord (y + 400 * k) m d = ymd2ord y m d + 146097 * k.
Proof.
  unfold ymd2ord, days_before_month, days_before_year. rewrite is_leap_shift.
  cbv zeta. Z.div_mod_to_equations. lia.
Qed.

Lemma civil_from_days_era days :
  civil_from_days days
  = let era := (days + 719468) / 146097 in
    let '(y, m, d) := civil_from_days (days - era * 146097) in
    (y + 400 * era, m, d).
Proof.
  cbv zeta. unfold civil_from_days. cbv zeta.
  set (era := (days + 719468) / 146097).
  assert ((days - era * 146097 + 719468) / 146097 = 0) as ->.
  { subst era. Z.div_mod_to_equations. lia. }
  replace (days - era * 146097 + 719468 - 0 * 146097)
    with (days + 719468 - era * 146097) by lia.
  match goal with
  | |- (?a, ?b, ?c) = (?a', _, _) => replace a with a' by lia
  end.
  reflexivity.
Qed.

Lemma civil_from_days_correct days :
  let '(y, m, d) := civil_from_days days in
  1 ≤ m ≤ 12 ∧ 1 ≤ d ≤ days_in_month y m ∧ ymd2ord y m d = days + 719163.
Proof.
  rewrite civil_from_days_era. cbv zeta.
  set (era := (days + 719468) / 146097).
  assert (0 ≤ days + 719468 - era * 146097 < 146097) as Hdoe.
  { subst era. Z.div_mod_to_equations. lia. }
  pose proof (check_day_true _ Hdoe) as Hcheck. unfold check_day in Hcheck.
  replace (days + 719468 - era * 146097 - 719468) with (days - era * 146097)
    in Hcheck by lia.
  destruct (civil_from_days (days - era * 146097)) as [[y m] d].
  apply andb_prop in Hcheck as [Hcheck Hord%Z.eqb_eq].
  apply andb_prop in Hcheck as [Hcheck Hd2%Z.leb_le].
  apply andb_prop in Hcheck as [Hcheck Hd1%Z.leb_le].
  apply andb_prop in Hcheck as [Hm1%Z.leb_le Hm2%Z.leb_le].
  unfold days_in_month in *. rewrite is_leap_shift, ymd2ord_shift. lia.
Qed.

Lemma days_before_year_succ y :
  days_before_year (y + 1) = days_before_year y + 365 + (if is_leap y then 1 else 0).
Proof.
  unfold days_before_year, is_leap. cbv zeta.
  destruct (Z.eqb_spec (y mod 4) 0), (Z.eqb_spec (y mod 100) 0),
    (Z.eqb_spec (y mod 400) 0); simpl; Z.div_mod_to_equations; lia.
Qed.

Lemma days_before_year_mono y1 y2 : y1 ≤ y2 → days_before_year y1 ≤ days_before_year y2.
Proof. unfold days_before_year. cbv zeta. intros. Z.div_mod_to_equations. lia. Qed.

Lemma day_of_year_bounds y m d :
  1 ≤ m ≤ 12 → 1 ≤ d ≤ days_in_month y m →
  1 ≤ days_before_month y m + d ≤ 365 + (if is_leap y then 1 else 0).
Proof.
  intros Hm Hd. unfold days_before_month, days_in_month in *.
  assert (m = 1 ∨ m = 2 ∨ m = 3 ∨ m = 4 ∨ m = 5 ∨ m = 6 ∨ m = 7 ∨ m = 8 ∨ m = 9
          ∨ m = 10 ∨ m = 11 ∨ m = 12) as Hcases by lia.
  destruct (is_leap y);
    repeat (destruct Hcases as [->|Hcases]; [simpl in *; lia|]);
    subst m; simpl in *; lia.
Qed.

Lemma civil_year_range days :
  let '(y, m, d) := civil_from_days days in
  (1 ≤ y ↔ ymd2ord 1 1 1 ≤ days + 719163)
  ∧ (y ≤ 9999 ↔ days + 719163 ≤ ymd2ord 9999 12 31).
Proof.
  pose proof (civil_from_days_correct days) as Hcorrect.
  destruct (civil_from_days days) as [[y m] d].
  destruct Hcorrect as (Hm & Hd & Hord).
  pose proof (day_of_year_bounds y m d Hm Hd) as Hdoy.
  pose proof (days_before_year_succ y) as Hsucc.
  unfold ymd2ord in Hord.
  change (ymd2ord 1 1 1) with 1. change (ymd2ord 9999 12 31) with 3652059.
  split; split; intros Hy.
  - pose proof (days_before_year_mono 1 y Hy) as Hmono.
    change (days_before_year 1) with 0 in Hmono. lia.
  - destruct (Z_lt_le_dec y 1) as [Hlt|]; [|done].
    pose proof (days_before_year_mono (y + 1) 1 ltac:(lia)) as Hmono.
    change (days_before_year 1) with 0 in Hmono. lia.
  - pose proof (days_before_year_mono (y + 1) 10000 ltac:(lia)) as Hmono.
    change (days_before_year 10000) with 3652059 in Hmono. lia.
  - destruct (Z_lt_le_dec 9999 y) as [Hlt|]; [|done].
    pose proof (days_before_year_mono 10000 y ltac:(lia)) as Hmono.
    change (days_before_year 10000) with 3652059 in Hmono. lia.
Qed.

Lemma days_before_month_inj y m d m' d' :
  1 ≤ m ≤ 12 → 1 ≤ d ≤ days_in_month y m →
  1 ≤ m' ≤ 12 → 1 ≤ d' ≤ days_in_month y m' →
  days_before_month y m + d = days_before_month y m' + d' → m = m' ∧ d = d'.
Proof.
  intros Hm Hd Hm' Hd'. unfold days_before_month, days_in_month in *.
  assert (m = 1 ∨ m = 2 ∨ m = 3 ∨ m = 4 ∨ m = 5 ∨ m = 6 ∨ m = 7 ∨ m = 8 ∨ m = 9
          ∨ m = 10 ∨ m = 11 ∨ m = 12) as Hcases by lia.
  assert (m' = 1 ∨ m' = 2 ∨ m' = 3 ∨ m' = 4 ∨ m' = 5 ∨ m' = 6 ∨ m' = 7 ∨ m' = 8
          ∨ m' = 9 ∨ m' = 10 ∨ m' = 11 ∨ m' = 12) as Hcases' by lia.
  destruct (is_leap y);
    repeat (destruct Hcases as [->|Hcases]); subst;
    repeat (destruct Hcases' as [->|Hcases']); subst;
    simpl in *; lia.
Qed.

Lemma ymd2ord_inj y m d y' m' d' :
  1 ≤ m ≤ 12 → 1 ≤ d ≤ days_in_month y m →
  1 ≤ m' ≤ 12 → 1 ≤ d' ≤ days_in_month y' m' →
  ymd2ord y m d = ymd2ord y' m' d' → y = y' ∧ m = m' ∧ d = d'.
Proof.
  intros Hm Hd Hm' Hd' Hord. unfold ymd2ord in Hord.
  pose proof (day_of_year_bounds y m d Hm Hd) as Hdoy.
  pose proof (day_of_year_bounds y' m' d' Hm' Hd') as Hdoy'.
  pose proof (days_before_year_succ y) as Hsucc.
  pose proof (days_before_year_succ y') as Hsucc'.
  assert (y = y') as <-.
  { destruct (Z.lt_trichotomy y y') as [Hlt|[Heq|Hgt]]; [|done|].
    - pose proof (days_before_year_mono (y + 1) y' ltac:(lia)). lia.
    - pose proof (days_before_year_mono (y' + 1) y ltac:(lia)). lia. }
  split; [done|]. apply (days_before_month_inj y); try done. lia.
Qed.

(** A number of seconds of local time is the time of one date and one time of
    day only. *)
Lemma civil_time_unique dt dt' loc : civil_time dt loc → civil_time dt' loc → dt' = dt.
Proof.
  destruct dt as [y m d hh mm ss], dt' as [y' m' d' hh' mm' ss'].
  unfold civil_time. simpl.
  intros (Hy & Hm & Hd & Hhh & Hmm & Hss & Hloc) (Hy' & Hm' & Hd' & Hhh' & Hmm' & Hss' & Hloc').
  assert (ymd2ord y' m' d' = ymd2ord y m d) as Hord by lia.
  apply ymd2ord_inj in Hord as (-> & -> & ->); [|done..].
  assert (hh' = hh) as -> by lia. assert (mm' = mm) as -> by lia.
  assert (ss' = ss) as -> by lia. done.
Qed.

Lemma check_year_range : all_from (Z.to_nat 9000) 1000 check_year = true.
Proof. vm_compute. reflexivity. Qed.

Lemma digit_decimal n : digit n = decimal n.
Proof.
  unfold digit, decimal.
  assert (n mod 10 = 0 ∨ n mod 10 = 1 ∨ n mod 10 = 2 ∨ n mod 10 = 3 ∨ n mod 10 = 4
          ∨ n mod 10 = 5 ∨ n mod 10 = 6 ∨ n mod 10 = 7 ∨ n mod 10 = 8 ∨ n mod 10 = 9)
    as Hcases by (pose proof (Z.mod_pos_bound n 10); lia).
  repeat (destruct Hcases as [->|Hcases]; [reflexivity|]).
  by rewrite Hcases.
Qed.

Lemma pad2_two_digits n : pad2 n = two_digits n.
Proof. unfold pad2, two_digits. by rewrite !digit_decimal. Qed.

Lemma pad4_iso_year y : pad4 y = iso_year y.
Proof. unfold pad4, iso_year. by rewrite !digit_decimal, pad2_two_digits. Qed.

Lemma str_int_iso_year y : 1000 ≤ y ≤ 9999 → str_int y = iso_year y.
Proof.
  intros Hy. rewrite <- pad4_iso_year. apply String.eqb_eq.
  apply (all_from_spec _ _ _ _ check_year_range). lia.
Qed.

Lemma time_of_day loc :
  let sod := loc mod 86400 in
  0 ≤ sod / 3600 < 24 ∧ 0 ≤ (sod mod 3600) / 60 < 60 ∧ 0 ≤ sod mod 60 < 60
  ∧ (loc / 86400) * 86400 + (sod / 3600) * 3600 + ((sod mod 3600) / 60) * 60
    + sod mod 60 = loc.
Proof. cbv zeta. Z.div_mod_to_equations. lia. Qed.

Context `{LocalZone}.

Lemma local_year_ok_in_calendar t :
  local_year_ok t = true ↔ in_calendar (t + utc_offset t).
Proof.
  unfold local_year_ok, in_calendar.
  pose proof (civil_year_range ((t + utc_offset t) / 86400)) as Hrange.
  destruct (civil_from_days ((t + utc_offset t) / 86400)) as [[y m] d].
  rewrite andb_true_iff, Z.leb_le, Z.leb_le. tauto.
Qed.

Lemma fromtimestamp_representable secs :
  representable secs →
  ∃ dt, fromtimestamp secs = inr dt ∧ civil_time dt (secs + utc_offset secs).
Proof.
  intros (Hnow & Hbefore & Hfold). unfold fromtimestamp.
  pose proof (civil_from_days_correct ((secs + utc_offset secs) / 86400)) as Hdate.
  pose proof (civil_year_range ((secs + utc_offset secs) / 86400)) as Hyear.
  destruct (civil_from_days ((secs + utc_offset secs) / 86400)) as [[y m] d].
  rewrite (proj2 (local_year_ok_in_calendar secs)) by done.
  rewrite (proj2 (local_year_ok_in_calendar (secs - 86400))) by done.
  assert ((0 <=? utc_offset secs - utc_offset (secs - 86400))
          || local_year_ok (secs + (utc_offset secs - utc_offset (secs - 86400)))
          = true) as ->.
  { destruct (Z.leb_spec 0 (utc_offset secs - utc_offset (secs - 86400)));
      [done|]. simpl. apply local_year_ok_in_calendar, Hfold. lia. }
  eexists. split; [reflexivity|].
  pose proof (time_of_day (secs + utc_offset secs)) as Htime. cbv zeta in Htime.
  unfold civil_time, in_calendar in *. simpl.
  destruct Hdate as (Hm & Hd & Hord), Hyear as [Hy1 Hy2], Hnow as [Hlo Hhi].
  rewrite Hord. split; [split; [by apply Hy1|by apply Hy2]|].
  split; [done|]. split; [done|]. lia.
Qed.

Lemma fromtimestamp_unrepresentable secs :
  ¬ representable secs → ∃ e, fromtimestamp secs = inl e.
Proof.
  intros Hnot. unfold fromtimestamp.
  destruct (civil_from_days ((secs + utc_offset secs) / 86400)) as [[y m] d].
  destruct (local_year_ok secs) eqn:Hnow; simpl; [|by eexists].
  destruct (local_year_ok (secs - 86400)) eqn:Hbefore; simpl; [|by eexists].
  destruct ((0 <=? utc_offset secs - utc_offset (secs - 86400))
            || local_year_ok (secs + (utc_offset secs - utc_offset (secs - 86400))))
    eqn:Hfold; [|by eexists].
  destruct Hnot. split; [by apply local_year_ok_in_calendar|].
  split; [by apply local_year_ok_in_calendar|].
  intros Hlt. apply local_year_ok_in_calendar.
  apply orb_prop in Hfold as [Hge%Z.leb_le|Hok]; [lia|done].
Qed.

Lemma strftime_text dt loc :
  civil_time dt loc →
  strftime dt
  = (if pads_year || (1000 <=? dt_year dt) then iso_year (dt_year dt)
     else str_int (dt_year dt)) +:+ iso_clock dt.
Proof.
  intros ([Hy1 Hy2] & _). unfold strftime, iso_clock.
  rewrite !pad2_two_digits, pad4_iso_year.
  destruct pads_year; simpl; [done|].
  destruct (Z.leb_spec 1000 (dt_year dt)); [|done].
  by rewrite str_int_iso_year by lia.
Qed.

Lemma strftime_not_empty dt : strftime dt ≠ "".
Proof.
  unfold strftime.
  by destruct (if pads_year then pad4 (dt_year dt) else str_int (dt_year dt)).
Qed.

Lemma timestamp_seconds_whole v :
  match whole_seconds v with
  | Some secs => timestamp_seconds v = inr secs
  | None => ∃ e, timestamp_seconds v = inl e
  end.
Proof.
  destruct v as [|b|n|f|s|repr]; simpl; try by eexists.
  destruct (float_seconds f); [done|by eexists].
Qed.

End Calendar.

(** ** The mapping of one run *)

Section Mapping.
Context `{LocalZone}.
Implicit Types (run : RunObj) (final_headers row_data : list string).

Lemma build_row_inv run final_headers row_data :
  build_row run final_headers = inr row_data →
  ∃ i u, run_id run AtRow = inr i ∧ run_user_name run AtRow = inr u
         ∧ row_data = [i; get_timestamp run; u]
                      ++ map (get_run_value run) (drop 3 final_headers).
Proof.
  unfold build_row.
  destruct (run_id run AtRow) as [?|i]; [done|].
  destruct (run_user_name run AtRow) as [?|u]; [done|]. simpl.
  intros [= <-]. by exists i, u.
Qed.

(** From the fourth position on, the row holds the value looked up for the
    header at the same position. *)
Lemma build_row_lookup run final_headers row_data j :
  build_row run final_headers = inr row_data → (3 ≤ j)%nat →
  row_data !! j = get_run_value run <$> final_headers !! j.
Proof.
  intros (i & u & _ & _ & ->)%build_row_inv Hj.
  rewrite lookup_app_r by (simpl; lia). simpl.
  rewrite list_lookup_fmap, lookup_drop. do 2 f_equal. lia.
Qed.

Lemma get_run_value_cases run key :
  get_run_value run key
  = match run_config run with
    | inl _ => ""
    | inr c =>
        match c !! key with
        | Some v => py_str v
        | None =>
            match run_summary run with
            | inl _ => ""
            | inr s => match s !! key with Some v => py_str v | None => "" end
            end
        end
    end.
Proof.
  unfold get_run_value, dict_contains, dict_getitem.
  destruct (run_config run) as [e|c]; simpl; [done|].
  destruct (c !! key) as [v|] eqn:Hc.
  - by rewrite bool_decide_eq_true_2 by eauto.
  - rewrite bool_decide_eq_false_2 by (by intros [? ?]).
    destruct (run_summary run) as [e|s]; simpl; [done|].
    destruct (s !! key) as [v|] eqn:Hs.
    + by rewrite bool_decide_eq_true_2 by eauto.
    + by rewrite bool_decide_eq_false_2 by (by intros [? ?]).
Qed.

Lemma build_row_returns run final_headers i u :
  run_id run AtRow = inr i → run_user_name run AtRow = inr u →
  build_row run final_headers
  = inr ([i; get_timestamp run; u] ++ map (get_run_value run) (drop 3 final_headers)).
Proof. intros Hi Hu. unfold build_row. by rewrite Hi, Hu. Qed.

(** C6, as the code has it.  Take an included run whose identifier and user
    name are read for the row.  Whatever the reads of its configuration and
    of its summary do, the row is built and the run gives its page: a read
    that raises during the lookup of a header gives the empty string for that
    header and nothing more.  At the position of a header [h] beyond the first
    three the row holds the text of [run.config[h]] when the configuration
    holds [h], else the text of [run.summary[h]] when the summary holds [h],
    else the empty string.  The property [h] of the page is a text property
    with that value, empty or not, when [h] is a header other than the two the
    mapping matches by name at any position, "Run ID" and "Timestamp" (and,
    for a header named "Name", when no later header is the title column,
    which fills the property "Name" too). *)
Theorem header_value_resolution run existing_run_ids final_headers user_name pages w i u :
  run_filter run existing_run_ids user_name = inr true →
  run_id run AtRow = inr i → run_user_name run AtRow = inr u →
  let row_data :=
    [i; get_timestamp run; u] ++ map (get_run_value run) (drop 3 final_headers) in
  build_row run final_headers = inr row_data
  ∧ process_run run existing_run_ids final_headers user_name pages w
    = (inr (pages ++ [create_notion_properties row_data final_headers]), w)
  ∧ ∀ j h,
      final_headers !! j = Some h → (3 ≤ j)%nat →
      row_data !! j = Some (get_run_value run h)
      ∧ get_run_value run h
        = match run_config run with
          | inl _ => ""
          | inr c =>
              match c !! h with
              | Some v => py_str v
              | None =>
                  match run_summary run with
                  | inl _ => ""
                  | inr s => match s !! h with Some v => py_str v | None => "" end
                  end
              end
          end
      ∧ (h ≠ "Run ID" → h ≠ "Timestamp" →
         (h = "Name" → "Run ID" ∉ drop (S j) final_headers) →
         create_notion_properties row_data final_headers !! h
         = Some (RichText (get_run_value run h))).
Proof.
  intros Hfilter Hid Huser row_data.
  pose proof (build_row_returns run final_headers i u Hid Huser) as Hrow.
  fold row_data in Hrow. clearbody row_data. split; [done|]. split.
  { unfold process_run, bind, lift. by rewrite Hfilter, Hrow. }
  intros j h Hh Hj.
  assert (row_data !! j = Some (get_run_value run h)) as Hv.
  { rewrite (build_row_lookup _ _ _ _ Hrow Hj), Hh. done. }
  split; [done|]. split; [apply get_run_value_cases|].
  intros Hrun Hts Hname.
  unfold create_notion_properties.
  rewrite <- (take_drop_middle _ _ _ Hh), <- (take_drop_middle _ _ _ Hv).
  rewrite zip_with_app.
  2:{ rewrite !length_take. apply lookup_lt_Some in Hh, Hv. lia. }
  simpl. rewrite foldl_app. simpl.
  apply foldl_set_property_rich; [by apply set_property_rich| |done|done].
  intros [h' v'] [n Hn]%list_elem_of_lookup. simpl.
  apply lookup_zip_with_Some in Hn as (a & b & [= <- <-] & Ha & Hb).
  rewrite lookup_drop in Ha, Hb.
  rewrite (build_row_lookup _ _ _ _ Hrow) in Hb by lia. rewrite Ha in Hb.
  injection Hb as <-. split; [by intros ->|].
  intros Hn Heq. apply (Hname Hn). rewrite <- Heq.
  apply list_elem_of_lookup. exists n. by rewrite lookup_drop.
Qed.

Lemma get_timestamp_cases run :
  get_timestamp run
  = match run_summary run with
    | inl _ => ""
    | inr s =>
        match s !! "_timestamp" with
        | None => ""
        | Some v =>
            match timestamp_seconds v with
            | inl _ => ""
            | inr secs =>
                match fromtimestamp secs with
                | inl _ => ""
                | inr dt => strftime dt
                end
            end
        end
    end.
Proof.
  unfold get_timestamp, dict_contains, dict_getitem.
  destruct (run_summary run) as [e|s]; simpl; [done|].
  destruct (s !! "_timestamp") as [v|] eqn:Hs.
  - rewrite bool_decide_eq_true_2 by eauto. simpl.
    destruct (timestamp_seconds v) as [?|secs]; simpl; [done|].
    by destruct (fromtimestamp secs).
  - by rewrite bool_decide_eq_false_2 by (by intros [? ?]).
Qed.

(** The date column, placed second and met nowhere else, yields a date
    property exactly when its value is not empty. *)
Lemma create_notion_properties_timestamp v0 ts row final_headers :
  timestamp_second final_headers →
  create_notion_properties (v0 :: ts :: row) final_headers !! "Timestamp"
  = if String.eqb ts "" then None else Some (Date ts).
Proof.
  intros (h & rest & -> & Hh & Hrest).
  unfold create_notion_properties. simpl.
  rewrite foldl_set_property_other; [|done|].
  - rewrite set_property_timestamp, set_property_other by done.
    by rewrite lookup_empty.
  - intros hv Hin%elem_of_zip_fst Heq. by rewrite Heq in Hin.
Qed.

Lemma set_property_date_or_absent properties hv :
  date_or_absent properties → date_or_absent (set_property properties hv).
Proof.
  destruct hv as [h v]. unfold date_or_absent. intros Hinv.
  destruct (decide (h = "Timestamp")) as [->|Hne].
  - rewrite set_property_timestamp.
    by destruct (String.eqb_spec v "").
  - by rewrite set_property_other.
Qed.

Lemma create_notion_properties_date_or_absent row_data final_headers :
  date_or_absent (create_notion_properties row_data final_headers).
Proof.
  unfold create_notion_properties.
  assert (date_or_absent (∅ : gmap string Property)) as Hempty.
  { unfold date_or_absent. by rewrite lookup_empty. }
  revert Hempty. generalize (∅ : gmap string Property).
  induction (zip final_headers row_data) as [|hv pairs IH]; intros properties Hinv;
    [done|].
  simpl. by apply IH, set_property_date_or_absent.
Qed.

(** C7, as the code has it.  When the summary holds a numeric "_timestamp"
    whose instant [datetime.fromtimestamp] accepts, the timestamp value of the
    run is the local date and time of that instant (the one date and time of
    day of the calendar at the instant moved by the offset of the local
    zone), printed as "YYYY-MM-DD HH:MM:SS" (a year below
    1000 as the C library prints it, which may be without leading zeros), and
    it is not empty.  The value is the empty string when the summary lacks the
    field, when the field is not a number, when the instant is not accepted,
    and when reading the summary raises.  Whatever the headers, the property
    "Timestamp" of a page is a date property with a value that is not empty,
    or is absent.  With "Timestamp" as the second header and no other, the
    page of an included run has a date property "Timestamp" holding the
    timestamp value when that value is not empty, and no property "Timestamp"
    otherwise. *)
Theorem timestamp_mapping run :
  (∀ s v secs,
     run_summary run = inr s → s !! "_timestamp" = Some v →
     whole_seconds v = Some secs → representable secs →
     ∃ dt, civil_time dt (secs + utc_offset secs)%Z
           ∧ (∀ dt', civil_time dt' (secs + utc_offset secs)%Z → dt' = dt)
           ∧ get_timestamp run
             = (if pads_year || (1000 <=? dt_year dt)%Z then iso_year (dt_year dt)
                else str_int (dt_year dt)) +:+ iso_clock dt
           ∧ get_timestamp run ≠ "")
  ∧ (∀ s, run_summary run = inr s → s !! "_timestamp" = None →
          get_timestamp run = "")
  ∧ (∀ s v, run_summary run = inr s → s !! "_timestamp" = Some v →
            whole_seconds v = None → get_timestamp run = "")
  ∧ (∀ s v secs,
       run_summary run = inr s → s !! "_timestamp" = Some v →
       whole_seconds v = Some secs → ¬ representable secs →
       get_timestamp run = "")
  ∧ (∀ e, run_summary run = inl e → get_timestamp run = "")
  ∧ (∀ final_headers i u,
       run_id run AtRow = inr i → run_user_name run AtRow = inr u →
       let row_data :=
         [i; get_timestamp run; u] ++ map (get_run_value run) (drop 3 final_headers) in
       build_row run final_headers = inr row_data
       ∧ date_or_absent (create_notion_properties row_data final_headers)
       ∧ (timestamp_second final_headers →
          create_notion_properties row_data final_headers !! "Timestamp"
          = if String.eqb (get_timestamp run) "" then None
            else Some (Date (get_timestamp run)))).
Proof.
  split; [|split; [|split; [|split; [|split]]]].
  - intros s v secs Hs Hv Hsecs Hok.
    pose proof (timestamp_seconds_whole v) as Hwhole. rewrite Hsecs in Hwhole.
    destruct (fromtimestamp_representable secs Hok) as (dt & Hdt & Hcivil).
    exists dt. split; [done|].
    split; [intros dt' Hcivil'; by apply civil_time_unique with (secs + utc_offset secs)%Z|].
    rewrite get_timestamp_cases, Hs, Hv, Hwhole, Hdt.
    split; [by apply strftime_text with (secs + utc_offset secs)%Z|].
    apply strftime_not_empty.
  - intros s Hs Hv. by rewrite get_timestamp_cases, Hs, Hv.
  - intros s v Hs Hv Hsecs.
    pose proof (timestamp_seconds_whole v) as Hwhole. rewrite Hsecs in Hwhole.
    destruct Hwhole as [e He]. by rewrite get_timestamp_cases, Hs, Hv, He.
  - intros s v secs Hs Hv Hsecs Hnot.
    pose proof (timestamp_seconds_whole v) as Hwhole. rewrite Hsecs in Hwhole.
    destruct (fromtimestamp_unrepresentable secs Hnot) as [e He].
    by rewrite get_timestamp_cases, Hs, Hv, Hwhole, He.
  - intros e Hs. by rewrite get_timestamp_cases, Hs.
  - intros final_headers i u Hid Huser row_data.
    split; [by apply build_row_returns|].
    split; [apply create_notion_properties_date_or_absent|].
    intros Hsecond. by apply create_notion_properties_timestamp.
Qed.

End Mapping.

(** ** The reader *)

Section Reader.
Implicit Types (pages results : list json) (contents : list (option json)).

Lemma collect_titles_cons page pages results :
  collect_titles (page :: pages) results
  = let? c := row_content page in
    collect_titles pages (results ++ match c with Some x => [x] | None => [] end).
Proof.
  simpl. unfold row_content.
  destruct (page_title page) as [e|title]; simpl; [done|].
  destruct (py_truthy title); simpl; [|by rewrite app_nil_r].
  destruct (py_getitem0 title) as [e|first]; simpl; [done|].
  destruct (py_getitem first "text") as [e|text]; simpl; [done|].
  by destruct (py_getitem text "content") as [e|content].
Qed.

Lemma collect_titles_ok pages contents results :
  Forall2 (λ page c, row_content page = inr c) pages contents →
  collect_titles pages results = inr (results ++ omap id contents).
Proof.
  intros Hrows. revert results.
  induction Hrows as [|page c pages contents Hc _ IH]; intros results.
  - simpl. by rewrite app_nil_r.
  - rewrite collect_titles_cons, Hc. simpl. rewrite IH.
    destruct c; simpl; by rewrite <- ?app_assoc, ?app_nil_r.
Qed.

Lemma collect_titles_bad_row pages results page e :
  page ∈ pages → row_content page = inl e →
  ∃ e', collect_titles pages results = inl e'.
Proof.
  intros Hin Hbad. revert results.
  induction Hin as [page pages|page page' pages _ IH]; intros results;
    rewrite collect_titles_cons.
  - rewrite Hbad. by exists e.
  - destruct (row_content page') as [e'|c]; simpl; [by exists e'|]. apply IH, Hbad.
Qed.

(** C8, as the code has it.  The reader returns, in the order of the response
    and without removing duplicates, the content of the first text run of the
    title of every row whose title is not empty (or null).  Whenever it raises,
    it raises NotionError: when the query raises, and also when the query
    succeeds but the response has no list of results, a row of the response
    lacks the path properties / Name / title, or the first item of its title
    lacks text / content. *)
Theorem get_existing_run_ids_contract notion database_id :
  (∀ e, databases_query notion database_id = inl e →
        get_existing_run_ids notion database_id
        = inl (NotionError ("Failed to get existing run IDs: " +:+ exn_str e)))
  ∧ (∀ response pages contents,
       databases_query notion database_id = inr response →
       py_getitem response "results" = inr (JList pages) →
       Forall2 (λ page c, row_content page = inr c) pages contents →
       get_existing_run_ids notion database_id = inr (omap id contents))
  ∧ (∀ response pages page e,
       databases_query notion database_id = inr response →
       py_getitem response "results" = inr (JList pages) →
       page ∈ pages → row_content page = inl e →
       ∃ msg, get_existing_run_ids notion database_id = inl (NotionError msg))
  ∧ (∀ response e,
       databases_query notion database_id = inr response →
       (py_getitem response "results" = inl e
        ∨ ∃ listing, py_getitem response "results" = inr listing
                     ∧ py_iter listing = inl e) →
       get_existing_run_ids notion database_id
       = inl (NotionError ("Failed to get existing run IDs: " +:+ exn_str e)))
  ∧ (∀ e, get_existing_run_ids notion database_id = inl e → ∃ msg, e = NotionError msg).
Proof.
  unfold get_existing_run_ids. split; [|split; [|split; [|split]]].
  - by intros e ->.
  - intros response pages contents -> Hresults Hrows. simpl.
    rewrite Hresults. simpl. by rewrite (collect_titles_ok _ _ _ Hrows).
  - intros response pages page e -> Hresults Hin Hbad. simpl.
    rewrite Hresults. simpl.
    destruct (collect_titles_bad_row _ [] _ _ Hin Hbad) as [e' ->]. simpl. eauto.
  - intros response e -> [Hresults|(listing & Hresults & Hiter)]; simpl;
      rewrite Hresults; simpl; [done|by rewrite Hiter].
  - intros e. unfold rtry.
    destruct (rbind _ _) as [e'|ids]; [|done]. intros [= <-]. eauto.
Qed.

Lemma row_content_notion_page title :
  row_content (notion_page title) = inr (JStr <$> head title).
Proof. by destruct title. Qed.

End Reader.

(** ** One tick *)

Section Tick.
Context `{LocalZone}.
Implicit Types (env : Env) (args : Args) (w : World).

Lemma main_raise env args w e w0 :
  sync_cycle env args w = (inl e, w0) →
  main env args w
  = (inl e, add_log [(ERROR, "Error in main sync process: " +:+ exn_str e)] w0).
Proof. intros Hbody. unfold main, try_except. by rewrite Hbody. Qed.

Lemma main_return env args w w1 :
  sync_cycle env args w = (inr tt, w1) → main env args w = (inr tt, w1).
Proof. intros Hbody. unfold main, try_except. by rewrite Hbody. Qed.

Lemma main_return_inv env args w w1 :
  main env args w = (inr tt, w1) → sync_cycle env args w = (inr tt, w1).
Proof.
  unfold main, try_except.
  destruct (sync_cycle env args w) as [[e|[]] w0]; [done|]. by intros [= ->].
Qed.

(** C3, as the code has it.  An exception raised during a sync cycle is logged
    at the tick boundary and raised again.  It comes out of [run_pending] into
    the scheduler loop, which logs it a second time, as an unexpected error,
    waits the fixed 60 units in place of the 1-unit pause of that pass, and
    goes on with the next pass.  A pass whose tick returns, and a pass with no
    tick due, take the 1-unit pause. *)
Theorem tick_error_reaches_scheduler_loop env args w interrupted rest :
  (∀ e w0,
     sync_cycle env args w = (inl e, w0) →
     main env args w
     = (inl e, add_log [(ERROR, "Error in main sync process: " +:+ exn_str e)] w0)
     ∧ scheduler_loop args ((true, interrupted, env) :: rest) w
       = scheduler_loop args rest
           {| w_log := w_log w0
                       ++ [(ERROR, "Error in main sync process: " +:+ exn_str e);
                           (ERROR, "Unexpected error: " +:+ exn_str e)];
              w_rows := w_rows w0;
              w_requests := w_requests w0;
              w_slept := w_slept w0 ++ [60%Q] |})
  ∧ (∀ w1,
       sync_cycle env args w = (inr tt, w1) →
       scheduler_loop args ((true, false, env) :: rest) w
       = scheduler_loop args rest
           {| w_log := w_log w1; w_rows := w_rows w1;
              w_requests := w_requests w1; w_slept := w_slept w1 ++ [1%Q] |})
  ∧ scheduler_loop args ((false, false, env) :: rest) w
    = scheduler_loop args rest
        {| w_log := w_log w; w_rows := w_rows w;
           w_requests := w_requests w; w_slept := w_slept w ++ [1%Q] |}.
Proof.
  split; [|split].
  - intros e w0 Hcycle. split; [by apply main_raise|].
    simpl. unfold loop_pass, run_pending. rewrite (main_raise _ _ _ _ _ Hcycle).
    simpl. by rewrite <- app_assoc.
  - intros w1 Hcycle. simpl. unfold loop_pass, run_pending.
    by rewrite (main_return _ _ _ _ Hcycle).
  - reflexivity.
Qed.

(** On a document that is not an object the loader raises, whatever else it
    reads, and leaves the world as it is. *)
Lemma load_config_other env path w v :
  config_file env path = ParsedOther v →
  ∃ e, load_config env path w = (inl e, w)
       ∧ ((∃ msg, e = ConfigError msg) ∨ (∃ msg, e = OtherError "TypeError" msg)).
Proof.
  intros Hfile. unfold load_config. rewrite Hfile.
  destruct v; simpl; try (eexists; split; [reflexivity|right; by eexists]).
  - destruct (if String.index 0 "NOTION_TOKEN" s is Some _ then true else false),
      (if String.index 0 "FIXED_HEADERS" s is Some _ then true else false); simpl;
      try (eexists; split; [reflexivity|left; by eexists]).
    destruct (get_wandb_project_info env) as [e|[team_name project_name]];
      eexists; (split; [reflexivity|]); [left|right]; by eexists.
  - destruct (bool_decide ("NOTION_TOKEN" ∈ str_items items)),
      (bool_decide ("FIXED_HEADERS" ∈ str_items items)); simpl;
      try (eexists; split; [reflexivity|left; by eexists]).
    destruct (get_wandb_project_info env) as [e|[team_name project_name]];
      eexists; (split; [reflexivity|]); [left|right]; by eexists.
Qed.

Lemma load_config_other_raises env path w v config w1 (P : Prop) :
  config_file env path = ParsedOther v →
  load_config env path w = (inr config, w1) → P.
Proof.
  intros Hfile Hload.
  destruct (load_config_other env path w v Hfile) as (e & He & _).
  by rewrite He in Hload.
Qed.

Lemma load_config_inv env path w config w1 :
  load_config env path w = (inr config, w1) →
  (∃ doc, config_file env path = Parsed doc
          ∧ doc_FIXED_HEADERS doc = Some (FIXED_HEADERS config))
  ∧ ∃ l, w1 = add_log l w.
Proof.
  destruct (config_file env path) as [| |e|doc|v] eqn:Hfile.
  5:{ by apply load_config_other_raises with v. }
  all: unfold load_config; rewrite Hfile; try done.
  destruct (doc_NOTION_TOKEN doc) as [token|],
    (doc_FIXED_HEADERS doc) as [headers|] eqn:Hheaders; try done.
  destruct (get_wandb_project_info env) as [e|[team_name project_name]]; [done|].
  unfold bind, logger, ret. intros [= <- <-].
  split; [by exists doc|]. by eexists [_].
Qed.

Lemma init_notion_inv env database_id config notion :
  init_notion env database_id config = inr notion → notion = notion_service env.
Proof.
  unfold init_notion.
  destruct (databases_retrieve (notion_service env) database_id); [done|]. simpl.
  destruct (wandb_Api env); [done|]. simpl. by intros [= <-].
Qed.

Lemma process_fetched_runs_remote runs R existing_run_ids final_headers user_name w r w1 :
  fetched runs = map remote R →
  process_fetched_runs runs existing_run_ids final_headers user_name w = (inr r, w1) →
  r = map (λ r, spec_properties r final_headers)
          (filter (spec_qualifies existing_run_ids user_name) R)
  ∧ w1 = w.
Proof.
  intros Hfetched. unfold process_fetched_runs, process_runs, bind.
  rewrite Hfetched, process_runs_from_remote. simpl.
  destruct (fetch_error runs); [done|]. by intros [= <- <-].
Qed.

(** What a tick that returns has done, when the fetched runs are plain
    records: it read the headers and the existing identifiers, and created,
    in order, one row for each qualifying run and nothing else. *)
Lemma sync_cycle_return env args w w1 R :
  sync_cycle env args w = (inr tt, w1) →
  (∀ path, fetched (api_runs env path) = map remote R) →
  ∃ headers ids,
    (∃ doc, config_file env (config_path args) = Parsed doc
            ∧ doc_FIXED_HEADERS doc = Some headers)
    ∧ get_existing_run_ids (notion_service env) (database_id args) = inr ids
    ∧ let new := map (λ r, spec_properties r headers)
                     (filter (spec_qualifies (str_items ids) (user_name args)) R) in
      w_rows w1 = w_rows w ++ new ∧ w_requests w1 = w_requests w ++ new.
Proof.
  intros Hcycle Hruns. unfold sync_cycle in Hcycle.
  unfold bind at 1 in Hcycle.
  destruct (load_config env (config_path args) w) as [[e|config] wa] eqn:Hconfig;
    [done|].
  apply load_config_inv in Hconfig as [Hdoc [l ->]].
  unfold bind at 1, lift at 1 in Hcycle.
  destruct (init_notion env (database_id args) config) as [e|notion] eqn:Hinit;
    [done|].
  apply init_notion_inv in Hinit as ->.
  unfold bind at 1, lift at 1 in Hcycle.
  destruct (get_existing_run_ids (notion_service env) (database_id args))
    as [e|ids] eqn:Hids; [done|].
  unfold bind at 1 in Hcycle.
  destruct (process_fetched_runs _ _ _ _ _) as [[e|pages] wb] eqn:Hpages in Hcycle;
    [done|].
  apply (process_fetched_runs_remote _ R) in Hpages as [-> ->]; [|apply Hruns].
  exists (FIXED_HEADERS config), ids. split; [done|]. split; [done|].
  simpl. destruct (map _ _) as [|p pages] eqn:Hnew.
  - injection Hcycle as <-. simpl. by rewrite !app_nil_r.
  - unfold bind at 1 in Hcycle.
    destruct (sync_data _ _ _ _) as [[e|[]] wc] eqn:Hsync in Hcycle; [done|].
    apply sync_data_inv in Hsync as ->.
    injection Hcycle as <-. done.
Qed.

Lemma titles_spec_properties (R : list Run) headers :
  title_first headers →
  titles (map (λ r, spec_properties r headers) R) = map r_id R.
Proof.
  intros Hfirst. induction R as [|r R IH]; [done|].
  change (titles (map (λ r, spec_properties r headers) (r :: R)))
    with (match title_of (spec_properties r headers) with
          | Some x => x :: titles (map (λ r, spec_properties r headers) R)
          | None => titles (map (λ r, spec_properties r headers) R)
          end).
  rewrite IH. unfold spec_properties, spec_row.
  change ([r_id r; get_timestamp (remote r); r_user r]
          ++ map (get_run_value (remote r)) (drop 3 headers))
    with (r_id r :: ([get_timestamp (remote r); r_user r]
                     ++ map (get_run_value (remote r)) (drop 3 headers))).
  by rewrite title_of_create_notion_properties.
Qed.

Lemma titles_app rows1 rows2 : titles (rows1 ++ rows2) = titles rows1 ++ titles rows2.
Proof. unfold titles. apply omap_app. Qed.

(** C9.  The batch is compared with the identifiers read before it, never with
    itself: two fetched runs with the same identifier, both finished, both
    owned by the target user, the identifier not among the existing ones, are
    both mapped.  The page list holds the property set of each, in fetch order;
    with the title column first, both are titled with the shared identifier;
    and a writer whose requests are all granted makes a row of each. *)
Theorem duplicate_identifiers_are_both_mapped (pre mid post : list Run) r1 r2
    existing_run_ids final_headers user_name w :
  r_id r2 = r_id r1 →
  r_state r1 = "finished" → r_state r2 = "finished" →
  r_user r1 = user_name → r_user r2 = user_name →
  r_id r1 ∉ existing_run_ids →
  ∃ before between after,
    let pages := before ++ spec_properties r1 final_headers
                 :: between ++ spec_properties r2 final_headers :: after in
    process_runs (map remote (pre ++ r1 :: mid ++ r2 :: post))
      existing_run_ids final_headers user_name w
    = (inr pages, w)
    ∧ (title_first final_headers →
       title_of (spec_properties r1 final_headers) = Some (r_id r1)
       ∧ title_of (spec_properties r2 final_headers) = Some (r_id r1))
    ∧ (∀ notion database_id w0,
         (∀ requests p, pages_create notion database_id requests p = None) →
         sync_data notion database_id pages w0 = (inr tt, after_writes pages pages w0)).
Proof.
  intros Hid Hst1 Hst2 Hu1 Hu2 Hnew.
  assert (spec_qualifies existing_run_ids user_name r1) as Hq1 by done.
  assert (spec_qualifies existing_run_ids user_name r2) as Hq2.
  { split; [done|]. split; [by rewrite Hid|done]. }
  set (f := λ r, spec_properties r final_headers).
  set (P := spec_qualifies existing_run_ids user_name).
  exists (map f (filter P pre)), (map f (filter P mid)), (map f (filter P post)).
  simpl. split; [|split].
  - unfold process_runs. rewrite process_runs_from_remote. simpl.
    rewrite filter_app, filter_cons_True, filter_app, filter_cons_True by done.
    by rewrite map_app, map_cons, map_app, map_cons.
  - intros Hfirst.
    pose proof (titles_spec_properties [r1; r2] final_headers Hfirst) as Ht.
    unfold titles in Ht. simpl in Ht.
    destruct (title_of (spec_properties r1 final_headers)),
      (title_of (spec_properties r2 final_headers)); try done.
    injection Ht as -> ->. by rewrite Hid.
  - intros notion database_id w0 Hok. by apply sync_data_granted.
Qed.

Lemma filter_none {A} (P : A → Prop) `{∀ x, Decision (P x)} (l : list A) :
  (∀ x, x ∈ l → ¬ P x) → filter P l = [].
Proof.
  induction l as [|x l IH]; intros Hnone; [done|].
  rewrite filter_cons_False by (apply Hnone; by left).
  apply IH. intros y Hy. apply Hnone. by right.
Qed.

Lemma process_run_existing run existing_run_ids final_headers user_name pages w i r w1 :
  run_id run AtFilter = inr i → i ∈ existing_run_ids →
  process_run run existing_run_ids final_headers user_name pages w = (inr r, w1) →
  r = pages ∧ w1 = w.
Proof.
  intros Hid Hin. unfold process_run, bind, lift, run_filter.
  destruct (run_state run) as [e|st]; simpl; [done|].
  destruct (String.eqb st "finished"); [|by intros [= <- <-]].
  rewrite Hid. simpl. rewrite bool_decide_eq_true_2 by done.
  by intros [= <- <-].
Qed.

(** C1, as the code has it.  A run whose identifier is among the existing
    ones adds no page; so a batch in which every finished run of the target
    user has its identifier among them yields the empty page list.  A tick that
    returns, over fetched runs that are plain records, creates one row for
    each finished run of the target user whose identifier is not among those
    the reader returned, and requests nothing else; so when every such run's
    identifier is among them no request is issued and the destination is
    unchanged.  When, besides, the title column is first, the fetched
    identifiers are pairwise distinct, and the destination held at most one row
    per title before the tick, each of them among the identifiers read, it
    holds at most one row per title after the tick. *)
Theorem tick_dedup :
  (∀ run existing_run_ids final_headers user_name pages w i r w1,
     run_id run AtFilter = inr i → i ∈ existing_run_ids →
     process_run run existing_run_ids final_headers user_name pages w = (inr r, w1) →
     r = pages ∧ w1 = w)
  ∧ (∀ (R : list Run) existing_run_ids final_headers user_name w,
       (∀ r, r ∈ R → r_state r = "finished" → r_user r = user_name →
             r_id r ∈ existing_run_ids) →
       process_runs (map remote R) existing_run_ids final_headers user_name w
       = (inr [], w))
  ∧ (∀ env args w w1 (R : list Run),
       main env args w = (inr tt, w1) →
       (∀ path, fetched (api_runs env path) = map remote R) →
       ∃ headers ids,
         let E := str_items ids in
         let new := map (λ r, spec_properties r headers)
                        (filter (spec_qualifies E (user_name args)) R) in
         (∃ doc, config_file env (config_path args) = Parsed doc
                 ∧ doc_FIXED_HEADERS doc = Some headers)
         ∧ get_existing_run_ids (notion_service env) (database_id args) = inr ids
         ∧ w_rows w1 = w_rows w ++ new
         ∧ w_requests w1 = w_requests w ++ new
         ∧ ((∀ r, r ∈ R → r_state r = "finished" → r_user r = user_name args →
                  r_id r ∈ E) →
            w_rows w1 = w_rows w ∧ w_requests w1 = w_requests w)
         ∧ (title_first headers → NoDup (map r_id R) → NoDup (titles (w_rows w)) →
            (∀ x, x ∈ titles (w_rows w) → x ∈ E) →
            NoDup (titles (w_rows w1)))).
Proof.
  split; [|split].
  - intros run existing_run_ids final_headers user_name pages w i r w1.
    apply process_run_existing.
  - intros R existing_run_ids final_headers user_name w Hall.
    unfold process_runs. rewrite process_runs_from_remote, filter_none; [done|].
    intros r Hr (Hst & Hnew & Hu). by apply Hnew, Hall.
  - intros env args w w1 R Hmain%main_return_inv Hruns.
    destruct (sync_cycle_return _ _ _ _ _ Hmain Hruns)
      as (headers & ids & Hdoc & Hids & Hrows & Hrequests).
    exists headers, ids. simpl.
    split; [done|]. split; [done|]. split; [done|]. split; [done|]. split.
    + intros Hall.
      assert (filter (spec_qualifies (str_items ids) (user_name args)) R = []) as Hnone.
      { apply filter_none. intros r Hr (Hst & Hnew & Hu). by apply Hnew, Hall. }
      rewrite Hrows, Hrequests, Hnone. simpl. by rewrite !app_nil_r.
    + intros Hfirst HR Hw Hread.
      rewrite Hrows, titles_app, titles_spec_properties by done.
      apply NoDup_app. split; [done|]. split.
      * intros x Hx (r & -> & Hr)%list_elem_of_fmap.
        apply list_elem_of_filter in Hr as [(_ & Hnew & _) _]. by apply Hnew, Hread.
      * eapply sublist_NoDup; [exact HR|].
        apply fmap_sublist, sublist_filter.
Qed.

End Tick.

(** ** The theorems on the sample data *)

Section Samples.
#[local] Existing Instance UTC.

Example sample_pages :
  spec_properties run_a sample_headers = page_a
  ∧ spec_properties run_b sample_headers = page_b
  ∧ spec_properties run_c sample_headers = page_c
  ∧ spec_properties run_a_twin sample_headers = page_a_twin.
Proof. repeat split; vm_compute; reflexivity. Qed.

(** Of five fetched runs, one running, one of bob and one already in the
    destination, the two others are mapped, in fetch order. *)
Example process_runs_sample :
  process_runs (map remote [run_a; run_running; run_of_bob; run_b; run_c])
    ["c3"] sample_headers "alice" empty_world
  = (inr [page_a; page_b], empty_world).
Proof. vm_compute. reflexivity. Qed.

Lemma process_runs_inclusion_and_order_witness :
  process_runs (map remote [run_a; run_running; run_of_bob; run_b; run_c])
    ["c3"] sample_headers "alice" empty_world
  = (inr (map (λ r, spec_properties r sample_headers)
              (filter (spec_qualifies ["c3"] "alice")
                      [run_a; run_running; run_of_bob; run_b; run_c])),
     empty_world).
Proof.
  apply (proj2 (proj2 (process_runs_inclusion_and_order ["c3"] sample_headers "alice"
                         empty_world))
           [run_a; run_running; run_of_bob; run_b; run_c]).
Defined.

Lemma filter_error_aborts_batch_witness :
  process_runs ([remote run_a] ++ without_user run_b :: [remote run_c])
    [] sample_headers "alice" empty_world
  = (inl attribute_error, empty_world).
Proof.
  apply (filter_error_aborts_batch [remote run_a] (without_user run_b) [remote run_c]
           [] sample_headers "alice" empty_world [page_a] empty_world attribute_error).
  - vm_compute. reflexivity.
  - right. right. exists "b2". repeat split; try reflexivity. apply not_elem_of_nil.
Defined.

Lemma build_error_skips_only_that_run_witness :
  ∃ r l,
    process_runs ([remote run_a] ++ [remote run_c]) [] sample_headers "alice" empty_world
    = (r, add_log l empty_world)
    ∧ process_runs ([remote run_a] ++ user_lost_after_filter run_b :: [remote run_c])
        [] sample_headers "alice" empty_world
      = (r, add_log ((ERROR, "Error processing run " +:+ "b2" +:+ ": "
                             +:+ exn_str comm_error) :: l) empty_world).
Proof.
  apply (build_error_skips_only_that_run [remote run_a] (user_lost_after_filter run_b)
           [remote run_c] [] sample_headers "alice" empty_world [page_a] empty_world
           comm_error "b2").
  - vm_compute. reflexivity.
  - reflexivity.
  - reflexivity.
  - reflexivity.
Defined.

(** The same batch, in full: the pages of the first and the third run, and one
    record in the log. *)
Example build_error_sample :
  process_runs [remote run_a; user_lost_after_filter run_b; remote run_c]
    [] sample_headers "alice" empty_world
  = (inr [page_a; page_c],
     add_log [(ERROR, "Error processing run b2: connection reset")] empty_world).
Proof. vm_compute. reflexivity. Qed.

Lemma row_errors_are_contained_witness :
  process_runs [remote run_a; user_lost_after_filter run_b; remote run_c]
    [] sample_headers "alice" empty_world
  = (inr (omap (λ run, page_of run [] sample_headers "alice")
               [remote run_a; user_lost_after_filter run_b; remote run_c]),
     add_log (omap (λ run, row_error_record run [] sample_headers "alice")
                   [remote run_a; user_lost_after_filter run_b; remote run_c])
       empty_world)
  ∧ ∀ pre run post e,
      [remote run_a; user_lost_after_filter run_b; remote run_c] = pre ++ run :: post →
      run_filter run [] "alice" = inr true →
      build_row run sample_headers = inl e →
      page_of run [] sample_headers "alice" = None
      ∧ (∃ i, run_id run AtHandler = inr i
              ∧ row_error_record run [] sample_headers "alice"
                = Some (ERROR, "Error processing run " +:+ i +:+ ": " +:+ exn_str e))
      ∧ omap (λ run, page_of run [] sample_headers "alice")
             [remote run_a; user_lost_after_filter run_b; remote run_c]
        = omap (λ run, page_of run [] sample_headers "alice") pre
          ++ omap (λ run, page_of run [] sample_headers "alice") post.
Proof.
  apply (row_errors_are_contained
           [remote run_a; user_lost_after_filter run_b; remote run_c]
           [] sample_headers "alice" empty_world).
  repeat constructor; by eexists.
Defined.

Lemma sync_data_abort_semantics_witness :
  sync_data (refusing_second (response_of [])) "db-1" [page_a; page_b; page_c] empty_world
  = (inl (NotionError ("Failed to sync data: " +:+ exn_str rate_limited)),
     after_writes (take 1 [page_a; page_b; page_c]) (take 2 [page_a; page_b; page_c])
       empty_world).
Proof.
  apply (proj1 (sync_data_abort_semantics (refusing_second (response_of [])) "db-1"
                  [page_a; page_b; page_c] empty_world) 1%nat page_b rate_limited).
  - reflexivity.
  - intros i q Hi Hq. destruct i as [|i]; [reflexivity|lia].
  - reflexivity.
Defined.

(** The second of three requests is refused: one row, two requests, one pause. *)
Example sync_data_sample :
  sync_data (refusing_second (response_of [])) "db-1" [page_a; page_b; page_c] empty_world
  = (inl (NotionError "Failed to sync data: rate limited"),
     {| w_log := []; w_rows := [page_a]; w_requests := [page_a; page_b];
        w_slept := [(1 # 2)%Q] |}).
Proof. vm_compute. reflexivity. Qed.

Lemma header_value_resolution_witness :
  build_row (without_config run_a) sample_headers
  = inr ["a1"; "1970-01-01 00:00:00"; "alice"; ""]
  ∧ process_run (without_config run_a) [] sample_headers "alice" [] empty_world
    = (inr [create_notion_properties ["a1"; "1970-01-01 00:00:00"; "alice"; ""]
              sample_headers], empty_world)
  ∧ get_run_value (without_config run_a) "lr" = ""
  ∧ create_notion_properties ["a1"; "1970-01-01 00:00:00"; "alice"; ""] sample_headers
    !! "lr" = Some (RichText "").
Proof.
  destruct (header_value_resolution (without_config run_a) [] sample_headers "alice"
              [] empty_world "a1" "alice") as (Hrow & Hrun & Hheaders);
    [reflexivity..|].
  destruct (Hheaders 3%nat "lr") as (Hvalue & Hcases & Htext); [reflexivity|lia|].
  split; [exact Hrow|]. split; [exact Hrun|]. split; [exact Hcases|].
  apply Htext; discriminate.
Defined.

(** The same header on a run whose configuration holds it. *)
Example header_value_sample :
  spec_row run_a sample_headers !! 3%nat = Some "0.01"
  ∧ create_notion_properties (spec_row run_a sample_headers) sample_headers !! "lr"
    = Some (RichText "0.01").
Proof. split; vm_compute; reflexivity. Qed.

(** The two special names are matched wherever they stand.  With "Timestamp"
    as the name of the fourth header, an included run that has no such entry
    gets the empty string at that position and no property for the header,
    where a text property with the empty string was expected; a run that has
    one gets a date property. *)
Lemma fourth_header_matched_by_name :
  headers_with_second_date !! 3%nat = Some "Timestamp"
  ∧ run_filter (remote run_c) [] "alice" = inr true
  ∧ spec_row run_c headers_with_second_date = ["c3"; ""; "alice"; ""]
  ∧ spec_properties run_c headers_with_second_date !! "Timestamp" = None
  ∧ run_filter (remote run_with_timestamp_key) [] "alice" = inr true
  ∧ spec_row run_with_timestamp_key headers_with_second_date
    = ["f6"; ""; "alice"; "2024-01-01"]
  ∧ spec_properties run_with_timestamp_key headers_with_second_date !! "Timestamp"
    = Some (Date "2024-01-01").
Proof. repeat split; vm_compute; reflexivity. Qed.

(** The value of "lr" from the configuration, from the summary, from neither,
    and when reading the configuration raises. *)
Example get_run_value_sample :
  get_run_value (remote run_a) "lr" = "0.01"
  ∧ get_run_value (remote run_b) "lr" = "3"
  ∧ get_run_value (remote run_c) "lr" = ""
  ∧ get_run_value (without_config run_a) "lr" = "".
Proof. repeat split; vm_compute; reflexivity. Qed.

Lemma sample_headers_timestamp_second : timestamp_second sample_headers.
Proof.
  exists "Run ID", ["User"; "lr"]. split; [reflexivity|]. split; [discriminate|].
  apply (bool_decide_unpack _). vm_compute. exact I.
Qed.

Lemma sample_headers_title_first : title_first sample_headers.
Proof.
  exists ["Timestamp"; "User"; "lr"]. split; [reflexivity|].
  split; apply (bool_decide_unpack _); vm_compute; exact I.
Qed.

Lemma timestamp_mapping_witness :
  ∃ dt, civil_time dt (1700000000 + 32400)%Z
        ∧ (∀ dt', civil_time dt' (1700000000 + 32400)%Z → dt' = dt)
        ∧ @get_timestamp KST (remote run_late)
          = (if @pads_year KST || (1000 <=? dt_year dt)%Z then iso_year (dt_year dt)
             else str_int (dt_year dt)) +:+ iso_clock dt
        ∧ @get_timestamp KST (remote run_late) ≠ "".
Proof.
  apply (proj1 (@timestamp_mapping KST (remote run_late))
           (r_summary run_late) (VInt 1700000000) 1700000000%Z).
  - reflexivity.
  - reflexivity.
  - reflexivity.
  - unfold representable, in_calendar. simpl. vm_compute.
    repeat split; intros; discriminate.
Defined.

(** That run in Seoul and in UTC, the epoch in Seoul, a run with no
    timestamp, a timestamp that is a string, and the two pages. *)
Example get_timestamp_sample :
  @get_timestamp KST (remote run_late) = "2023-11-15 07:13:20"
  ∧ get_timestamp (remote run_late) = "2023-11-14 22:13:20"
  ∧ @get_timestamp KST (remote run_a) = "1970-01-01 09:00:00"
  ∧ get_timestamp (remote run_b) = ""
  ∧ get_timestamp
      (remote {| r_id := "h8"; r_state := "finished"; r_user := "alice";
                 r_config := ∅; r_summary := {["_timestamp" := VStr "0"]} |}) = ""
  ∧ page_a !! "Timestamp" = Some (Date "1970-01-01 00:00:00")
  ∧ page_b !! "Timestamp" = None.
Proof. repeat split; vm_compute; reflexivity. Qed.

(** An instant of the year 999, with and without padding of the year, and an
    instant of the first day of the year 1, which is refused. *)
Example early_years_sample :
  fromtimestamp (-30610310400)%Z
  = inr {| dt_year := 999; dt_month := 12; dt_day := 31;
           dt_hour := 0; dt_minute := 0; dt_second := 0 |}
  ∧ @strftime UTC {| dt_year := 999; dt_month := 12; dt_day := 31;
                     dt_hour := 23; dt_minute := 59; dt_second := 59 |}
    = "999-12-31 23:59:59"
  ∧ @strftime {| utc_offset := fun _ => 0%Z; pads_year := true |}
      {| dt_year := 999; dt_month := 12; dt_day := 31;
         dt_hour := 23; dt_minute := 59; dt_second := 59 |}
    = "0999-12-31 23:59:59"
  ∧ fromtimestamp (-62135596800)%Z = inl (OtherError "ValueError" "year is out of range").
Proof. repeat split; vm_compute; reflexivity. Qed.

(** With "Timestamp" as the name of the fourth header too, the page of an
    included run whose timestamp value is empty has a date property all the
    same: the value looked up under that name. *)
Lemma date_set_though_timestamp_empty :
  run_filter (remote run_with_timestamp_key) [] "alice" = inr true
  ∧ get_timestamp (remote run_with_timestamp_key) = ""
  ∧ spec_properties run_with_timestamp_key headers_with_second_date !! "Timestamp"
    = Some (Date "2024-01-01").
Proof. repeat split; vm_compute; reflexivity. Qed.

Lemma get_existing_run_ids_contract_witness :
  get_existing_run_ids (granting (response_of [["a1"]; []; ["b2"; "x"]; ["a1"]])) "db-1"
  = inr (omap id [Some (JStr "a1"); None; Some (JStr "b2"); Some (JStr "a1")]).
Proof.
  apply (proj1 (proj2 (get_existing_run_ids_contract
                         (granting (response_of [["a1"]; []; ["b2"; "x"]; ["a1"]])) "db-1"))
           (response_of [["a1"]; []; ["b2"; "x"]; ["a1"]])
           (map notion_page [["a1"]; []; ["b2"; "x"]; ["a1"]])).
  - reflexivity.
  - reflexivity.
  - repeat constructor.
Defined.

(** C8 as stated fails.  The query succeeds, and the reader raises NotionError
    all the same: over a row whose title property is not called "Name", which
    is not skipped, and over a row whose title starts with a mention. *)
Lemma reader_raises_though_query_succeeds :
  databases_query
    (granting (JDict [("results", JList [notion_page ["a1"]; page_titled_otherwise])]))
    "db-1"
  = inr (JDict [("results", JList [notion_page ["a1"]; page_titled_otherwise])])
  ∧ get_existing_run_ids
      (granting (JDict [("results", JList [notion_page ["a1"]; page_titled_otherwise])]))
      "db-1"
    = inl (NotionError "Failed to get existing run IDs: 'Name'")
  ∧ get_existing_run_ids
      (granting (JDict [("results", JList [notion_page ["a1"]; page_with_mention])]))
      "db-1"
    = inl (NotionError "Failed to get existing run IDs: 'text'").
Proof. repeat split. Qed.

Lemma duplicate_identifiers_are_both_mapped_witness :
  ∃ before between after,
    let pages := before ++ spec_properties run_a sample_headers
                 :: between ++ spec_properties run_a_twin sample_headers :: after in
    process_runs (map remote ([run_b] ++ run_a :: [run_running] ++ run_a_twin :: [run_c]))
      ["zz"] sample_headers "alice" empty_world
    = (inr pages, empty_world)
    ∧ title_of (spec_properties run_a sample_headers) = Some "a1"
    ∧ title_of (spec_properties run_a_twin sample_headers) = Some "a1"
    ∧ sync_data (granting (response_of [])) "db-1" pages empty_world
      = (inr tt, after_writes pages pages empty_world).
Proof.
  destruct (duplicate_identifiers_are_both_mapped [run_b] [run_running] [run_c]
              run_a run_a_twin ["zz"] sample_headers "alice" empty_world)
    as (before & between & after & Hpages & Htitles & Hwriter);
    try reflexivity.
  - intros Hin. apply list_elem_of_singleton in Hin. discriminate.
  - exists before, between, after. simpl.
    destruct (Htitles sample_headers_title_first) as [Ht1 Ht2].
    split; [exact Hpages|]. split; [exact Ht1|]. split; [exact Ht2|].
    apply Hwriter. reflexivity.
Defined.

(** Two fetched runs with one identifier, an empty destination: two pages with
    the same title, and two rows once the writer is done. *)
Example duplicate_identifiers_sample :
  process_runs (map remote [run_a; run_a_twin]) [] sample_headers "alice" empty_world
  = (inr [page_a; page_a_twin], empty_world)
  ∧ titles [page_a; page_a_twin] = ["a1"; "a1"]
  ∧ w_rows (snd (sync_data (granting (response_of [])) "db-1" [page_a; page_a_twin]
                   empty_world))
    = [page_a; page_a_twin].
Proof. repeat split; vm_compute; reflexivity. Qed.

(** With a fourth header named "Run ID" the title is the value looked up
    under that name: two runs with one identifier are both mapped, and both
    pages are titled with the empty string, not with the identifier. *)
Lemma duplicates_titled_by_the_last_title_column :
  process_runs (map remote [run_a; run_a_twin]) [] headers_with_second_title "alice"
    empty_world
  = (inr [spec_properties run_a headers_with_second_title;
          spec_properties run_a_twin headers_with_second_title], empty_world)
  ∧ r_id run_a = "a1" ∧ r_id run_a_twin = "a1"
  ∧ title_of (spec_properties run_a headers_with_second_title) = Some ""
  ∧ title_of (spec_properties run_a_twin headers_with_second_title) = Some "".
Proof. repeat split; vm_compute; reflexivity. Qed.

Lemma tick_dedup_witness :
  let env := sample_env (granting (response_of [["a1"]])) (map remote [run_a; run_b]) in
  w_rows (snd (main env sample_args world_with_a))
  = w_rows world_with_a
    ++ map (λ r, spec_properties r sample_headers)
         (filter (spec_qualifies ["a1"] "alice") [run_a; run_b])
  ∧ NoDup (titles (w_rows (snd (main env sample_args world_with_a))))
  ∧ process_runs (map remote [run_a; run_b]) ["a1"; "b2"] sample_headers "alice"
      empty_world
    = (inr [], empty_world).
Proof.
  destruct tick_dedup as (_ & Hrepeat & Htick).
  destruct (Htick
              (sample_env (granting (response_of [["a1"]])) (map remote [run_a; run_b]))
              sample_args world_with_a
              (snd (main (sample_env (granting (response_of [["a1"]]))
                            (map remote [run_a; run_b]))
                      sample_args world_with_a))
              [run_a; run_b])
    as (headers & ids & (doc & Hfile & Hdoc) & Hids & Hrows & _ & _ & Hunique).
  - vm_compute. reflexivity.
  - intros path. reflexivity.
  - injection Hfile as <-. injection Hdoc as <-. injection Hids as <-.
    split; [exact Hrows|]. split.
    + apply Hunique.
      * exact sample_headers_title_first.
      * apply (bool_decide_unpack _). vm_compute. exact I.
      * apply (bool_decide_unpack _). vm_compute. exact I.
      * intros x Hx. exact Hx.
    + apply Hrepeat. intros r Hr _ _.
      apply list_elem_of_In in Hr. simpl in Hr.
      destruct Hr as [<-|[<-|[]]]; apply (bool_decide_unpack _); vm_compute; exact I.
Defined.

(** A first tick over an empty destination creates the rows of the two runs;
    a second tick, which reads their titles back, creates none and issues no
    request. *)
Example repeat_tick_sample :
  main (sample_env (granting (response_of [])) (map remote [run_a; run_b]))
    sample_args empty_world
  = (inr tt,
     {| w_log := [(INFO, "Using WandB project: proj from team: team");
                  (INFO, "Successfully added 2 new runs")];
        w_rows := [page_a; page_b]; w_requests := [page_a; page_b];
        w_slept := [(1 # 2)%Q; (1 # 2)%Q] |})
  ∧ main (sample_env (granting (response_of [["a1"]; ["b2"]])) (map remote [run_a; run_b]))
      sample_args
      {| w_log := []; w_rows := [page_a; page_b]; w_requests := [page_a; page_b];
         w_slept := [] |}
    = (inr tt,
       {| w_log := [(INFO, "Using WandB project: proj from team: team");
                    (INFO, "No new runs to add")];
          w_rows := [page_a; page_b]; w_requests := [page_a; page_b];
          w_slept := [] |}).
Proof. split; vm_compute; reflexivity. Qed.

(** C1 as stated fails.  The destination is empty and two fetched runs carry
    the identifier "a1": the tick returns, and the destination then holds two
    rows titled "a1".  Likewise when the destination holds the row of "a1" and
    the one page of rows the reader is given does not show it: the tick
    returns, and the destination holds two rows titled "a1". *)
Lemma duplicate_identifiers_give_two_rows :
  fst (main (sample_env (granting (response_of [])) (map remote [run_a; run_a_twin]))
         sample_args empty_world)
  = inr tt
  ∧ titles (w_rows (snd (main (sample_env (granting (response_of []))
                                 (map remote [run_a; run_a_twin]))
                           sample_args empty_world)))
    = ["a1"; "a1"]
  ∧ fst (main (sample_env (granting (first_page_of [["b2"]])) (map remote [run_a]))
           sample_args world_with_a)
    = inr tt
  ∧ titles (w_rows (snd (main (sample_env (granting (first_page_of [["b2"]]))
                                 (map remote [run_a]))
                           sample_args world_with_a)))
    = ["a1"; "a1"].
Proof. repeat split; vm_compute; reflexivity. Qed.

Lemma tick_error_reaches_scheduler_loop_witness :
  main env_without_config sample_args empty_world
  = (inl (ConfigError "Config file not found: config.json"),
     add_log [(ERROR, "Error in main sync process: "
                      +:+ exn_str (ConfigError "Config file not found: config.json"))]
       empty_world)
  ∧ scheduler_loop sample_args [(true, false, env_without_config)] empty_world
    = scheduler_loop sample_args []
        {| w_log := w_log empty_world
                    ++ [(ERROR, "Error in main sync process: "
                                +:+ exn_str (ConfigError "Config file not found: config.json"));
                        (ERROR, "Unexpected error: "
                                +:+ exn_str (ConfigError "Config file not found: config.json"))];
           w_rows := w_rows empty_world;
           w_requests := w_requests empty_world;
           w_slept := w_slept empty_world ++ [60%Q] |}.
Proof.
  apply (proj1 (tick_error_reaches_scheduler_loop env_without_config sample_args
                  empty_world false [])
           (ConfigError "Config file not found: config.json") empty_world).
  reflexivity.
Defined.

(** C3 as stated fails.  The configuration file is missing, so the sync cycle
    raises ConfigError.  [main] does not swallow it, and the pass of the
    scheduler loop logs it as unexpected and waits 60 units, not 1. *)
Lemma sync_cycle_error_takes_the_long_wait :
  fst (main env_without_config sample_args empty_world)
  = inl (ConfigError "Config file not found: config.json")
  ∧ loop_pass true false (main env_without_config sample_args) empty_world
    = (Continue,
       {| w_log := [(ERROR, "Error in main sync process: Config file not found: config.json");
                    (ERROR, "Unexpected error: Config file not found: config.json")];
          w_rows := []; w_requests := []; w_slept := [60%Q] |}).
Proof. split; vm_compute; reflexivity. Qed.

(** A NotionError of the reader and an error of the run listing go the same
    way. *)
Example other_errors_sample :
  fst (loop_pass true false (main (sample_env unreachable []) sample_args) empty_world)
  = Continue
  ∧ w_slept (snd (loop_pass true false (main (sample_env unreachable []) sample_args)
                    empty_world))
    = [60%Q]
  ∧ w_slept (snd (loop_pass true false
                    (main (sample_env (granting (response_of []))
                             [remote run_a; without_user run_b]) sample_args)
                    empty_world))
    = [60%Q].
Proof. repeat split; vm_compute; reflexivity. Qed.

End Samples.

(** ** What a tick does to the world *)

Section Effects.
Context `{LocalZone}.

Lemma writes_only_refl w : writes_only w w.
Proof.
  exists [], [], []. split; [|done]. destruct w. simpl. by rewrite !app_nil_r.
Qed.

Lemma writes_only_trans w w1 w2 :
  writes_only w w1 → writes_only w1 w2 → writes_only w w2.
Proof.
  intros (r1 & c1 & q1 & -> & Hs1) (r2 & c2 & q2 & -> & Hs2).
  exists (r1 ++ r2), (c1 ++ c2), (q1 ++ q2). split; [|by apply sublist_app].
  simpl. by rewrite length_app, replicate_add, !app_assoc.
Qed.

Lemma writes_only_add_log l w : writes_only w (add_log l w).
Proof.
  exists l, [], []. split; [|done]. unfold add_log. simpl. by rewrite !app_nil_r.
Qed.

Lemma appends_ret {A} (a : A) : appends (ret a).
Proof. intros w. apply writes_only_refl. Qed.

Lemma appends_raise {A} e : appends (@raise A e).
Proof. intros w. apply writes_only_refl. Qed.

Lemma appends_lift {A} (r : result A) : appends (lift r).
Proof. intros w. apply writes_only_refl. Qed.

Lemma appends_logger lv msg : appends (logger lv msg).
Proof. intros w. rewrite logger_add_log. apply writes_only_add_log. Qed.

Lemma appends_bind {A B} (m : M A) (k : A → M B) :
  appends m → (∀ a, appends (k a)) → appends (bind m k).
Proof.
  intros Hm Hk w. unfold bind. specialize (Hm w).
  destruct (m w) as [[e|a] w1]; [done|].
  eapply writes_only_trans; [exact Hm|apply Hk].
Qed.

Lemma appends_try_except {A} (body : M A) handler :
  appends body → (∀ e, appends (handler e)) → appends (try_except body handler).
Proof.
  intros Hbody Hhandler w. unfold try_except. specialize (Hbody w).
  destruct (body w) as [[e|a] w1]; [|done].
  eapply writes_only_trans; [exact Hbody|apply Hhandler].
Qed.

Lemma appends_process_runs runs existing_run_ids final_headers user_name :
  appends (process_runs runs existing_run_ids final_headers user_name).
Proof.
  intros w. unfold process_runs.
  destruct (process_runs_from_frame runs existing_run_ids final_headers user_name [])
    as (r & l & ->).
  apply writes_only_add_log.
Qed.

Lemma appends_create_pages notion database_id pages :
  appends (create_pages notion database_id pages).
Proof.
  induction pages as [|p pages IH]; intros w; simpl; [apply writes_only_refl|].
  unfold bind, notion_pages_create.
  destruct (pages_create notion database_id (w_requests w) p) as [e|]; simpl.
  - exists [], [], [p]. split; [|apply sublist_nil_l].
    simpl. by rewrite !app_nil_r.
  - eapply writes_only_trans; [|apply IH].
    exists [], [p], [p]. split; [|done]. simpl. by rewrite app_nil_r.
Qed.

Lemma appends_sync_data notion database_id pages :
  appends (sync_data notion database_id pages).
Proof.
  apply appends_try_except; [apply appends_create_pages|].
  intros e. apply appends_raise.
Qed.

Lemma appends_load_config env path : appends (load_config env path).
Proof.
  destruct (config_file env path) as [| |e|doc|v] eqn:Hfile.
  5:{ intros w. destruct (load_config_other env path w v Hfile) as (e & -> & _).
      apply writes_only_refl. }
  all: unfold load_config; rewrite Hfile; try apply appends_raise.
  destruct (doc_NOTION_TOKEN doc), (doc_FIXED_HEADERS doc); try apply appends_raise.
  destruct (get_wandb_project_info env) as [e|[team_name project_name]];
    [apply appends_raise|].
  apply appends_bind; [apply appends_logger|]. intros _. apply appends_ret.
Qed.

Lemma appends_sync_cycle env args : appends (sync_cycle env args).
Proof.
  unfold sync_cycle.
  apply appends_bind; [apply appends_load_config|]. intros config.
  apply appends_bind; [apply appends_lift|]. intros notion.
  apply appends_bind; [apply appends_lift|]. intros existing_run_ids.
  apply appends_bind.
  { unfold process_fetched_runs.
    apply appends_bind; [apply appends_process_runs|]. intros pages.
    destruct (fetch_error _); [apply appends_raise|apply appends_ret]. }
  intros [|p pages]; [apply appends_logger|].
  apply appends_bind; [apply appends_sync_data|]. intros _. apply appends_logger.
Qed.

Lemma appends_main env args : appends (main env args).
Proof.
  apply (appends_try_except (sync_cycle env args)); [apply appends_sync_cycle|].
  intros e. apply appends_bind; [apply appends_logger|].
  intros _. apply appends_raise.
Qed.

(** X2.  Whatever a tick reads, whatever its run objects do and however it
    ends, it acts on the world by appending only: records to the log,
    requests, rows and pauses.  No row of the destination is removed or
    changed, every row that appears was requested in this tick, in request
    order, and the tick pauses half a unit once for each row it creates. *)
Theorem main_appends env args w :
  writes_only w (snd (main env args w))
  ∧ w_rows w `prefix_of` w_rows (snd (main env args w))
  ∧ w_log w `prefix_of` w_log (snd (main env args w)).
Proof.
  pose proof (appends_main env args w) as Hw.
  split; [done|]. destruct Hw as (records & created & requested & -> & _).
  simpl. split; by eexists.
Qed.

End Effects.

(** ** The writer, whatever the service does *)

Section WriterOutcomes.
Variables (notion : Client) (database_id : string).

Lemma create_pages_outcomes pages w :
  match create_pages notion database_id pages w with
  | (inr _, w1) => w1 = after_writes pages pages w
  | (inl e, w1) =>
      ∃ k p, pages !! k = Some p
             ∧ pages_create notion database_id (w_requests w ++ take k pages) p = Some e
             ∧ w1 = after_writes (take k pages) (take (S k) pages) w
  end.
Proof.
  revert w. induction pages as [|p0 pages IH]; intros w; simpl.
  - by rewrite after_writes_nil.
  - unfold bind, notion_pages_create.
    destruct (pages_create notion database_id (w_requests w) p0) as [e|] eqn:Hp0; simpl.
    + exists 0%nat, p0. split; [done|]. rewrite take_0, app_nil_r. split; [done|].
      unfold after_writes. simpl. by rewrite !app_nil_r.
    + match goal with |- context [create_pages _ _ _ ?w'] => specialize (IH w') end.
      destruct (create_pages notion database_id pages _) as [[e|[]] w1].
      * destruct IH as (k & p & Hk & Hfail & ->). exists (S k), p.
        split; [done|]. simpl in *. rewrite <- app_assoc in Hfail. split; [done|].
        unfold after_writes. simpl. by rewrite <- !app_assoc.
      * rewrite IH. unfold after_writes. simpl. by rewrite <- !app_assoc.
Qed.

Lemma sync_data_cases pages w :
  match sync_data notion database_id pages w with
  | (inr _, w1) => w1 = after_writes pages pages w
  | (inl e, w1) =>
      ∃ k p e0,
        pages !! k = Some p
        ∧ pages_create notion database_id (w_requests w ++ take k pages) p = Some e0
        ∧ e = NotionError ("Failed to sync data: " +:+ exn_str e0)
        ∧ w1 = after_writes (take k pages) (take (S k) pages) w
  end.
Proof.
  unfold sync_data, try_except.
  pose proof (create_pages_outcomes pages w) as Hout.
  destruct (create_pages notion database_id pages w) as [[e|[]] w1]; [|done].
  destruct Hout as (k & p & Hk & Hfail & ->). by exists k, p, e.
Qed.

(** X3.  Whatever the service answers, [sync_data] ends in one of two ways.
    It returns, and then every page is a row and was requested once, in
    order.  Or it raises, and then the exception is a NotionError that carries
    the text of the service's exception, the rows created are the pages before
    some position, the page at that position is the last one requested, and it
    was refused.  With no page to write it returns and leaves the world as it
    is. *)
Theorem sync_data_outcomes pages w :
  match sync_data notion database_id pages w with
  | (inr _, w1) => w1 = after_writes pages pages w
  | (inl e, w1) =>
      ∃ k p e0,
        pages !! k = Some p
        ∧ pages_create notion database_id (w_requests w ++ take k pages) p = Some e0
        ∧ e = NotionError ("Failed to sync data: " +:+ exn_str e0)
        ∧ w1 = after_writes (take k pages) (take (S k) pages) w
  end
  ∧ sync_data notion database_id [] w = (inr tt, w).
Proof. split; [apply sync_data_cases|reflexivity]. Qed.

End WriterOutcomes.

(** ** A tick against its plan *)

Section TickPlan.
Context `{LocalZone}.

Lemma bind_lift {A B} (r : result A) (k : A → M B) w :
  bind (lift r) k w = match r with inl e => (inl e, w) | inr a => k a w end.
Proof. by destruct r. Qed.

Lemma load_config_raise_world env path w e w1 :
  load_config env path w = (inl e, w1) → w1 = w.
Proof.
  destruct (config_file env path) as [| |e0|doc|v] eqn:Hfile.
  5:{ destruct (load_config_other env path w v Hfile) as (e' & -> & _).
      by intros [= _ <-]. }
  all: unfold load_config; rewrite Hfile; try by intros [= _ <-].
  destruct (doc_NOTION_TOKEN doc), (doc_FIXED_HEADERS doc); try by intros [= _ <-].
  destruct (get_wandb_project_info env) as [e0|[team_name project_name]];
    [by intros [= _ <-]|done].
Qed.

Lemma sync_cycle_plan env args w (R : list Run) :
  (∀ path, fetched (api_runs env path) = map remote R) →
  ∃ k k',
    w_rows (snd (sync_cycle env args w)) = w_rows w ++ take k (planned_pages env args R)
    ∧ w_requests (snd (sync_cycle env args w))
      = w_requests w ++ take k' (planned_pages env args R)
    ∧ (fst (sync_cycle env args w) = inr tt →
       w_rows (snd (sync_cycle env args w)) = w_rows w ++ planned_pages env args R).
Proof.
  intros Hruns. unfold sync_cycle.
  destruct (load_config env (config_path args) w) as [[e|config] wa] eqn:Hconfig.
  { rewrite (bind_inl _ _ _ _ _ Hconfig).
    apply load_config_raise_world in Hconfig as ->.
    exists 0%nat, 0%nat. simpl. by rewrite !app_nil_r. }
  rewrite (bind_inr _ _ _ _ _ Hconfig).
  apply load_config_inv in Hconfig as [(doc & Hfile & Hheaders) [l ->]].
  rewrite bind_lift.
  destruct (init_notion env (database_id args) config) as [e|notion] eqn:Hinit.
  { exists 0%nat, 0%nat. simpl. by rewrite !app_nil_r. }
  apply init_notion_inv in Hinit as ->.
  rewrite bind_lift. unfold planned_pages. rewrite Hfile, Hheaders.
  destruct (get_existing_run_ids (notion_service env) (database_id args))
    as [e|ids] eqn:Hids.
  { exists 0%nat, 0%nat. simpl. by rewrite !app_nil_r. }
  remember (map (λ r, spec_properties r (FIXED_HEADERS config))
                (filter (spec_qualifies (str_items ids) (user_name args)) R))
    as new eqn:Hnew.
  assert (process_runs (fetched (api_runs env (TEAM_NAME config +:+ "/"
                                               +:+ PROJECT_NAME config)))
            (str_items ids) (FIXED_HEADERS config) (user_name args) (add_log l w)
          = (inr new, add_log l w)) as Hpages.
  { rewrite Hruns. unfold process_runs. rewrite process_runs_from_remote. by subst new. }
  clear Hnew.
  unfold process_fetched_runs. rewrite bind_assoc, (bind_inr _ _ _ _ _ Hpages).
  destruct (fetch_error _) as [e|].
  { exists 0%nat, 0%nat. simpl. by rewrite !app_nil_r. }
  unfold bind at 1, ret.
  destruct new as [|p rest].
  { exists 0%nat, 0%nat. simpl. by rewrite !app_nil_r. }
  pose proof (sync_data_cases (notion_service env) (database_id args)
                (p :: rest) (add_log l w)) as Hout.
  unfold bind.
  destruct (sync_data (notion_service env) (database_id args) (p :: rest) (add_log l w))
    as [[e|[]] w1].
  - destruct Hout as (k & q & e0 & _ & _ & _ & ->).
    exists k, (S k). simpl. done.
  - subst w1. exists (length (p :: rest)), (length (p :: rest)).
    rewrite firstn_all. simpl. done.
Qed.

(** X4.  A tick over fetched runs that are plain records creates rows in the
    order of its plan and only from it: however the tick ends, the rows it
    adds are the first pages of the plan, and the requests it issues are the
    first pages of the plan too.  It adds nothing when the configuration cannot
    be loaded, when the client cannot be initialised, when the existing
    identifiers cannot be read or when listing the runs fails; a tick that
    returns has carried out the whole plan. *)
Theorem tick_follows_plan env args w (R : list Run) :
  (∀ path, fetched (api_runs env path) = map remote R) →
  (∃ k k',
     w_rows (snd (main env args w)) = w_rows w ++ take k (planned_pages env args R)
     ∧ w_requests (snd (main env args w))
       = w_requests w ++ take k' (planned_pages env args R))
  ∧ (∀ e, get_existing_run_ids (notion_service env) (database_id args) = inl e →
          w_rows (snd (main env args w)) = w_rows w
          ∧ w_requests (snd (main env args w)) = w_requests w)
  ∧ (fst (main env args w) = inr tt →
     w_rows (snd (main env args w)) = w_rows w ++ planned_pages env args R).
Proof.
  intros Hruns.
  destruct (sync_cycle_plan env args w R Hruns) as (k & k' & Hrows & Hrequests & Hall).
  assert (w_rows (snd (main env args w)) = w_rows (snd (sync_cycle env args w))
          ∧ w_requests (snd (main env args w)) = w_requests (snd (sync_cycle env args w))
          ∧ (fst (main env args w) = inr tt → fst (sync_cycle env args w) = inr tt))
    as (Hr & Hq & Hf).
  { unfold main, try_except.
    destruct (sync_cycle env args w) as [[e|[]] w1]; simpl; done. }
  rewrite Hr, Hq. split; [by exists k, k'|]. split.
  - intros e Hreader. rewrite Hrows, Hrequests. unfold planned_pages.
    rewrite Hreader. destruct (config_file env (config_path args)); simpl;
      by rewrite ?take_nil, !app_nil_r.
  - intros Hreturn. by apply Hall, Hf.
Qed.

End TickPlan.

(** ** Rows written, rows read back *)

Section RoundTrip.
Context `{LocalZone}.

Lemma assoc_fmap_None (g : Property → json) l k :
  k ∉ l.*1 → assoc k (map (λ kv, (kv.1, g kv.2)) l) = None.
Proof.
  induction l as [|[k' x] l IH]; intros Hk; simpl; [done|].
  apply not_elem_of_cons in Hk as [Hne Hk]. simpl in Hne.
  destruct (String.eqb_spec k k'); [done|]. by apply IH.
Qed.

Lemma assoc_fmap_Some (g : Property → json) l k x :
  NoDup l.*1 → (k, x) ∈ l → assoc k (map (λ kv, (kv.1, g kv.2)) l) = Some (g x).
Proof.
  induction l as [|[k' x'] l IH]; intros Hnodup Hin; [by apply elem_of_nil in Hin|].
  apply NoDup_cons in Hnodup as [Hfresh Hnodup]. simpl in *.
  apply elem_of_cons in Hin as [[= <- <-]|Hin].
  - by rewrite String.eqb_refl.
  - destruct (String.eqb_spec k k') as [->|Hne]; [|by apply IH].
    exfalso. apply Hfresh. apply list_elem_of_fmap. by exists (k', x).
Qed.

Lemma assoc_properties (properties : gmap string Property) k :
  assoc k (map (λ kv, (kv.1, property_json kv.2)) (map_to_list properties))
  = property_json <$> properties !! k.
Proof.
  destruct (properties !! k) as [x|] eqn:Hk; simpl.
  - apply assoc_fmap_Some; [apply NoDup_fst_map_to_list|].
    by apply elem_of_map_to_list.
  - apply assoc_fmap_None.
    intros ([k' x] & -> & Hin)%list_elem_of_fmap.
    apply elem_of_map_to_list in Hin. simpl in Hk. congruence.
Qed.

Lemma row_content_page_json properties :
  match title_of properties with
  | Some content => row_content (page_json properties) = inr (Some (JStr content))
  | None => ∃ e, row_content (page_json properties) = inl e
  end.
Proof.
  unfold title_of, row_content, page_title, page_json.
  cbn [py_getitem assoc String.eqb Ascii.eqb Bool.eqb rbind].
  rewrite assoc_properties.
  destruct (properties !! "Name") as [[content|start|content]|]; simpl; eauto.
Qed.

Lemma collect_titles_echo rows results :
  match collect_titles (map page_json rows) results with
  | inr ids =>
      Forall (λ properties, is_Some (title_of properties)) rows
      ∧ ids = results ++ (JStr <$> titles rows)
  | inl _ => Exists (λ properties, title_of properties = None) rows
  end.
Proof.
  revert results. induction rows as [|properties rows IH]; intros results.
  - simpl. split; [done|]. by rewrite app_nil_r.
  - change (map page_json (properties :: rows))
      with (page_json properties :: map page_json rows).
    rewrite collect_titles_cons.
    pose proof (row_content_page_json properties) as Hrow.
    unfold titles in *.
    change (omap title_of (properties :: rows))
      with (match title_of properties with
            | Some x => x :: omap title_of rows
            | None => omap title_of rows
            end).
    destruct (title_of properties) as [content|] eqn:Htitle.
    + rewrite Hrow. simpl. specialize (IH (results ++ [JStr content])).
      destruct (collect_titles (map page_json rows) _) as [e|ids].
      * by right.
      * destruct IH as [Hall ->]. split; [constructor; eauto|].
        by rewrite <- app_assoc.
    + destruct Hrow as [e ->]. simpl. by left.
Qed.

Lemma str_items_strings (l : list string) : str_items (JStr <$> l) = l.
Proof.
  unfold str_items. induction l as [|x l IH]; [done|].
  simpl. f_equal. exact IH.
Qed.

Lemma reader_on_echo notion database_id rows :
  databases_query notion database_id = inr (echo_response rows) →
  match get_existing_run_ids notion database_id with
  | inr ids =>
      Forall (λ properties, is_Some (title_of properties)) rows
      ∧ ids = JStr <$> titles rows
  | inl e =>
      Exists (λ properties, title_of properties = None) rows
      ∧ ∃ msg, e = NotionError msg
  end.
Proof.
  intros Hquery. unfold get_existing_run_ids. rewrite Hquery.
  cbn [rbind echo_response py_getitem assoc String.eqb Ascii.eqb Bool.eqb py_iter].
  pose proof (collect_titles_echo rows []) as Hcollect.
  destruct (collect_titles (map page_json rows) []) as [e|ids]; simpl; eauto.
Qed.

(** X5.  What the writer creates, the reader reads back.  Over a service that
    shows every row with the properties it was created with, the reader
    returns the titles of the rows, in order, when every row has a title
    property "Name"; these are strings, and the identifiers [process_runs]
    compares with are exactly those titles.  When a row has no such title
    (its page was built from headers without "Run ID", or a header "Name"
    replaced the title by a text), the reader raises NotionError. *)
Theorem reader_reads_back_titles notion database_id rows :
  databases_query notion database_id = inr (echo_response rows) →
  (Forall (λ properties, is_Some (title_of properties)) rows →
   get_existing_run_ids notion database_id = inr (JStr <$> titles rows)
   ∧ str_items (JStr <$> titles rows) = titles rows)
  ∧ (Exists (λ properties, title_of properties = None) rows →
     ∃ msg, get_existing_run_ids notion database_id = inl (NotionError msg)).
Proof.
  intros Hquery. pose proof (reader_on_echo _ _ _ Hquery) as Hreader.
  destruct (get_existing_run_ids notion database_id) as [e|ids].
  - destruct Hreader as [Hex (msg & ->)]. split; [|eauto].
    intros Hall. exfalso. apply Exists_exists in Hex as (p & Hp & Hnone).
    rewrite Forall_forall in Hall. destruct (Hall p Hp) as [x Hx]. congruence.
  - destruct Hreader as [Hall ->]. split; [by rewrite str_items_strings|].
    intros Hex. exfalso. apply Exists_exists in Hex as (p & Hp & Hnone).
    rewrite Forall_forall in Hall. destruct (Hall p Hp) as [x Hx]. congruence.
Qed.

Lemma main_rows env args w :
  w_rows (snd (main env args w)) = w_rows (snd (sync_cycle env args w))
  ∧ w_requests (snd (main env args w)) = w_requests (snd (sync_cycle env args w)).
Proof.
  unfold main, try_except. by destruct (sync_cycle env args w) as [[e|[]] w1].
Qed.

(** X6.  Two ticks in a row over the same fetched runs, against a service that
    shows every row as created: when the first tick returns, the second one
    creates no row and issues no request, however it ends.  The runs are plain
    records, the two ticks read the same configuration file, and the title
    column is the first header and the only one to fill the title. *)
Theorem second_tick_creates_nothing env1 env2 args w w1 (R : list Run) :
  main env1 args w = (inr tt, w1) →
  (∀ path, fetched (api_runs env1 path) = map remote R) →
  (∀ path, fetched (api_runs env2 path) = map remote R) →
  config_file env2 (config_path args) = config_file env1 (config_path args) →
  (∀ doc headers,
     config_file env1 (config_path args) = Parsed doc →
     doc_FIXED_HEADERS doc = Some headers → title_first headers) →
  databases_query (notion_service env1) (database_id args)
  = inr (echo_response (w_rows w)) →
  databases_query (notion_service env2) (database_id args)
  = inr (echo_response (w_rows w1)) →
  w_rows (snd (main env2 args w1)) = w_rows w1
  ∧ w_requests (snd (main env2 args w1)) = w_requests w1.
Proof.
  intros Hmain%main_return_inv Hruns1 Hruns2 Hconfig Htitle Hquery1 Hquery2.
  destruct (sync_cycle_return _ _ _ _ _ Hmain Hruns1)
    as (headers & ids & (doc & Hfile & Hheaders) & Hids & Hrows & _).
  simpl in Hrows.
  pose proof (reader_on_echo _ _ _ Hquery1) as Hreader1.
  rewrite Hids in Hreader1. destruct Hreader1 as [_ ->].
  rewrite str_items_strings in Hrows.
  specialize (Htitle doc headers Hfile Hheaders).
  assert (planned_pages env2 args R = []) as Hplan.
  { unfold planned_pages. rewrite Hconfig, Hfile, Hheaders.
    pose proof (reader_on_echo _ _ _ Hquery2) as Hreader2.
    destruct (get_existing_run_ids (notion_service env2) (database_id args))
      as [e|ids2]; [done|].
    destruct Hreader2 as [_ ->]. rewrite str_items_strings.
    rewrite filter_none; [done|].
    intros r Hr (Hst & Hnew & Hu). apply Hnew.
    rewrite Hrows, titles_app, titles_spec_properties by done.
    apply elem_of_app.
    destruct (decide (r_id r ∈ titles (w_rows w))) as [Hin|Hnotin]; [by left|].
    right. apply list_elem_of_fmap. exists r. split; [done|].
    apply list_elem_of_filter. split; [|done]. done. }
  destruct (sync_cycle_plan env2 args w1 R Hruns2) as (k & k' & Hr & Hq & _).
  destruct (main_rows env2 args w1) as [-> ->].
  rewrite Hr, Hq, Hplan. simpl. by rewrite !take_nil, !app_nil_r.
Qed.

End RoundTrip.

(** ** Configuration and initialisation *)

Section Configuration.
Implicit Types (env : Env) (w : World).

Lemma get_wandb_project_info_inr env team_name project_name :
  get_wandb_project_info env = inr (team_name, project_name) ↔
  ∃ current_run, wandb_run env = Some current_run
                 ∧ project current_run ≠ "" ∧ entity current_run ≠ ""
                 ∧ team_name = entity current_run
                 ∧ project_name = project current_run.
Proof.
  unfold get_wandb_project_info.
  destruct (wandb_run env) as [current_run|].
  2:{ split; [done|]. by intros (? & ? & _). }
  destruct (String.eqb_spec (project current_run) "") as [Hp|Hp]; simpl.
  { split; [done|]. intros (? & [= <-] & ? & _). done. }
  destruct (String.eqb_spec (entity current_run) "") as [He|He]; simpl.
  { split; [done|]. intros (? & [= <-] & _ & ? & _). done. }
  split.
  - intros [= <- <-]. by exists current_run.
  - intros (? & [= <-] & _ & _ & -> & ->). done.
Qed.

Lemma load_config_return env path w config w1 :
  load_config env path w = (inr config, w1) →
  ∃ doc current_run,
    config_file env path = Parsed doc
    ∧ doc_NOTION_TOKEN doc = Some (NOTION_TOKEN config)
    ∧ doc_FIXED_HEADERS doc = Some (FIXED_HEADERS config)
    ∧ wandb_run env = Some current_run
    ∧ project current_run ≠ "" ∧ entity current_run ≠ ""
    ∧ TEAM_NAME config = entity current_run
    ∧ PROJECT_NAME config = project current_run
    ∧ w1 = add_log [(INFO, "Using WandB project: " +:+ PROJECT_NAME config
                           +:+ " from team: " +:+ TEAM_NAME config)] w.
Proof.
  destruct (config_file env path) as [| |e|doc|v] eqn:Hfile.
  5:{ by apply load_config_other_raises with v. }
  all: unfold load_config; rewrite Hfile; try done.
  destruct (doc_NOTION_TOKEN doc) as [token|] eqn:Htoken,
    (doc_FIXED_HEADERS doc) as [headers|] eqn:Hheaders; try done.
  destruct (get_wandb_project_info env) as [e|[team_name project_name]] eqn:Hinfo;
    [done|].
  apply get_wandb_project_info_inr in Hinfo as (current_run & Hrun & Hp & He & -> & ->).
  unfold bind, logger, ret. intros [= <- <-]. by exists doc, current_run.
Qed.

Lemma load_config_raise_kind env path w e w1 :
  load_config env path w = (inl e, w1) →
  w1 = w
  ∧ (config_file env path = Unreadable e
     ∨ (∃ v msg, config_file env path = ParsedOther v ∧ e = OtherError "TypeError" msg)
     ∨ ∃ msg, e = ConfigError msg).
Proof.
  destruct (config_file env path) as [| |e0|doc|v] eqn:Hfile.
  5:{ destruct (load_config_other env path w v Hfile) as (e' & -> & Hkind).
      intros [= <- <-]. split; [done|]. right.
      destruct Hkind as [Hkind|[msg ->]]; [by right|]. left. by exists v, msg. }
  all: unfold load_config, raise; rewrite Hfile.
  - intros [= <- <-]. eauto.
  - intros [= <- <-]. eauto.
  - intros [= <- <-]. eauto.
  - destruct (doc_NOTION_TOKEN doc), (doc_FIXED_HEADERS doc);
      try (intros [= <- <-]; by eauto).
    destruct (get_wandb_project_info env) as [e0|[team_name project_name]];
      [intros [= <- <-]; by eauto|done].
Qed.

Lemma elem_of_str_items key items : JStr key ∈ items → key ∈ str_items items.
Proof.
  intros Hin. unfold str_items. apply list_elem_of_omap. by exists (JStr key).
Qed.

(** X7.  [load_config] returns exactly when the file parses to an object with
    both required keys and an active WandB run gives a project and an entity
    that are not empty; the configuration then holds the token and the headers
    of the file, the entity as team name and the project as project name, and
    one INFO record is logged.  When it raises it leaves the world as it is,
    and the exception is a ConfigError but for two cases: an exception met
    while the file is read, other than "not found" and "invalid JSON", passes
    through as it is, and so does the TypeError raised on a file that parses
    to something else than an object.  Such a file is never loaded: a number
    raises TypeError when the keys are looked for (line 66), and a list that
    holds both key names raises it when the team name is stored (line 72),
    an active run being there.  The keys are checked before the WandB run is
    looked at: an object that lacks a key is reported with the list of the
    keys it lacks, whether or not a run is active. *)
Theorem load_config_contract env path w :
  (∀ config w1,
     load_config env path w = (inr config, w1) ↔
     ∃ doc current_run,
       config_file env path = Parsed doc
       ∧ doc_NOTION_TOKEN doc = Some (NOTION_TOKEN config)
       ∧ doc_FIXED_HEADERS doc = Some (FIXED_HEADERS config)
       ∧ wandb_run env = Some current_run
       ∧ project current_run ≠ "" ∧ entity current_run ≠ ""
       ∧ TEAM_NAME config = entity current_run
       ∧ PROJECT_NAME config = project current_run
       ∧ w1 = add_log [(INFO, "Using WandB project: " +:+ PROJECT_NAME config
                              +:+ " from team: " +:+ TEAM_NAME config)] w)
  ∧ (∀ e w1,
       load_config env path w = (inl e, w1) →
       w1 = w
       ∧ (config_file env path = Unreadable e
          ∨ (∃ v msg, config_file env path = ParsedOther v
                      ∧ e = OtherError "TypeError" msg)
          ∨ ∃ msg, e = ConfigError msg))
  ∧ (∀ doc,
       config_file env path = Parsed doc →
       doc_NOTION_TOKEN doc = None ∨ doc_FIXED_HEADERS doc = None →
       load_config env path w
       = (inl (ConfigError
                 ("Missing required keys in config: "
                  +:+ repr_list ((if doc_NOTION_TOKEN doc is None
                                  then ["NOTION_TOKEN"] else [])
                                 ++ (if doc_FIXED_HEADERS doc is None
                                     then ["FIXED_HEADERS"] else [])))), w))
  ∧ (∀ v, config_file env path = ParsedOther v →
          ∃ e, load_config env path w = (inl e, w))
  ∧ (∀ n, config_file env path = ParsedOther (TopInt n) →
          load_config env path w
          = (inl (OtherError "TypeError" "argument of type 'int' is not iterable"), w))
  ∧ (∀ items team_name project_name,
       config_file env path = ParsedOther (TopList items) →
       JStr "NOTION_TOKEN" ∈ items → JStr "FIXED_HEADERS" ∈ items →
       get_wandb_project_info env = inr (team_name, project_name) →
       load_config env path w
       = (inl (OtherError "TypeError"
                 "list indices must be integers or slices, not str"), w)).
Proof.
  split; [|split; [|split; [|split; [|split]]]].
  - intros config w1. split; [apply load_config_return|].
    intros (doc & current_run & Hfile & Htoken & Hheaders & Hrun & Hp & He
            & Hteam & Hproject & ->).
    unfold load_config. rewrite Hfile, Htoken, Hheaders.
    assert (get_wandb_project_info env = inr (TEAM_NAME config, PROJECT_NAME config))
      as ->.
    { apply get_wandb_project_info_inr. by exists current_run. }
    unfold bind, logger, ret, add_log. simpl. by destruct config.
  - intros e w1. apply load_config_raise_kind.
  - intros doc Hfile Hmissing. unfold load_config. rewrite Hfile.
    destruct (doc_NOTION_TOKEN doc), (doc_FIXED_HEADERS doc); try done.
    by destruct Hmissing.
  - intros v Hfile. destruct (load_config_other env path w v Hfile) as (e & He & _).
    by exists e.
  - intros n Hfile. unfold load_config. by rewrite Hfile.
  - intros items team_name project_name Hfile Htoken%elem_of_str_items
      Hheaders%elem_of_str_items Hinfo.
    unfold load_config. rewrite Hfile. simpl.
    rewrite !bool_decide_eq_true_2 by done. simpl. by rewrite Hinfo.
Qed.

Lemma init_notion_raise_kind env database_id config e :
  init_notion env database_id config = inl e → ∃ msg, e = NotionError msg.
Proof.
  unfold init_notion, rtry. destruct (rbind _ _) as [e'|notion]; [|done].
  intros [= <-]. eauto.
Qed.

(** X8.  [init_notion] returns the client when the existence probe and the
    construction of the WandB API handle both succeed, and raises NotionError
    in every other case, also when it is the WandB call that failed.  A failed
    probe is wrapped twice: the message of the probe's NotionError is carried
    inside the message of the NotionError the outer handler raises.  The probe
    comes first: when it fails the WandB call is not what is reported. *)
Theorem init_notion_outcomes env database_id config :
  (∀ e, databases_retrieve (notion_service env) database_id = Some e →
        init_notion env database_id config
        = inl (NotionError ("Failed to initialize Notion client: "
                            +:+ "Failed to access Notion database: " +:+ exn_str e)))
  ∧ (∀ e, databases_retrieve (notion_service env) database_id = None →
          wandb_Api env = Some e →
          init_notion env database_id config
          = inl (NotionError ("Failed to initialize Notion client: " +:+ exn_str e)))
  ∧ (databases_retrieve (notion_service env) database_id = None →
     wandb_Api env = None →
     init_notion env database_id config = inr (notion_service env))
  ∧ (∀ e, init_notion env database_id config = inl e → ∃ msg, e = NotionError msg).
Proof.
  split; [|split; [|split]].
  - unfold init_notion. by intros e ->.
  - unfold init_notion. by intros e -> ->.
  - unfold init_notion. by intros -> ->.
  - intros e. apply init_notion_raise_kind.
Qed.

End Configuration.

(** ** How a tick ends *)

Section TickOutcomes.
Context `{LocalZone}.

Lemma main_raise_inv env args w e w1 :
  main env args w = (inl e, w1) → ∃ w0, sync_cycle env args w = (inl e, w0).
Proof.
  unfold main, try_except.
  destruct (sync_cycle env args w) as [[e'|[]] w0]; [|done].
  unfold bind, logger, raise. intros [= <- _]. by exists w0.
Qed.

Lemma get_existing_run_ids_raise_kind notion database_id e :
  get_existing_run_ids notion database_id = inl e → ∃ msg, e = NotionError msg.
Proof.
  unfold get_existing_run_ids, rtry. destruct (rbind _ _) as [e'|ids]; [|done].
  intros [= <-]. eauto.
Qed.

(** X9.  When the configuration file is absent, is not JSON or holds a JSON
    object, and the runs are plain records fetched without error, every
    exception that leaves a tick is a ConfigError or a NotionError: the
    configuration loader raises the first, the client initialisation, the
    reader and the writer wrap whatever they meet in the second, and the row
    processor raises nothing.  (Another exception met while the file is read,
    and the TypeError on a JSON document that is not an object, leave the tick
    as they are.) *)
Theorem tick_error_kinds env args w e w1 (R : list Run) :
  main env args w = (inl e, w1) →
  (config_file env (config_path args) = FileNotFound
   ∨ config_file env (config_path args) = InvalidJson
   ∨ ∃ doc, config_file env (config_path args) = Parsed doc) →
  (∀ path, api_runs env path = {| fetched := map remote R; fetch_error := None |}) →
  (∃ msg, e = ConfigError msg) ∨ (∃ msg, e = NotionError msg).
Proof.
  intros [w0 Hcycle]%main_raise_inv Hfile Hruns. unfold sync_cycle in Hcycle.
  destruct (load_config env (config_path args) w) as [[e'|config] wa] eqn:Hconfig.
  { rewrite (bind_inl _ _ _ _ _ Hconfig) in Hcycle. injection Hcycle as <- <-.
    apply load_config_raise_kind in Hconfig as [_ [Hbad|[(v & msg & Hbad & _)|Hkind]]];
      [| |by left];
      destruct Hfile as [Hfile|[Hfile|[doc Hfile]]]; by rewrite Hfile in Hbad. }
  rewrite (bind_inr _ _ _ _ _ Hconfig), bind_lift in Hcycle.
  destruct (init_notion env (database_id args) config) as [e'|notion] eqn:Hinit.
  { injection Hcycle as <- <-. right. by eapply init_notion_raise_kind. }
  rewrite bind_lift in Hcycle.
  destruct (get_existing_run_ids notion (database_id args)) as [e'|ids] eqn:Hids.
  { injection Hcycle as <- <-. right. by eapply get_existing_run_ids_raise_kind. }
  unfold process_fetched_runs in Hcycle. rewrite bind_assoc in Hcycle.
  unfold process_runs in Hcycle. rewrite Hruns in Hcycle. simpl in Hcycle.
  erewrite bind_inr in Hcycle by apply process_runs_from_remote.
  unfold bind at 1, ret in Hcycle. simpl in Hcycle.
  destruct (map _ _) as [|p rest] in Hcycle; [done|].
  pose proof (sync_data_cases notion (database_id args) (p :: rest) wa) as Hout.
  unfold bind in Hcycle.
  destruct (sync_data notion (database_id args) (p :: rest) wa) as [[e'|[]] wb];
    [|done].
  injection Hcycle as <- <-. destruct Hout as (k & q & e0 & _ & _ & -> & _).
  right. eauto.
Qed.

(** X10.  What a tick that returns leaves behind, when the fetched runs are
    plain records.  The log gains two INFO records: the project and the team
    the runs were taken from, then either the number of rows added or the
    notice that there was none.  The destination gains the planned pages, each
    requested once and in order, and the tick paused half a unit after each of
    them; the number in the log is the number of rows created. *)
Theorem tick_return_effects env args w w1 (R : list Run) :
  main env args w = (inr tt, w1) →
  (∀ path, fetched (api_runs env path) = map remote R) →
  ∃ current_run,
    wandb_run env = Some current_run
    ∧ w1 = {| w_log :=
                w_log w
                ++ [(INFO, "Using WandB project: " +:+ project current_run
                           +:+ " from team: " +:+ entity current_run);
                    (INFO, match planned_pages env args R with
                           | [] => "No new runs to add"
                           | new => "Successfully added "
                                    +:+ str_int (Z.of_nat (length new)) +:+ " new runs"
                           end)];
              w_rows := w_rows w ++ planned_pages env args R;
              w_requests := w_requests w ++ planned_pages env args R;
              w_slept := w_slept w
                         ++ replicate (length (planned_pages env args R)) (1 # 2)%Q |}.
Proof.
  intros Hcycle%main_return_inv Hruns. unfold sync_cycle in Hcycle.
  destruct (load_config env (config_path args) w) as [[e|config] wa] eqn:Hconfig.
  { by rewrite (bind_inl _ _ _ _ _ Hconfig) in Hcycle. }
  rewrite (bind_inr _ _ _ _ _ Hconfig), bind_lift in Hcycle.
  apply load_config_return in Hconfig
    as (doc & current_run & Hfile & _ & Hheaders & Hrun & _ & _ & Hteam & Hproject & ->).
  destruct (init_notion env (database_id args) config) as [e|notion] eqn:Hinit;
    [done|].
  apply init_notion_inv in Hinit as ->.
  rewrite bind_lift in Hcycle.
  destruct (get_existing_run_ids (notion_service env) (database_id args))
    as [e|ids] eqn:Hids; [done|].
  exists current_run. split; [done|].
  unfold planned_pages. rewrite Hfile, Hids, Hheaders, <- Hteam, <- Hproject.
  unfold process_fetched_runs in Hcycle. rewrite bind_assoc in Hcycle.
  unfold process_runs in Hcycle. rewrite Hruns in Hcycle.
  erewrite bind_inr in Hcycle by apply process_runs_from_remote.
  simpl in Hcycle.
  destruct (fetch_error _) as [e|] in Hcycle; [done|].
  unfold bind at 1, ret in Hcycle.
  destruct (map (λ r, spec_properties r _) _) as [|p rest].
  - injection Hcycle as <-. unfold add_log. simpl.
    by rewrite <- app_assoc, !app_nil_r.
  - pose proof (sync_data_cases (notion_service env) (database_id args) (p :: rest)
                  (add_log [(INFO, "Using WandB project: " +:+ PROJECT_NAME config
                                   +:+ " from team: " +:+ TEAM_NAME config)] w))
      as Hout.
    unfold bind in Hcycle.
    destruct (sync_data _ _ _ _) as [[e|[]] wb] in Hcycle, Hout; [done|].
    subst wb. injection Hcycle as <-. unfold add_log, after_writes. simpl.
    by rewrite <- app_assoc.
Qed.

End TickOutcomes.

(** ** The property builder, header by header *)

Section Builder.
Implicit Types (properties : gmap string Property) (pairs : list (string * string)).

Lemma foldl_set_property_at l1 h v l2 :
  (∀ hv, hv ∈ l1 → hv.1 ≠ h) → (∀ hv, hv ∈ l2 → hv.1 ≠ h) →
  (∀ hv, hv ∈ l2 → hv.1 ≠ "Name") → h ≠ "Name" →
  if String.eqb h "Run ID"
  then foldl set_property ∅ (l1 ++ (h, v) :: l2) !! "Name" = Some (Title v)
  else if String.eqb h "Timestamp"
  then foldl set_property ∅ (l1 ++ (h, v) :: l2) !! "Timestamp"
       = (if String.eqb v "" then None else Some (Date v))
  else foldl set_property ∅ (l1 ++ (h, v) :: l2) !! h = Some (RichText v).
Proof.
  intros Hl1 Hl2 Hname Hh. rewrite foldl_app. simpl.
  destruct (String.eqb_spec h "Run ID") as [->|Hrun].
  { rewrite foldl_set_property_name.
    - unfold set_property. simpl. by rewrite lookup_insert_eq.
    - intros hv Hin. split; [by apply Hl2|by apply Hname]. }
  destruct (String.eqb_spec h "Timestamp") as [->|Hts].
  { rewrite foldl_set_property_other by done.
    rewrite set_property_timestamp. destruct (String.eqb v ""); [|done].
    by rewrite foldl_set_property_other, lookup_empty. }
  rewrite foldl_set_property_other by done. by apply set_property_rich.
Qed.

Lemma set_property_is_Some properties hv k :
  is_Some (set_property properties hv !! k) → is_Some (properties !! k) ∨ fills k hv.
Proof.
  destruct hv as [h v]. unfold set_property, fills. simpl.
  destruct (String.eqb_spec h "Run ID") as [->|Hrun].
  { intros [<-|[_ ?]]%lookup_insert_is_Some; eauto. }
  destruct (String.eqb_spec h "Timestamp") as [->|Hts].
  - destruct (String.eqb_spec v "") as [->|Hv]; simpl; [by left|].
    intros [<-|[_ ?]]%lookup_insert_is_Some; [|by left].
    right. right. done.
  - intros [<-|[_ ?]]%lookup_insert_is_Some; [|by left].
    right. right. done.
Qed.

Lemma foldl_set_property_is_Some pairs properties k :
  is_Some (foldl set_property properties pairs !! k) →
  is_Some (properties !! k) ∨ ∃ hv, hv ∈ pairs ∧ fills k hv.
Proof.
  revert properties. induction pairs as [|hv pairs IH]; intros properties; simpl;
    [by left|].
  intros [[Hold|Hnew]%set_property_is_Some|(hv' & Hin & Hfills)]%IH.
  - by left.
  - right. exists hv. split; [by left|done].
  - right. exists hv'. split; [by right|done].
Qed.

(** X11.  What [create_notion_properties] puts on a page.  With headers that
    are pairwise distinct, none of them "Name", the header at a position and
    the value at the same position decide one property: the title "Name" for
    the header "Run ID", a date for the header "Timestamp" when the value is
    not empty and no property at all when it is, a text property under the
    header's own name for any other header, empty value or not.  Whatever the
    headers, every property of the page comes from a header that has a value
    at its position (a header beyond the end of the row gives none), and no
    page has a property called "Run ID". *)
Theorem create_notion_properties_lookup run_data headers :
  (NoDup headers → "Name" ∉ headers →
   ∀ i h v, headers !! i = Some h → run_data !! i = Some v →
     if String.eqb h "Run ID"
     then create_notion_properties run_data headers !! "Name" = Some (Title v)
     else if String.eqb h "Timestamp"
     then create_notion_properties run_data headers !! "Timestamp"
          = (if String.eqb v "" then None else Some (Date v))
     else create_notion_properties run_data headers !! h = Some (RichText v))
  ∧ (∀ k, is_Some (create_notion_properties run_data headers !! k) →
          ∃ i h v, headers !! i = Some h ∧ run_data !! i = Some v
                   ∧ ((k = "Name" ∧ h = "Run ID")
                      ∨ (k = h ∧ h ≠ "Run ID" ∧ (h = "Timestamp" → v ≠ ""))))
  ∧ create_notion_properties run_data headers !! "Run ID" = None.
Proof.
  assert (∀ k, is_Some (create_notion_properties run_data headers !! k) →
               ∃ i h v, headers !! i = Some h ∧ run_data !! i = Some v
                        ∧ ((k = "Name" ∧ h = "Run ID")
                           ∨ (k = h ∧ h ≠ "Run ID" ∧ (h = "Timestamp" → v ≠ ""))))
    as Hkeys.
  { intros k [Hempty|([h v] & Hin & Hfills)]%foldl_set_property_is_Some.
    { rewrite lookup_empty in Hempty. by destruct Hempty. }
    apply list_elem_of_lookup in Hin as [i Hi].
    apply lookup_zip_with_Some in Hi as (a & b & [= <- <-] & Ha & Hb).
    by exists i, h, v. }
  split; [|split; [done|]].
  - intros Hnd Hname i h v Hh Hv. unfold create_notion_properties.
    assert (h ≠ "Name") as Hhn.
    { intros ->. apply Hname. by eapply list_elem_of_lookup_2. }
    rewrite <- (take_drop_middle _ _ _ Hh) in Hnd, Hname.
    apply NoDup_app in Hnd as (_ & Hbefore & [Hafter _]%NoDup_cons).
    rewrite <- (take_drop_middle _ _ _ Hh), <- (take_drop_middle _ _ _ Hv).
    rewrite zip_with_app.
    2:{ rewrite !length_take. apply lookup_lt_Some in Hh, Hv. lia. }
    simpl. apply foldl_set_property_at; [| | |done].
    + intros hv Hin%elem_of_zip_fst Heq. apply (Hbefore _ Hin). rewrite Heq. by left.
    + intros hv Hin%elem_of_zip_fst Heq. by rewrite Heq in Hin.
    + intros hv Hin%elem_of_zip_fst Heq. apply Hname. rewrite <- Heq.
      apply elem_of_app. right. by right.
  - destruct (create_notion_properties run_data headers !! "Run ID") eqn:Hlook;
      [|done].
    destruct (Hkeys "Run ID") as (i & h & v & _ & _ & [[? _]|(<- & ? & _)]);
      [by rewrite Hlook|done|done].
Qed.

End Builder.

(** ** The row processor, whatever the run objects do *)

Section ProcessorFrame.
Context `{LocalZone}.
Implicit Types (existing_run_ids final_headers : list string) (user_name : string).

Lemma process_run_shapes run existing_run_ids final_headers user_name pages :
  ∃ r l,
    (∀ w, process_run run existing_run_ids final_headers user_name pages w
          = (r, add_log l w))
    ∧ ((∃ e, r = inl e ∧ l = [])
       ∨ (r = inr pages ∧ l = [])
       ∨ (∃ page, r = inr (pages ++ [page]) ∧ l = [])
       ∨ (∃ msg, r = inr pages ∧ l = [(ERROR, msg)])).
Proof.
  unfold process_run, bind, lift.
  destruct (run_filter run existing_run_ids user_name) as [e|[|]].
  - exists (inl e), []. split; [intros w; by rewrite add_log_nil|]. left. eauto.
  - destruct (build_row run final_headers) as [e|row].
    + destruct (run_id run AtHandler) as [e'|i].
      * exists (inl e'), []. split; [intros w; by rewrite add_log_nil|]. left. eauto.
      * eexists (inr pages), [_]. split; [intros w; by rewrite logger_add_log|].
        right. right. right. eauto.
    + eexists (inr _), []. split; [intros w; unfold ret; by rewrite add_log_nil|].
      right. right. left. eauto.
  - exists (inr pages), []. split; [intros w; unfold ret; by rewrite add_log_nil|].
    right. left. done.
Qed.

Lemma process_runs_from_shapes runs existing_run_ids final_headers user_name pages :
  ∃ r l,
    (∀ w, process_runs_from runs existing_run_ids final_headers user_name pages w
          = (r, add_log l w))
    ∧ Forall (λ record, record.1 = ERROR) l
    ∧ match r with
      | inr p => (length p + length l ≤ length pages + length runs)%nat
      | inl _ => (length l ≤ length runs)%nat
      end.
Proof.
  revert pages. induction runs as [|run runs IH]; intros pages; simpl.
  { exists (inr pages), []. split; [intros w; unfold ret; by rewrite add_log_nil|].
    split; [done|]. simpl. lia. }
  destruct (process_run_shapes run existing_run_ids final_headers user_name pages)
    as (r & l & Hrun & Hshape).
  destruct Hshape as [(e & -> & ->)|[[-> ->]|[(page & -> & ->)|(msg & -> & ->)]]].
  - exists (inl e), []. split; [intros w; unfold bind; by rewrite Hrun|].
    split; [done|]. simpl. lia.
  - destruct (IH pages) as (r' & l' & Hrest & Herr & Hlen).
    exists r', l'. split.
    { intros w. unfold bind. by rewrite Hrun, Hrest, add_log_app. }
    split; [done|]. destruct r'; lia.
  - destruct (IH (pages ++ [page])) as (r' & l' & Hrest & Herr & Hlen).
    exists r', l'. split.
    { intros w. unfold bind. by rewrite Hrun, Hrest, add_log_app. }
    split; [done|]. rewrite length_app in Hlen. simpl in Hlen. destruct r'; lia.
  - destruct (IH pages) as (r' & l' & Hrest & Herr & Hlen).
    exists r', ((ERROR, msg) :: l'). split.
    { intros w. unfold bind. by rewrite Hrun, Hrest, add_log_app. }
    split; [by constructor|]. simpl. destruct r'; lia.
Qed.

(** X13.  The row processor neither reads nor changes the destination: the
    outcome of a batch and the records it logs are the same from every world,
    and logging is all it does.  Every record it logs is an ERROR record, and a
    run gives a page or a record, never both: the pages returned and the
    records logged are together no more than the runs fetched. *)
Theorem process_runs_only_logs runs existing_run_ids final_headers user_name :
  ∃ r l,
    (∀ w, process_runs runs existing_run_ids final_headers user_name w
          = (r, add_log l w))
    ∧ Forall (λ record, record.1 = ERROR) l
    ∧ match r with
      | inr pages => (length pages + length l ≤ length runs)%nat
      | inl _ => (length l ≤ length runs)%nat
      end.
Proof. apply process_runs_from_shapes. Qed.

Lemma run_filter_false run existing_run_ids user_name :
  run_filter run existing_run_ids user_name = inr false ↔
  (∃ st, run_state run = inr st ∧ st ≠ "finished")
  ∨ (∃ i, run_state run = inr "finished" ∧ run_id run AtFilter = inr i
          ∧ i ∈ existing_run_ids)
  ∨ (∃ i u, run_state run = inr "finished" ∧ run_id run AtFilter = inr i
            ∧ (i ∉ existing_run_ids) ∧ run_user_name run AtFilter = inr u
            ∧ u ≠ user_name).
Proof.
  unfold run_filter.
  destruct (run_state run) as [e0|st]; simpl.
  { split; [done|]. intros [(? & ? & _)|[(? & ? & _)|(? & ? & ? & _)]]; done. }
  destruct (String.eqb_spec st "finished") as [->|Hst].
  2:{ split; [intros _; left; by exists st|done]. }
  destruct (run_id run AtFilter) as [e1|i]; simpl.
  { split; [done|].
    intros [(? & [= <-] & ?)|[(? & _ & ? & _)|(? & ? & _ & ? & _)]]; done. }
  case_bool_decide as Hin.
  { split; [intros _; right; left; by exists i|done]. }
  destruct (run_user_name run AtFilter) as [e2|u]; simpl.
  { split; [done|].
    intros [(? & [= <-] & ?)|[(? & _ & [= <-] & ?)|(? & ? & _ & _ & _ & ? & _)]];
      done. }
  destruct (String.eqb_spec u user_name) as [->|Hu].
  - split; [done|].
    intros [(? & [= <-] & ?)|[(? & _ & [= <-] & ?)|(? & ? & _ & _ & _ & [= <-] & ?)]];
      done.
  - split; [|done]. intros _. right. right. by exists i, u.
Qed.

(** X14.  A run that fails the inclusion test is passed over without a
    trace.  When the state read is not "finished", or the run is finished and
    its identifier is in the existing list, or it is finished and new and its
    user name is another than the target, the batch with that run ends as the
    batch without it: the same outcome, the same log.  Nothing else of the run
    is looked at, so it does not matter what its other reads would do (for a
    run that is not finished, reading its identifier or its user name may
    raise). *)
Theorem failed_test_leaves_no_trace pre run post existing_run_ids final_headers
    user_name w :
  (∃ st, run_state run = inr st ∧ st ≠ "finished")
  ∨ (∃ i, run_state run = inr "finished" ∧ run_id run AtFilter = inr i
          ∧ i ∈ existing_run_ids)
  ∨ (∃ i u, run_state run = inr "finished" ∧ run_id run AtFilter = inr i
            ∧ (i ∉ existing_run_ids) ∧ run_user_name run AtFilter = inr u
            ∧ u ≠ user_name) →
  process_runs (pre ++ run :: post) existing_run_ids final_headers user_name w
  = process_runs (pre ++ post) existing_run_ids final_headers user_name w.
Proof.
  intros Hskip.
  apply (proj2 (run_filter_false run existing_run_ids user_name)) in Hskip.
  unfold process_runs. rewrite !process_runs_from_app. unfold bind.
  destruct (process_runs_from pre _ _ _ _ w) as [[e|pages] w1]; [done|].
  simpl. unfold bind, process_run, lift. by rewrite Hskip.
Qed.

End ProcessorFrame.

(** ** Further samples *)

Section FurtherSamples.
#[local] Existing Instance UTC.

Lemma tick_follows_plan_witness :
  (∃ k k',
     w_rows (snd (main env_refusing sample_args empty_world))
     = w_rows empty_world
       ++ take k (planned_pages env_refusing sample_args [run_a; run_b; run_c])
     ∧ w_requests (snd (main env_refusing sample_args empty_world))
       = w_requests empty_world
         ++ take k' (planned_pages env_refusing sample_args [run_a; run_b; run_c]))
  ∧ (∀ e, get_existing_run_ids (notion_service env_refusing) (database_id sample_args)
          = inl e →
          w_rows (snd (main env_refusing sample_args empty_world)) = w_rows empty_world
          ∧ w_requests (snd (main env_refusing sample_args empty_world))
            = w_requests empty_world)
  ∧ (fst (main env_refusing sample_args empty_world) = inr tt →
     w_rows (snd (main env_refusing sample_args empty_world))
     = w_rows empty_world
       ++ planned_pages env_refusing sample_args [run_a; run_b; run_c]).
Proof.
  apply (tick_follows_plan env_refusing sample_args empty_world [run_a; run_b; run_c]).
  intros path. reflexivity.
Defined.

(** The tick of that witness, in full: of the two planned pages the first
    became a row, the second was requested and refused. *)
Example tick_against_refusal_sample :
  planned_pages env_refusing sample_args [run_a; run_b; run_c] = [page_b; page_c]
  ∧ fst (main env_refusing sample_args empty_world)
    = inl (NotionError "Failed to sync data: rate limited")
  ∧ w_rows (snd (main env_refusing sample_args empty_world)) = [page_b]
  ∧ w_requests (snd (main env_refusing sample_args empty_world)) = [page_b; page_c].
Proof. repeat split; vm_compute; reflexivity. Qed.

Lemma reader_reads_back_titles_witness :
  (Forall (λ properties, is_Some (title_of properties)) [page_a; page_b] →
   get_existing_run_ids (granting (echo_response [page_a; page_b])) "db-1"
   = inr (JStr <$> titles [page_a; page_b])
   ∧ str_items (JStr <$> titles [page_a; page_b]) = titles [page_a; page_b])
  ∧ (Exists (λ properties, title_of properties = None) [page_a; page_b] →
     ∃ msg, get_existing_run_ids (granting (echo_response [page_a; page_b])) "db-1"
            = inl (NotionError msg)).
Proof.
  apply (reader_reads_back_titles (granting (echo_response [page_a; page_b])) "db-1"
           [page_a; page_b]).
  reflexivity.
Defined.

Example reader_on_echo_sample :
  get_existing_run_ids (granting (echo_response [page_a; page_b])) "db-1"
  = inr [JStr "a1"; JStr "b2"].
Proof. vm_compute. reflexivity. Qed.

Lemma second_tick_creates_nothing_witness :
  w_rows (snd (main env_second_tick sample_args
                 (snd (main env_first_tick sample_args empty_world))))
  = w_rows (snd (main env_first_tick sample_args empty_world))
  ∧ w_requests (snd (main env_second_tick sample_args
                       (snd (main env_first_tick sample_args empty_world))))
    = w_requests (snd (main env_first_tick sample_args empty_world)).
Proof.
  apply (second_tick_creates_nothing env_first_tick env_second_tick sample_args
           empty_world (snd (main env_first_tick sample_args empty_world))
           [run_a; run_b]).
  - vm_compute. reflexivity.
  - intros path. reflexivity.
  - intros path. reflexivity.
  - reflexivity.
  - intros doc headers [= <-] [= <-]. apply sample_headers_title_first.
  - reflexivity.
  - vm_compute. reflexivity.
Defined.

Example two_ticks_sample :
  w_rows (snd (main env_first_tick sample_args empty_world)) = [page_a; page_b]
  ∧ w_rows (snd (main env_second_tick sample_args
                   (snd (main env_first_tick sample_args empty_world))))
    = [page_a; page_b].
Proof. split; vm_compute; reflexivity. Qed.

Lemma load_config_contract_witness :
  load_config env_first_tick "config.json" empty_world
  = (inr sample_loaded,
     add_log [(INFO, "Using WandB project: " +:+ PROJECT_NAME sample_loaded
                     +:+ " from team: " +:+ TEAM_NAME sample_loaded)] empty_world).
Proof.
  apply (proj1 (load_config_contract env_first_tick "config.json" empty_world)).
  exists {| doc_NOTION_TOKEN := Some "secret"; doc_FIXED_HEADERS := Some sample_headers |},
         {| project := "proj"; entity := "team" |}.
  repeat split; done.
Defined.

(** A configuration file with neither key, and no active run: the keys are
    what is reported. *)
Example load_config_missing_keys_sample :
  load_config
    {| config_file := fun _ => Parsed {| doc_NOTION_TOKEN := None;
                                         doc_FIXED_HEADERS := None |};
       wandb_run := None;
       notion_service := granting (response_of []);
       wandb_Api := None;
       api_runs := fun _ => {| fetched := []; fetch_error := None |} |}
    "config.json" empty_world
  = (inl (ConfigError
            "Missing required keys in config: ['NOTION_TOKEN', 'FIXED_HEADERS']"),
     empty_world).
Proof. vm_compute. reflexivity. Qed.

(** A configuration file that holds the number 5, and one that holds a list
    with the two key names: TypeError at line 66 and at line 72, which the
    tick logs and raises again. *)
Example load_config_not_an_object_sample :
  load_config
    {| config_file := fun _ => ParsedOther (TopInt 5);
       wandb_run := Some {| project := "proj"; entity := "team" |};
       notion_service := granting (response_of []);
       wandb_Api := None;
       api_runs := fun _ => {| fetched := []; fetch_error := None |} |}
    "config.json" empty_world
  = (inl (OtherError "TypeError" "argument of type 'int' is not iterable"), empty_world)
  ∧ main
      {| config_file := fun _ =>
           ParsedOther (TopList [JStr "NOTION_TOKEN"; JStr "FIXED_HEADERS"]);
         wandb_run := Some {| project := "proj"; entity := "team" |};
         notion_service := granting (response_of []);
         wandb_Api := None;
         api_runs := fun _ => {| fetched := []; fetch_error := None |} |}
      sample_args empty_world
    = (inl (OtherError "TypeError" "list indices must be integers or slices, not str"),
       add_log [(ERROR, "Error in main sync process: "
                        +:+ "list indices must be integers or slices, not str")]
         empty_world).
Proof. split; vm_compute; reflexivity. Qed.

Lemma init_notion_outcomes_witness :
  init_notion (sample_env database_not_shared []) "db-1" sample_loaded
  = inl (NotionError ("Failed to initialize Notion client: "
                      +:+ "Failed to access Notion database: "
                      +:+ exn_str object_not_found)).
Proof.
  apply (proj1 (init_notion_outcomes (sample_env database_not_shared []) "db-1"
                  sample_loaded)).
  reflexivity.
Defined.

Lemma tick_error_kinds_witness :
  (∃ msg, NotionError "Failed to sync data: rate limited" = ConfigError msg)
  ∨ (∃ msg, NotionError "Failed to sync data: rate limited" = NotionError msg).
Proof.
  apply (tick_error_kinds env_refusing sample_args empty_world
           (NotionError "Failed to sync data: rate limited")
           (snd (main env_refusing sample_args empty_world))
           [run_a; run_b; run_c]).
  - vm_compute. reflexivity.
  - right. right. by eexists.
  - intros path. reflexivity.
Defined.

Lemma tick_return_effects_witness :
  ∃ current_run,
    wandb_run env_first_tick = Some current_run
    ∧ snd (main env_first_tick sample_args empty_world)
      = {| w_log :=
             w_log empty_world
             ++ [(INFO, "Using WandB project: " +:+ project current_run
                        +:+ " from team: " +:+ entity current_run);
                 (INFO, match planned_pages env_first_tick sample_args [run_a; run_b] with
                        | [] => "No new runs to add"
                        | new => "Successfully added "
                                 +:+ str_int (Z.of_nat (length new)) +:+ " new runs"
                        end)];
           w_rows := w_rows empty_world
                     ++ planned_pages env_first_tick sample_args [run_a; run_b];
           w_requests := w_requests empty_world
                         ++ planned_pages env_first_tick sample_args [run_a; run_b];
           w_slept := w_slept empty_world
                      ++ replicate
                           (length (planned_pages env_first_tick sample_args
                                      [run_a; run_b])) (1 # 2)%Q |}.
Proof.
  apply (tick_return_effects env_first_tick sample_args empty_world
           (snd (main env_first_tick sample_args empty_world)) [run_a; run_b]).
  - vm_compute. reflexivity.
  - intros path. reflexivity.
Defined.

Example first_tick_sample :
  main env_first_tick sample_args empty_world
  = (inr tt,
     {| w_log := [(INFO, "Using WandB project: proj from team: team");
                  (INFO, "Successfully added 2 new runs")];
        w_rows := [page_a; page_b];
        w_requests := [page_a; page_b];
        w_slept := [(1 # 2)%Q; (1 # 2)%Q] |}).
Proof. vm_compute. reflexivity. Qed.

Lemma create_notion_properties_lookup_witness :
  create_notion_properties (spec_row run_a sample_headers) sample_headers !! "Name"
  = Some (Title "a1")
  ∧ create_notion_properties (spec_row run_b sample_headers) sample_headers !! "Timestamp"
    = None
  ∧ create_notion_properties (spec_row run_c sample_headers) sample_headers !! "lr"
    = Some (RichText "").
Proof.
  assert (NoDup sample_headers) as Hnd.
  { apply (bool_decide_unpack _). vm_compute. exact I. }
  assert ("Name" ∉ sample_headers) as Hname.
  { apply (bool_decide_unpack _). vm_compute. exact I. }
  split; [|split].
  - apply (proj1 (create_notion_properties_lookup (spec_row run_a sample_headers)
                    sample_headers) Hnd Hname 0%nat "Run ID" "a1");
      reflexivity.
  - apply (proj1 (create_notion_properties_lookup (spec_row run_b sample_headers)
                    sample_headers) Hnd Hname 1%nat "Timestamp" "");
      reflexivity.
  - apply (proj1 (create_notion_properties_lookup (spec_row run_c sample_headers)
                    sample_headers) Hnd Hname 3%nat "lr" "");
      reflexivity.
Defined.

Lemma failed_test_leaves_no_trace_witness :
  process_runs ([remote run_a] ++ without_user run_running :: [remote run_b])
    [] sample_headers "alice" empty_world
  = process_runs ([remote run_a] ++ [remote run_b]) [] sample_headers "alice" empty_world.
Proof.
  apply (failed_test_leaves_no_trace [remote run_a] (without_user run_running)
           [remote run_b] [] sample_headers "alice" empty_world).
  left. exists "running". split; [reflexivity|discriminate].
Defined.

End FurtherSamples.
